(** * Garuda360: maintenance forecast and usage summary

    A shallow embedding of [predict_next_service] and of the aggregate part of
    [vehicle_detail] (app/routes.py), over the tables declared in
    app/models.py, and the properties the specification states about them.

    Conventions of the embedding:
    - Python integers are [Z]; SQL REAL / Python float values are modelled as
      exact rationals [Q] (rounding is outside the model), compared with [==];
    - the odometer of a vehicle, a nullable column that [edit_vehicle] fills
      with form text, is a [value]: [None], an [int] or a [str]; adding an
      [int] to the first or the last raises TypeError;
    - a [datetime.date] is represented by its proleptic Gregorian ordinal, the
      quantity on which Python performs date arithmetic and comparison;
    - the database and the wall clock are an explicit [World] threaded through
      a small state-and-exception monad; a raised Python exception is the
      [Raise] outcome. *)

From Stdlib Require Import ZArith QArith List String Bool Lia.
From Stdlib Require Import Sorted Permutation.
Import ListNotations.
Local Open Scope Z_scope.
Bind Scope string_scope with string.

(* ================================================================== *)
(** * datetime: dates and timedeltas *)
(* ================================================================== *)

Module datetime.

(** A date, held as the value of [date.toordinal()]. *)
Record date : Type := fromordinal { toordinal : Z }.

(** A [timedelta] built with [timedelta(days=n)]. *)
Record timedelta : Type := mk_timedelta { days : Z }.

Definition MAXORDINAL : Z := 3652059.   (* date(9999, 12, 31).toordinal() *)
Definition MAX_DELTA_DAYS : Z := 999999999.

(** ** The calendar of datetime.py *)

Definition is_leap (year : Z) : bool :=
  (year mod 4 =? 0) && (negb (year mod 100 =? 0) || (year mod 400 =? 0)).

Definition days_before_year (year : Z) : Z :=
  let y := year - 1 in y * 365 + y / 4 - y / 100 + y / 400.

Definition DAYS_IN_MONTH : list Z :=
  [-1; 31; 28; 31; 30; 31; 30; 31; 31; 30; 31; 30; 31].

Definition DAYS_BEFORE_MONTH : list Z :=
  [-1; 0; 31; 59; 90; 120; 151; 181; 212; 243; 273; 304; 334].

Definition index (table : list Z) (i : Z) : Z := nth (Z.to_nat i) table 0.

Definition days_before_month (year month : Z) : Z :=
  index DAYS_BEFORE_MONTH month
  + (if (2 <? month) && is_leap year then 1 else 0).

Definition ymd2ord (year month day : Z) : Z :=
  days_before_year year + days_before_month year month + day.

Definition DI400Y : Z := Eval cbv in days_before_year 401.
Definition DI100Y : Z := Eval cbv in days_before_year 101.
Definition DI4Y : Z := Eval cbv in days_before_year 5.

Definition ord2ymd (n : Z) : Z * Z * Z :=
  let n := n - 1 in
  let n400 := n / DI400Y in
  let n := n mod DI400Y in
  let year := n400 * 400 + 1 in
  let n100 := n / DI100Y in
  let n := n mod DI100Y in
  let n4 := n / DI4Y in
  let n := n mod DI4Y in
  let n1 := n / 365 in
  let n := n mod 365 in
  let year := year + n100 * 100 + n4 * 4 + n1 in
  if (n1 =? 4) || (n100 =? 4) then (year - 1, 12, 31)
  else
    let leapyear := (n1 =? 3) && (negb (n4 =? 24) || (n100 =? 3)) in
    let month := Z.shiftr (n + 50) 5 in
    let preceding :=
      index DAYS_BEFORE_MONTH month
      + (if (2 <? month) && leapyear then 1 else 0) in
    if n <? preceding then
      let month := month - 1 in
      let preceding :=
        preceding
        - (index DAYS_IN_MONTH month
           + (if (month =? 2) && leapyear then 1 else 0)) in
      (year, month, n - preceding + 1)
    else (year, month, n - preceding + 1).

(** [date(year, month, day)] for fields that name a calendar day. *)
Definition ymd (year month day : Z) : date :=
  fromordinal (ymd2ord year month day).

(** The fields [(d.year, d.month, d.day)]. *)
Definition fields (d : date) : Z * Z * Z := ord2ymd (toordinal d).

(** A date object always lies between [date.min] and [date.max]. *)
Definition valid (d : date) : Prop := 1 <= toordinal d <= MAXORDINAL.

(** Comparison of dates is comparison of ordinals. *)
Definition leb (a b : date) : bool := toordinal a <=? toordinal b.

End datetime.
Export datetime(date, fromordinal, toordinal, timedelta).

(* ================================================================== *)
(** * Outcomes and the monad of the request handlers *)
(* ================================================================== *)

Inductive exn : Type :=
| OverflowError          (* date arithmetic out of range *)
| TypeError.             (* [+] between operands that cannot be added *)

(** The Python objects an integer column can hand back: [None] for NULL,
    an [int], or a [str] where text was stored in the column. *)
Inductive value : Type :=
| PyNone
| PyInt (z : Z)
| PyStr (s : string).
Coercion PyInt : Z >-> value.

Inductive outcome (A : Type) : Type :=
| Ok (a : A)
| Raise (e : exn).
Arguments Ok {A} a.
Arguments Raise {A} e.

(** [timedelta(days=n)]: the magnitude check of the constructor. *)
Definition timedelta_days (n : Z) : outcome timedelta :=
  if Z.abs n <=? datetime.MAX_DELTA_DAYS
  then Ok (datetime.mk_timedelta n)
  else Raise OverflowError.

(** [date.__add__]: the sum of the ordinals, when it names a date. *)
Definition date_add (d : date) (delta : timedelta) : outcome date :=
  let o := toordinal d + datetime.days delta in
  if (0 <? o) && (o <=? datetime.MAXORDINAL)
  then Ok (fromordinal o)
  else Raise OverflowError.

(** The state of the application: the two tables the handlers read and the
    day the wall clock shows ([date.today()]). *)

Module Vehicle.
(** class Vehicle(db.Model): the columns the handlers read.  The
    odometer column is nullable, and [edit_vehicle] assigns it the text of
    the form field unparsed, so what a handler reads there is [None], an
    [int] or a [str]. *)
Record t : Type := mk {
  id : Z;
  current_odometer : value
}.
End Vehicle.

Module ServiceEvent.
(** class ServiceEvent(db.Model).  [service_date] and
    [odometer_at_service] are declared NOT NULL, yet
    [predict_next_service] guards both attributes with [or]; they are kept
    optional here so that the guard is modelled rather than erased. *)
Record t : Type := mk {
  id : Z;
  vehicle_id : Z;
  service_date : option date;
  odometer_at_service : option Z;
  service_type : option string;
  total_cost : option Q
}.
End ServiceEvent.

Module FuelEntry.
(** class FuelEntry(db.Model). *)
Record t : Type := mk {
  id : Z;
  vehicle_id : Z;
  odometer : Z;
  liters : Q;
  total_cost : option Q
}.
End FuelEntry.

Record World : Type := mkWorld {
  service_event : list ServiceEvent.t;   (* table service_event, in row order *)
  fuel_entry : list FuelEntry.t;         (* table fuel_entry, in row order *)
  today : date                           (* date.today() *)
}.

Definition M (A : Type) : Type := World -> outcome A * World.

Definition ret {A} (a : A) : M A := fun w => (Ok a, w).

Definition bind {A B} (m : M A) (k : A -> M B) : M B :=
  fun w =>
    match m w with
    | (Ok a, w') => k a w'
    | (Raise e, w') => (Raise e, w')
    end.

Definition lift {A} (r : outcome A) : M A := fun w => (r, w).

Declare Scope handler_scope.
Delimit Scope handler_scope with handler.
Notation "x <- m ;; k" := (bind m (fun x => k))
  (at level 61, m at next level, right associativity) : handler_scope.
Notation "' p <- m ;; k" := (bind m (fun x => match x with p => k end))
  (at level 61, p pattern, m at next level, right associativity) : handler_scope.
Local Open Scope handler_scope.

(** [date.today()] *)
Definition date_today : M date := fun w => (Ok (today w), w).

(** [ServiceEvent.query] and the rows of [fuel_entry]: reads of the store. *)
Definition ServiceEvent_query : M (list ServiceEvent.t) :=
  fun w => (Ok (service_event w), w).

Definition FuelEntry_rows : M (list FuelEntry.t) :=
  fun w => (Ok (fuel_entry w), w).

(* ================================================================== *)
(** * The query of [predict_next_service] *)
(* ================================================================== *)

Definition option_string_eqb (a : option string) (b : string) : bool :=
  match a with
  | Some s => String.eqb s b
  | None => false            (* NULL = 'x' is not true *)
  end.

(** [.filter_by(vehicle_id=vehicle.id, service_type=service_type)] *)
Definition filter_by (vid : Z) (service_type : string)
    (rows : list ServiceEvent.t) : list ServiceEvent.t :=
  filter (fun ev =>
            (ServiceEvent.vehicle_id ev =? vid)
            && option_string_eqb (ServiceEvent.service_type ev) service_type)
         rows.

(** The sort key of [ORDER BY service_date]: NULL sorts below every date
    (the column is declared NOT NULL, so this only matters for rows the
    schema excludes). *)
Definition key_leb (a b : option date) : bool :=
  match a, b with
  | None, _ => true
  | Some _, None => false
  | Some x, Some y => datetime.leb x y
  end.

(** [.order_by(ServiceEvent.service_date.desc())]: a stable sort, latest
    date first; rows with the same date keep their row order (SQL leaves the
    order of ties open; the properties below hold for any choice among the
    rows with the latest date unless they name a sample). *)
Fixpoint insert_desc (ev : ServiceEvent.t) (sorted : list ServiceEvent.t)
    : list ServiceEvent.t :=
  match sorted with
  | [] => [ev]
  | y :: rest =>
      if key_leb (ServiceEvent.service_date y) (ServiceEvent.service_date ev)
      then ev :: y :: rest
      else y :: insert_desc ev rest
  end.

Definition order_by_service_date_desc (rows : list ServiceEvent.t)
    : list ServiceEvent.t :=
  fold_right insert_desc [] rows.

(** [.first()] *)
Definition first {A} (rows : list A) : option A := hd_error rows.

(* ================================================================== *)
(** * predict_next_service *)
(* ================================================================== *)

Module Prediction.
(** The dict returned by [predict_next_service]. *)
Record t : Type := mk {
  service_type : string;
  last_date : date;
  last_odo : value;
  next_date : date;
  next_odo : Z
}.
End Prediction.

(** [x or y] on an optional integer: [None] and [0] are falsy. *)
Definition int_or (x : option Z) (y : value) : value :=
  match x with
  | Some v => if v =? 0 then y else PyInt v
  | None => y
  end.

(** [x + k] for an [int] [k]: [None + int] and [str + int] raise
    TypeError. *)
Definition add_int (x : value) (k : Z) : outcome Z :=
  match x with
  | PyInt z => Ok (z + k)
  | PyNone => Raise TypeError
  | PyStr _ => Raise TypeError
  end.

(** [x or date.today()] on an optional date: every date object is truthy. *)
Definition date_or_today (x : option date) : M date :=
  match x with
  | Some d => ret d
  | None => date_today
  end.

(** Lines 61-66: the last service of this type, if any. *)
Definition query_last_event (vid : Z) (service_type : string)
    : M (option ServiceEvent.t) :=
  rows <- ServiceEvent_query ;;
  ret (first (order_by_service_date_desc (filter_by vid service_type rows))).

Definition predict_next_service (vehicle : Vehicle.t) (service_type : string)
    (km_interval months_interval : Z) : M Prediction.t :=
  last_event <- query_last_event (Vehicle.id vehicle) service_type ;;
  '(last_date, last_odo) <-
    match last_event with
    | Some ev =>
        last_date <- date_or_today (ServiceEvent.service_date ev) ;;
        ret (last_date,
             int_or (ServiceEvent.odometer_at_service ev)
                    (Vehicle.current_odometer vehicle))
    | None =>
        last_date <- date_today ;;
        ret (last_date, Vehicle.current_odometer vehicle)
    end ;;
  delta <- lift (timedelta_days (months_interval * 30)) ;;
  next_date <- lift (date_add last_date delta) ;;
  next_odo <- lift (add_int last_odo km_interval) ;;
  ret (Prediction.mk service_type last_date last_odo next_date next_odo).

(* ================================================================== *)
(** * SQL expressions of the two summary queries *)
(* ================================================================== *)

Module sql.

(** [COUNT( * )] *)
Definition count {A} (rows : list A) : Z := Z.of_nat (List.length rows).

(** The values an aggregate sees: NULLs are skipped. *)
Fixpoint non_null {A} (xs : list (option A)) : list A :=
  match xs with
  | [] => []
  | Some v :: rest => v :: non_null rest
  | None :: rest => non_null rest
  end.

(** [SUM(x)]: NULL when no row contributes a value. *)
Definition sum (xs : list (option Q)) : option Q :=
  match non_null xs with
  | [] => None
  | v :: vs => Some (fold_left Qplus vs v)
  end.

(** [MAX(x)] and [MIN(x)] over an integer column. *)
Definition max (xs : list (option Z)) : option Z :=
  match non_null xs with
  | [] => None
  | v :: vs => Some (fold_left Z.max vs v)
  end.

Definition min (xs : list (option Z)) : option Z :=
  match non_null xs with
  | [] => None
  | v :: vs => Some (fold_left Z.min vs v)
  end.

(** [COALESCE(x, d)] with a non-NULL default. *)
Definition coalesce {A} (x : option A) (d : A) : A :=
  match x with
  | Some v => v
  | None => d
  end.

(** [a > b]: unknown (NULL) when an operand is NULL. *)
Definition gt (a b : option Q) : option bool :=
  match a, b with
  | Some x, Some y => Some (negb (Qle_bool x y))
  | _, _ => None
  end.

(** [a - b] on integers. *)
Definition sub (a b : option Z) : option Z :=
  match a, b with
  | Some x, Some y => Some (x - y)
  | _, _ => None
  end.

(** [a * r] for an integer [a] and a REAL literal [r]. *)
Definition mul_real (a : option Z) (r : Q) : option Q :=
  match a with
  | Some x => Some (inject_Z x * r)%Q
  | None => None
  end.

(** [a / b] on REAL values; a zero divisor yields NULL.  In
    [sql_fuel_summary] the divisor is positive whenever this is reached. *)
Definition div (a b : option Q) : option Q :=
  match a, b with
  | Some x, Some y => if Qeq_bool y 0 then None else Some (x / y)%Q
  | _, _ => None
  end.

(** [CASE WHEN c THEN t ELSE e END]: the THEN branch needs [c] true. *)
Definition case_when {A} (c : option bool) (t e : option A) : option A :=
  match c with
  | Some true => t
  | _ => e
  end.

End sql.

(** The row of [sql_service_summary]. *)
Module ServiceSummaryRow.
Record t : Type := mk {
  service_count : Z;
  total_expense : Q
}.
End ServiceSummaryRow.

(** The row of [sql_fuel_summary]. *)
Module FuelSummaryRow.
Record t : Type := mk {
  total_fuel_cost : Q;
  total_liters : Q;
  km_per_liter : option Q
}.
End FuelSummaryRow.

(** SELECT COUNT( * ), COALESCE(SUM(total_cost), 0)
    FROM service_event WHERE vehicle_id = :vid *)
Definition sql_service_summary (vid : Z) : M ServiceSummaryRow.t :=
  table <- ServiceEvent_query ;;
  let rows := filter (fun ev => ServiceEvent.vehicle_id ev =? vid) table in
  ret (ServiceSummaryRow.mk
         (sql.count rows)
         (sql.coalesce (sql.sum (map ServiceEvent.total_cost rows)) 0%Q)).

(** SELECT COALESCE(SUM(total_cost), 0), COALESCE(SUM(liters), 0),
           CASE WHEN SUM(liters) > 0
                THEN (MAX(odometer) - MIN(odometer)) * 1.0 / SUM(liters)
                ELSE NULL END
    FROM fuel_entry WHERE vehicle_id = :vid *)
Definition sql_fuel_summary (vid : Z) : M FuelSummaryRow.t :=
  table <- FuelEntry_rows ;;
  let rows := filter (fun f => FuelEntry.vehicle_id f =? vid) table in
  let sum_liters := sql.sum (map (fun f => Some (FuelEntry.liters f)) rows) in
  let odometer := map (fun f => Some (FuelEntry.odometer f)) rows in
  ret (FuelSummaryRow.mk
         (sql.coalesce (sql.sum (map FuelEntry.total_cost rows)) 0%Q)
         (sql.coalesce sum_liters 0%Q)
         (sql.case_when (sql.gt sum_liters (Some 0%Q))
            (sql.div
               (sql.mul_real (sql.sub (sql.max odometer) (sql.min odometer)) 1%Q)
               sum_liters)
            None)).

(* ================================================================== *)
(** * vehicle_detail *)
(* ================================================================== *)

(** [x or y] on numbers: zero is falsy. *)
Definition Z_or (x y : Z) : Z := if x =? 0 then y else x.
Definition Q_or (x y : Q) : Q := if Qeq_bool x 0 then y else x.

(** [float(x)] is the identity on the rationals that stand for floats. *)
Definition float (x : Q) : Q := x.

(** The aggregate values [vehicle_detail] hands to the template. *)
Module Summary.
Record t : Type := mk {
  service_count : Z;
  total_service_expense : Q;
  total_fuel_cost : Q;
  total_liters : Q;
  km_per_liter : option Q
}.
End Summary.

(** Steps 1) and 2) of [vehicle_detail] (routes.py lines 179-207). *)
Definition usage_summary (vehicle : Vehicle.t) : M Summary.t :=
  svc <- sql_service_summary (Vehicle.id vehicle) ;;
  let service_count := Z_or (ServiceSummaryRow.service_count svc) 0 in
  let total_service_expense :=
    float (Q_or (ServiceSummaryRow.total_expense svc) 0%Q) in
  fuel <- sql_fuel_summary (Vehicle.id vehicle) ;;
  let total_fuel_cost := float (Q_or (FuelSummaryRow.total_fuel_cost fuel) 0%Q) in
  let total_liters := float (Q_or (FuelSummaryRow.total_liters fuel) 0%Q) in
  let km_per_liter := FuelSummaryRow.km_per_liter fuel in
  ret (Summary.mk service_count total_service_expense
                  total_fuel_cost total_liters km_per_liter).

(** A maintenance rule: (service_type, km_int, months_int). *)
Definition rule : Type := (string * Z * Z)%type.

Definition rules : list rule :=
  [ ("Oil Change"%string, 5000, 6);
    ("Brake Pads"%string, 30000, 24);
    ("Wipers"%string, 20000, 18) ].

(** The loop of step 3) (lines 222-224): [predictions] is the list built so
    far, each iteration appends one prediction. *)
Fixpoint for_rules (vehicle : Vehicle.t) (todo : list rule)
    (predictions : list Prediction.t) : M (list Prediction.t) :=
  match todo with
  | [] => ret predictions
  | (service_type, km_int, months_int) :: rest =>
      pred <- predict_next_service vehicle service_type km_int months_int ;;
      for_rules vehicle rest (predictions ++ [pred])
  end.

(** Step 3) for a given rule list (lines 214-224). *)
Definition service_predictions (vehicle : Vehicle.t) (rs : list rule)
    : M (list Prediction.t) :=
  for_rules vehicle rs [].

(** The context [vehicle_detail] renders. *)
Module Context.
Record t : Type := mk {
  vehicle : Vehicle.t;
  summary : Summary.t;
  service_predictions : list Prediction.t
}.
End Context.

(** [vehicle_detail], from the vehicle that
    [get_vehicle_for_current_user] found (access control and the rendering
    of the template are outside the model). *)
Definition vehicle_detail (vehicle : Vehicle.t) : M Context.t :=
  summary <- usage_summary vehicle ;;
  predictions <- service_predictions vehicle rules ;;
  ret (Context.mk vehicle summary predictions).

(* ================================================================== *)
(** * Sample data *)
(* ================================================================== *)

Module Sample.

Definition camry : Vehicle.t := Vehicle.mk 7 45000.

Definition oil_2023 : ServiceEvent.t :=
  ServiceEvent.mk 1 7 (Some (datetime.ymd 2023 1 1)) (Some 40000)
                  (Some "Oil Change"%string) (Some (3 # 2)%Q).

(** Entered through the form with the odometer field left blank. *)
Definition oil_2024 : ServiceEvent.t :=
  ServiceEvent.mk 2 7 (Some (datetime.ymd 2024 1 1)) (Some 0)
                  (Some "Oil Change"%string) None.

Definition brakes_2023 : ServiceEvent.t :=
  ServiceEvent.mk 3 7 (Some (datetime.ymd 2023 6 15)) (Some 42000)
                  (Some "Brake Pads"%string) (Some 250%Q).

Definition fill_1 : FuelEntry.t := FuelEntry.mk 1 7 1000 10%Q None.
Definition fill_2 : FuelEntry.t := FuelEntry.mk 2 7 1400 10%Q (Some 5%Q).

Definition garage : World :=
  mkWorld [oil_2023; oil_2024; brakes_2023] [fill_1; fill_2]
          (datetime.ymd 2024 3 1).

(** No rows at all. *)
Definition empty : World := mkWorld [] [] (datetime.ymd 2024 3 1).

End Sample.

(* ================================================================== *)
(** * Well-formed input *)
(* ================================================================== *)

(** Section 3 of the specification assumes that dates are calendar dates:
    the clock and every recorded service date lie in the range of
    [datetime.date]. *)
Definition wf_world (w : World) : Prop :=
  datetime.valid (today w)
  /\ forall ev d, In ev (service_event w) ->
                  ServiceEvent.service_date ev = Some d -> datetime.valid d.

(** [shifts_in_range w days]: every date of [w] moved by [days] is still a
    date.  This is what makes [last_date + timedelta(days)] defined whatever
    the anchor turns out to be. *)
Definition in_range (o : Z) : Prop := 0 < o <= datetime.MAXORDINAL.

Definition shifts_in_range (w : World) (days : Z) : Prop :=
  in_range (toordinal (today w) + days)
  /\ forall ev d, In ev (service_event w) ->
                  ServiceEvent.service_date ev = Some d ->
                  in_range (toordinal d + days).

(** A row matches a rule of a vehicle. *)
Definition matches (vid : Z) (st : string) (ev : ServiceEvent.t) : Prop :=
  ServiceEvent.vehicle_id ev = vid /\ ServiceEvent.service_type ev = Some st.

(** [a] is not dated before [b] (a missing date counts as earliest). *)
Definition not_before (a b : ServiceEvent.t) : Prop :=
  key_leb (ServiceEvent.service_date b) (ServiceEvent.service_date a) = true.

(** The state after a handler and its outcome. *)
Definition result {A} (m : M A) (w : World) : outcome A := fst (m w).
Definition final {A} (m : M A) (w : World) : World := snd (m w).

(* ================================================================== *)
(** * The anchor and the projection of [predict_next_service] *)
(* ================================================================== *)

(** The values of the local variables [last_event], [last_date] and
    [last_odo] in a given state. *)
Definition last_event_in (w : World) (v : Vehicle.t) (st : string)
    : option ServiceEvent.t :=
  first (order_by_service_date_desc
           (filter_by (Vehicle.id v) st (service_event w))).

Definition last_date_in (w : World) (v : Vehicle.t) (st : string) : date :=
  match last_event_in w v st with
  | Some ev =>
      match ServiceEvent.service_date ev with
      | Some d => d
      | None => today w
      end
  | None => today w
  end.

Definition last_odo_in (w : World) (v : Vehicle.t) (st : string) : value :=
  match last_event_in w v st with
  | Some ev =>
      int_or (ServiceEvent.odometer_at_service ev) (Vehicle.current_odometer v)
  | None => Vehicle.current_odometer v
  end.

(* ================================================================== *)
(** * The histories of a vehicle *)
(* ================================================================== *)

(** The rows selected by [WHERE vehicle_id = :vid]. *)
Definition service_rows (w : World) (v : Vehicle.t) : list ServiceEvent.t :=
  filter (fun ev => ServiceEvent.vehicle_id ev =? Vehicle.id v) (service_event w).

Definition fuel_rows (w : World) (v : Vehicle.t) : list FuelEntry.t :=
  filter (fun f => FuelEntry.vehicle_id f =? Vehicle.id v) (fuel_entry w).

(** The total volume of a fuel history, and its odometer readings. *)
Definition total_volume (rows : list FuelEntry.t) : Q :=
  fold_right (fun f acc => (FuelEntry.liters f + acc)%Q) 0%Q rows.

Definition odometers (rows : list FuelEntry.t) : list Z :=
  map FuelEntry.odometer rows.

(** [m] is the greatest (least) element of [xs]. *)
Definition greatest (m : Z) (xs : list Z) : Prop :=
  In m xs /\ forall x, In x xs -> x <= m.

Definition least (m : Z) (xs : list Z) : Prop :=
  In m xs /\ forall x, In x xs -> m <= x.

(** Two rule lists that differ at most at position [i]. *)
Definition same_except {A} (i : nat) (xs ys : list A) : Prop :=
  List.length xs = List.length ys
  /\ forall j, j <> i -> nth_error xs j = nth_error ys j.

(** The prediction of one rule. *)
(** The integer an [int] object holds. *)
Definition as_int (x : value) : Z :=
  match x with
  | PyInt z => z
  | _ => 0
  end.

Definition predict_rule (v : Vehicle.t) (r : rule) : M Prediction.t :=
  let '(service_type, km_int, months_int) := r in
  predict_next_service v service_type km_int months_int.

(** A cost with NULL read as nothing spent, and the totals of a history
    read that way. *)
Definition null_as_zero (c : option Q) : Q :=
  match c with
  | Some x => x
  | None => 0%Q
  end.

Definition total_service_cost (rows : list ServiceEvent.t) : Q :=
  fold_right (fun ev acc => (null_as_zero (ServiceEvent.total_cost ev) + acc)%Q)
             0%Q rows.

Definition total_fuel_spend (rows : list FuelEntry.t) : Q :=
  fold_right (fun f acc => (null_as_zero (FuelEntry.total_cost f) + acc)%Q)
             0%Q rows.

(* ================================================================== *)
(** * list_services *)
(* ================================================================== *)

(** [list_services] (lines 399-410), from the vehicle that
    [get_vehicle_for_current_user] found: the rows handed to
    services.html. *)
Definition list_services (vehicle : Vehicle.t) : M (list ServiceEvent.t) :=
  rows <- ServiceEvent_query ;;
  ret (order_by_service_date_desc
         (filter (fun ev => ServiceEvent.vehicle_id ev =? Vehicle.id vehicle)
                 rows)).


(* ================================================================== *)
(** * Owners, groups and the vehicles a user may see *)
(* ================================================================== *)

Module User.
(** class User(UserMixin, db.Model): the columns read by the access
    check. *)
Record t : Type := mk {
  id : Z;
  email : string
}.
End User.

Module OwnerGroup.
(** class OwnerGroup(db.Model) *)
Record t : Type := mk {
  id : Z
}.
End OwnerGroup.

Module OwnerGroupUser.
(** class OwnerGroupUser(db.Model): a user's link to a group. *)
Record t : Type := mk {
  id : Z;
  group_id : Z;
  user_id : Z
}.
End OwnerGroupUser.

Module VehicleRow.
(** A row of table vehicle: the columns of [Vehicle.t] and the group. *)
Record t : Type := mk {
  vehicle : Vehicle.t;
  group_id : Z
}.
Definition id (row : t) : Z := Vehicle.id (vehicle row).
End VehicleRow.

(** The state a request meets: the tables of users, vehicles, groups and
    links, the user of the session ([None] for an anonymous visitor) and
    the state of the handlers above. *)
Record Site : Type := mkSite {
  user_table : list User.t;
  vehicle_table : list VehicleRow.t;
  owner_group : list OwnerGroup.t;
  owner_group_user : list OwnerGroupUser.t;
  current_user : option User.t;
  world : World
}.

(** How a view ends when it does not render. *)
Inductive abort : Type :=
| NotFound                 (* first_or_404 found no row *)
| LoginRequired            (* login_required turned an anonymous visitor away *)
| AttributeError           (* an attribute the anonymous user does not have *)
| Uncaught (e : exn)       (* an exception of the handler *)
| BadRequestKeyError (key : string)   (* request.form[key], key not sent *)
| ValueError.              (* strptime or int or float refused the text *)

Inductive response (A : Type) : Type :=
| Done (a : A)
| Abort (e : abort).
Arguments Done {A} a.
Arguments Abort {A} e.

Definition ADMIN_EMAIL : string := "admin@garuda360.com".

(** Vehicle JOIN OwnerGroup ON Vehicle.group_id = OwnerGroup.id
            JOIN OwnerGroupUser ON OwnerGroup.id = OwnerGroupUser.group_id
    WHERE OwnerGroupUser.user_id = :uid, one vehicle per joined row. *)
Definition owned_vehicles (s : Site) (uid : Z) : list VehicleRow.t :=
  flat_map
    (fun v =>
       flat_map
         (fun g =>
            map (fun _ => v)
                (filter (fun l =>
                           (OwnerGroup.id g =? OwnerGroupUser.group_id l)
                           && (OwnerGroupUser.user_id l =? uid))
                        (owner_group_user s)))
         (filter (fun g => VehicleRow.group_id v =? OwnerGroup.id g)
                 (owner_group s)))
    (vehicle_table s).

Definition vehicle_query_for_current_user (s : Site)
    : response (list VehicleRow.t) :=
  let is_admin :=
    match current_user s with
    | Some u => String.eqb (User.email u) ADMIN_EMAIL
    | None => false            (* is_authenticated is False *)
    end in
  if is_admin then Done (vehicle_table s)
  else
    match current_user s with
    | Some u => Done (owned_vehicles s (User.id u))
    | None => Abort AttributeError       (* current_user.id *)
    end.

(** [.filter(Vehicle.id == vehicle_id).first_or_404()] *)
Definition get_vehicle_for_current_user (vehicle_id : Z) (s : Site)
    : response VehicleRow.t :=
  match vehicle_query_for_current_user s with
  | Done rows =>
      match first (filter (fun v => VehicleRow.id v =? vehicle_id) rows) with
      | Some v => Done v
      | None => Abort NotFound
      end
  | Abort e => Abort e
  end.

(** [@login_required] of flask-login: a visitor who is not authenticated
    does not reach the view. *)
Definition login_required {A} (view : Site -> response A) (s : Site)
    : response A :=
  match current_user s with
  | Some _ => view s
  | None => Abort LoginRequired
  end.

(** [.all()] on a query of Vehicle entities: each entity is returned once,
    at its first row. *)
Fixpoint unique_entities (seen : list Z) (rows : list VehicleRow.t)
    : list VehicleRow.t :=
  match rows with
  | [] => []
  | v :: rest =>
      if existsb (Z.eqb (VehicleRow.id v)) seen
      then unique_entities seen rest
      else v :: unique_entities (VehicleRow.id v :: seen) rest
  end.

(** The view [list_vehicles]: the vehicles handed to vehicles.html. *)
Definition list_vehicles : Site -> response (list VehicleRow.t) :=
  login_required
    (fun s =>
       match vehicle_query_for_current_user s with
       | Done rows => Done (unique_entities [] rows)
       | Abort e => Abort e
       end).

(** The view [vehicle_detail(vehicle_id)]: the access check, then the
    handler above on the vehicle found. *)
Definition vehicle_detail_view (vehicle_id : Z) : Site -> response Context.t :=
  login_required
    (fun s =>
       match get_vehicle_for_current_user vehicle_id s with
       | Done row =>
           match result (vehicle_detail (VehicleRow.vehicle row)) (world s) with
           | Ok c => Done c
           | Raise e => Abort (Uncaught e)
           end
       | Abort e => Abort e
       end).

(** User [uid] belongs to the group of the vehicle row: the group exists
    and a link ties the user to it. *)
Definition member (s : Site) (uid : Z) (row : VehicleRow.t) : Prop :=
  exists g l,
    In g (owner_group s) /\ OwnerGroup.id g = VehicleRow.group_id row
    /\ In l (owner_group_user s)
    /\ OwnerGroupUser.group_id l = OwnerGroup.id g
    /\ OwnerGroupUser.user_id l = uid.

Definition is_admin (u : User.t) : Prop := User.email u = ADMIN_EMAIL.

(* ================================================================== *)
(** * add_service *)
(* ================================================================== *)

Module Request.
(** The parts of [flask.request] the form handlers read. *)
Record t : Type := mk {
  method : string;
  form : list (string * string)
}.
End Request.

(** [request.form.get(key)]: the first value sent under [key]. *)
Fixpoint form_get (form : list (string * string)) (key : string)
    : option string :=
  match form with
  | [] => None
  | (k, v) :: rest => if String.eqb k key then Some v else form_get rest key
  end.

(** A handler that may change the state [S] it runs in; the state reached
    when an exception leaves the handler is kept (what was committed stays
    committed). *)
Definition ST (S A : Type) : Type := S -> response A * S.

Definition st_ret {S A} (a : A) : ST S A := fun s => (Done a, s).

Definition st_bind {S A B} (m : ST S A) (k : A -> ST S B) : ST S B :=
  fun s =>
    match m s with
    | (Done a, s') => k a s'
    | (Abort e, s') => (Abort e, s')
    end.

Notation "x <~ m ;; k" := (st_bind m (fun x => k))
  (at level 61, m at next level, right associativity) : handler_scope.

(** [request.form[key]] *)
Definition form_item {S} (request : Request.t) (key : string) : ST S string :=
  fun s =>
    match form_get (Request.form request) key with
    | Some v => (Done v, s)
    | None => (Abort (BadRequestKeyError key), s)
    end.

(** The value of a parser, [None] standing for its ValueError. *)
Definition parsed {S A} (r : option A) : ST S A :=
  fun s =>
    match r with
    | Some a => (Done a, s)
    | None => (Abort ValueError, s)
    end.

(** [parse(text or 0)]: a field that is absent or empty counts as zero and
    is not handed to the parser. *)
Definition or_zero {A} (parse : string -> option A) (zero : A)
    (text : option string) : option A :=
  match text with
  | None => Some zero
  | Some t => if String.eqb t "" then Some zero else parse t
  end.

(** The id the database gives a new row of [service_event]. *)
Definition next_id (rows : list ServiceEvent.t) : Z :=
  1 + fold_right Z.max 0 (map ServiceEvent.id rows).

(** [db.session.add(s); db.session.commit()] for a new service event. *)
Definition db_add_service_event (make : Z -> ServiceEvent.t)
    : ST World unit :=
  fun w =>
    (Done tt,
     mkWorld (service_event w ++ [make (next_id (service_event w))])
             (fuel_entry w) (today w)).

(** What the form handlers answer. *)
Inductive page : Type :=
| redirect_list_services (vehicle_id : Z)
| render_add_service (vehicle : Vehicle.t)
| redirect_list_vehicles
| render_add_vehicle
| render_register (error : option string)
| redirect_list_fuel (vehicle_id : Z)
| render_add_fuel (vehicle : Vehicle.t)
| html (body : string).

Section Forms.

(** The parsers of the standard library, [None] where they raise
    ValueError: [datetime.strptime(text, "%Y-%m-%d").date()], [int(text)]
    and [float(text)].  The handler is modelled for any such parsers. *)
Variable strptime_ymd : string -> option date.
Variable py_int : string -> option Z.
Variable py_float : string -> option Q.

(** [add_service] (lines 413-435), from the vehicle that
    [get_vehicle_for_current_user] found.  The description and the labor
    cost go to columns the rows do not carry; the labor cost is parsed all
    the same, a text [float] refuses aborts the request. *)
Definition add_service (request : Request.t) (vehicle : Vehicle.t)
    : ST World page :=
  if String.eqb (Request.method request) "POST" then
    raw_date <~ form_item request "service_date" ;;
    service_date <~ parsed (strptime_ymd raw_date) ;;
    raw_odo <~ form_item request "odometer_at_service" ;;
    odo <~ parsed (or_zero py_int 0 (Some raw_odo)) ;;
    let service_type := form_get (Request.form request) "service_type" in
    labor_cost <~ parsed (or_zero py_float 0%Q
                            (form_get (Request.form request) "labor_cost")) ;;
    total_cost <~ parsed (or_zero py_float 0%Q
                            (form_get (Request.form request) "total_cost")) ;;
    _ <~ db_add_service_event
           (fun id => ServiceEvent.mk id (Vehicle.id vehicle) (Some service_date)
                                      (Some odo) service_type (Some total_cost)) ;;
    st_ret (redirect_list_services (Vehicle.id vehicle))
  else st_ret (render_add_service vehicle).

End Forms.

(** The state with one more service event. *)
Definition with_service (w : World) (row : ServiceEvent.t) : World :=
  mkWorld (service_event w ++ [row]) (fuel_entry w) (today w).

(* ================================================================== *)
(** * The per-vehicle queries of sql_demo *)
(* ================================================================== *)

(** [GROUP BY vehicle_id]: the vehicle ids that occur, each once. *)
Definition group_ids (ids : list Z) : list Z := nodup Z.eq_dec ids.

(** [ORDER BY key DESC]: a stable sort by a comparison of the keys. *)
Fixpoint insert_by {A} (leb : A -> A -> bool) (x : A) (sorted : list A)
    : list A :=
  match sorted with
  | [] => [x]
  | y :: rest =>
      if leb y x then x :: y :: rest else y :: insert_by leb x rest
  end.

Definition order_by_desc {A} (leb : A -> A -> bool) (rows : list A) : list A :=
  fold_right (insert_by leb) [] rows.

(** The order of a REAL column that may hold NULL: NULL sorts lowest. *)
Definition real_leb (a b : option Q) : bool :=
  match a, b with
  | None, _ => true
  | Some _, None => false
  | Some x, Some y => Qle_bool x y
  end.

(** [NULLIF(x, 0)] *)
Definition nullif_zero (x : option Q) : option Q :=
  match x with
  | Some v => if Qeq_bool v 0 then None else Some v
  | None => None
  end.

(** SELECT vehicle_id, COUNT( * ) AS service_count FROM service_event
    GROUP BY vehicle_id ORDER BY service_count DESC *)
Definition sql_service_counts : M (list (Z * Z)) :=
  table <- ServiceEvent_query ;;
  ret (order_by_desc
         (fun a b => snd a <=? snd b)
         (map (fun vid =>
                 (vid,
                  sql.count
                    (filter (fun ev => ServiceEvent.vehicle_id ev =? vid) table)))
              (group_ids (map ServiceEvent.vehicle_id table)))).

(** SELECT vehicle_id, SUM(total_cost) AS total_expense FROM service_event
    GROUP BY vehicle_id ORDER BY total_expense DESC *)
Definition sql_total_expenses : M (list (Z * option Q)) :=
  table <- ServiceEvent_query ;;
  ret (order_by_desc
         (fun a b => real_leb (snd a) (snd b))
         (map (fun vid =>
                 (vid,
                  sql.sum
                    (map ServiceEvent.total_cost
                         (filter (fun ev => ServiceEvent.vehicle_id ev =? vid)
                                 table))))
              (group_ids (map ServiceEvent.vehicle_id table)))).

(** SELECT vehicle_id,
           (MAX(odometer) - MIN(odometer)) * 1.0 / NULLIF(SUM(liters), 0)
             AS km_per_liter
    FROM fuel_entry GROUP BY vehicle_id HAVING COUNT( * ) > 1
    ORDER BY km_per_liter DESC *)
Definition sql_mileage : M (list (Z * option Q)) :=
  table <- FuelEntry_rows ;;
  let group vid := filter (fun f => FuelEntry.vehicle_id f =? vid) table in
  ret (order_by_desc
         (fun a b => real_leb (snd a) (snd b))
         (map (fun vid =>
                 let odometer :=
                   map (fun f => Some (FuelEntry.odometer f)) (group vid) in
                 (vid,
                  sql.div
                    (sql.mul_real
                       (sql.sub (sql.max odometer) (sql.min odometer)) 1%Q)
                    (nullif_zero
                       (sql.sum (map (fun f => Some (FuelEntry.liters f))
                                     (group vid))))))
              (filter (fun vid => 1 <? sql.count (group vid))
                      (group_ids (map FuelEntry.vehicle_id table))))).

(* ================================================================== *)
(** * add_vehicle and register *)
(* ================================================================== *)

(** The id the database gives a new row, from the ids in use. *)
Definition next_key (ids : list Z) : Z := 1 + fold_right Z.max 0 ids.

(** [db.session.add(x); db.session.commit()] on the tables of the site;
    each returns the row it stored. *)
Definition add_group : ST Site OwnerGroup.t :=
  fun s =>
    let g := OwnerGroup.mk (next_key (map OwnerGroup.id (owner_group s))) in
    (Done g,
     mkSite (user_table s) (vehicle_table s) (owner_group s ++ [g])
            (owner_group_user s) (current_user s) (world s)).

Definition add_link (group_id user_id : Z) : ST Site OwnerGroupUser.t :=
  fun s =>
    let l := OwnerGroupUser.mk
               (next_key (map OwnerGroupUser.id (owner_group_user s)))
               group_id user_id in
    (Done l,
     mkSite (user_table s) (vehicle_table s) (owner_group s)
            (owner_group_user s ++ [l]) (current_user s) (world s)).

Definition add_vehicle_row (group_id odometer : Z) : ST Site VehicleRow.t :=
  fun s =>
    let v := VehicleRow.mk
               (Vehicle.mk (next_key (map VehicleRow.id (vehicle_table s)))
                           odometer)
               group_id in
    (Done v,
     mkSite (user_table s) (vehicle_table s ++ [v]) (owner_group s)
            (owner_group_user s) (current_user s) (world s)).

Definition add_user (email : string) : ST Site User.t :=
  fun s =>
    let u := User.mk (next_key (map User.id (user_table s))) email in
    (Done u,
     mkSite (user_table s ++ [u]) (vehicle_table s) (owner_group s)
            (owner_group_user s) (current_user s) (world s)).

(** [login_user(user)] *)
Definition login_user (u : User.t) : ST Site unit :=
  fun s =>
    (Done tt,
     mkSite (user_table s) (vehicle_table s) (owner_group s)
            (owner_group_user s) (Some u) (world s)).

(** [OwnerGroupUser.query.filter_by(user_id=uid).first()] *)
Definition first_link (uid : Z) : ST Site (option OwnerGroupUser.t) :=
  fun s =>
    (Done (first (filter (fun l => OwnerGroupUser.user_id l =? uid)
                         (owner_group_user s))), s).

(** [User.query.filter_by(email=email).first()] *)
Definition first_user (email : string) : ST Site (option User.t) :=
  fun s =>
    (Done (first (filter (fun u => String.eqb (User.email u) email)
                         (user_table s))), s).

Section Vehicles.

(** [int(text)], [None] where it raises ValueError. *)
Variable py_int : string -> option Z.

(** [add_vehicle] (lines 365-396), behind [@login_required].  The brand,
    the model, the year and the registration go to columns the rows do not
    carry; the brand and the model are still required and the year is still
    parsed. *)
Definition add_vehicle (request : Request.t) : ST Site page :=
  fun s0 =>
    match current_user s0 with
    | None => (Abort LoginRequired, s0)
    | Some u =>
        (found <~ first_link (User.id u) ;;
         link <~ match found with
                 | Some link => st_ret link
                 | None =>
                     group <~ add_group ;;
                     add_link (OwnerGroup.id group) (User.id u)
                 end ;;
         let group_id := OwnerGroupUser.group_id link in
         if String.eqb (Request.method request) "POST" then
           let year_val := form_get (Request.form request) "year" in
           let odo_val := form_get (Request.form request) "current_odometer" in
           brand <~ form_item request "brand" ;;
           model <~ form_item request "model" ;;
           year <~ parsed (or_zero (fun t => option_map Some (py_int t))
                                   None year_val) ;;
           odometer <~ parsed (or_zero py_int 0 odo_val) ;;
           vehicle <~ add_vehicle_row group_id odometer ;;
           st_ret redirect_list_vehicles
         else st_ret render_add_vehicle) s0
    end.

End Vehicles.

Section Accounts.

(** [str.strip] and [str.lower]; the handler is modelled for any such
    functions. *)
Variable strip : string -> string.
Variable lower : string -> string.

(** [register] (lines 483-519).  The name and the password go to columns
    the rows do not carry; both are still required. *)
Definition register (request : Request.t) : ST Site page :=
  fun s0 =>
    match current_user s0 with
    | Some _ => (Done redirect_list_vehicles, s0)
    | None =>
        (if String.eqb (Request.method request) "POST" then
           raw_name <~ form_item request "name" ;;
           raw_email <~ form_item request "email" ;;
           let email := lower (strip raw_email) in
           password <~ form_item request "password" ;;
           registered <~ first_user email ;;
           match registered with
           | Some _ =>
               st_ret (render_register
                         (Some "Email is already registered."%string))
           | None =>
               user <~ add_user email ;;
               group <~ add_group ;;
               link <~ add_link (OwnerGroup.id group) (User.id user) ;;
               _ <~ login_user user ;;
               st_ret redirect_list_vehicles
           end
         else st_ret (render_register None)) s0
    end.

End Accounts.

(** The first step of [add_vehicle]: the link of the user, found or
    created together with a group, and the state this leaves. *)
Definition garage_step (u : User.t) (s : Site) : OwnerGroupUser.t * Site :=
  match first (filter (fun l => OwnerGroupUser.user_id l =? User.id u)
                      (owner_group_user s)) with
  | Some link => (link, s)
  | None =>
      let g := OwnerGroup.mk (next_key (map OwnerGroup.id (owner_group s))) in
      let l := OwnerGroupUser.mk
                 (next_key (map OwnerGroupUser.id (owner_group_user s)))
                 (OwnerGroup.id g) (User.id u) in
      (l, mkSite (user_table s) (vehicle_table s) (owner_group s ++ [g])
                 (owner_group_user s ++ [l]) (current_user s) (world s))
  end.

(** The site with one more vehicle. *)
Definition with_vehicle (s : Site) (row : VehicleRow.t) : Site :=
  mkSite (user_table s) (vehicle_table s ++ [row]) (owner_group s)
         (owner_group_user s) (current_user s) (world s).

(** [create_admin_user] (lines 99-112); it asks for no login.  The name
    and the password hash go to columns the rows do not carry. *)
Definition create_admin_user : ST Site page :=
  found <~ first_user ADMIN_EMAIL ;;
  match found with
  | Some _ => st_ret (html "<p>Admin already exists.</p>")
  | None =>
      admin <~ add_user ADMIN_EMAIL ;;
      st_ret (html "<p>Admin user created. Email: admin@garuda360.com, Password: Admin123!</p>")
  end.

(* ================================================================== *)
(** * add_fuel *)
(* ================================================================== *)

(** The id the database gives a new row of [fuel_entry], and
    [db.session.add(entry); db.session.commit()]. *)
Definition db_add_fuel_entry (make : Z -> FuelEntry.t) : ST World unit :=
  fun w =>
    (Done tt,
     mkWorld (service_event w)
             (fuel_entry w ++ [make (next_key (map FuelEntry.id (fuel_entry w)))])
             (today w)).

Section Fuel.

(** The parsers, as for [add_service], and [round(x, 2)]; the handler is
    modelled for any such functions. *)
Variable strptime_ymd : string -> option date.
Variable py_int : string -> option Z.
Variable py_float : string -> option Q.
Variable round_2 : Q -> Q.

(** [add_fuel] (lines 450-482), from the vehicle that
    [get_vehicle_for_current_user] found.  The date, the price, the fuel
    type and the station go to columns the rows do not carry; the date is
    still required and parsed. *)
Definition add_fuel (request : Request.t) (vehicle : Vehicle.t)
    : ST World page :=
  if String.eqb (Request.method request) "POST" then
    raw_date <~ form_item request "date" ;;
    date <~ parsed (strptime_ymd raw_date) ;;
    raw_odometer <~ form_item request "odometer" ;;
    odometer <~ parsed (or_zero py_int 0 (Some raw_odometer)) ;;
    raw_liters <~ form_item request "liters" ;;
    liters <~ parsed (or_zero py_float 0%Q (Some raw_liters)) ;;
    raw_price <~ form_item request "price_per_liter" ;;
    price <~ parsed (or_zero py_float 0%Q (Some raw_price)) ;;
    let total_cost_val := form_get (Request.form request) "total_cost" in
    total_cost <~ match total_cost_val with
                  | Some t =>
                      if String.eqb t "" then st_ret (round_2 (liters * price)%Q)
                      else parsed (py_float t)
                  | None => st_ret (round_2 (liters * price)%Q)
                  end ;;
    _ <~ db_add_fuel_entry
           (fun id => FuelEntry.mk id (Vehicle.id vehicle) odometer liters
                                   (Some total_cost)) ;;
    st_ret (redirect_list_fuel (Vehicle.id vehicle))
  else st_ret (render_add_fuel vehicle).

End Fuel.

(** The state with one more fuel entry. *)
Definition with_fuel (w : World) (row : FuelEntry.t) : World :=
  mkWorld (service_event w) (fuel_entry w ++ [row]) (today w).

(** Every link names an existing group. *)
Definition links_wf (s : Site) : Prop :=
  forall l, In l (owner_group_user s) ->
            exists g, In g (owner_group s)
                      /\ OwnerGroup.id g = OwnerGroupUser.group_id l.

(** Further sample data. *)
Module Cases.

(** A brake service entered with the year mistyped as 9999. *)
Definition brakes_9999 : ServiceEvent.t :=
  ServiceEvent.mk 4 7 (Some (datetime.ymd 9999 6 1)) (Some 46000)
                  (Some "Brake Pads"%string) (Some 300%Q).

Definition mistyped : World :=
  mkWorld [Sample.oil_2023; brakes_9999] [Sample.fill_1]
          (datetime.ymd 2024 3 1).

(** The same mistake in a history whose only oil change was entered
    without an odometer reading. *)
Definition mistyped_blank : World :=
  mkWorld [Sample.oil_2024; brakes_9999] [] (datetime.ymd 2024 3 1).

(** A history with several oil changes: the latest one of vehicle 7 is
    neither the first nor the last row, and another vehicle has a later
    one. *)
Definition oil_2023_09 : ServiceEvent.t :=
  ServiceEvent.mk 5 7 (Some (datetime.ymd 2023 9 1)) (Some 43500)
                  (Some "Oil Change"%string) (Some 90%Q).

Definition oil_other_car : ServiceEvent.t :=
  ServiceEvent.mk 6 8 (Some (datetime.ymd 2024 2 1)) (Some 31000)
                  (Some "Oil Change"%string) None.

Definition serviced : World :=
  mkWorld [Sample.oil_2023; oil_2023_09; Sample.brakes_2023; oil_other_car]
          [] (datetime.ymd 2024 3 1).

(** A vehicle whose odometer was edited through the form (text), and one
    whose odometer column is NULL. *)
Definition edited : Vehicle.t := Vehicle.mk 7 (PyStr "45,000").
Definition blank : Vehicle.t := Vehicle.mk 7 PyNone.

(** Two owners, two groups, three vehicles; Ana is linked to group 1
    only. *)
Definition ana : User.t := User.mk 1 "ana@example.org".
Definition admin : User.t := User.mk 9 "admin@garuda360.com".

Definition camry_row : VehicleRow.t := VehicleRow.mk Sample.camry 1.
Definition civic_row : VehicleRow.t := VehicleRow.mk (Vehicle.mk 8 32000) 1.
Definition focus_row : VehicleRow.t := VehicleRow.mk (Vehicle.mk 12 91000) 2.

Definition site (user : option User.t) : Site :=
  mkSite [ana; admin] [camry_row; civic_row; focus_row]
         [OwnerGroup.mk 1; OwnerGroup.mk 2]
         [OwnerGroupUser.mk 1 1 1; OwnerGroupUser.mk 2 2 5]
         user Sample.garage.

(** A form for a new oil change, with the odometer field left empty, and
    parsers that read the texts it uses. *)
Definition oil_form : Request.t :=
  Request.mk "POST"
    [ ("service_date", "2024-05-01"); ("odometer_at_service", "");
      ("service_type", "Oil Change"); ("total_cost", "80") ]%string.

Definition read_date (text : string) : option date :=
  if String.eqb text "2024-05-01" then Some (datetime.ymd 2024 5 1) else None.

Definition read_int (text : string) : option Z :=
  if String.eqb text "47000" then Some 47000 else None.

Definition read_float (text : string) : option Q :=
  if String.eqb text "80" then Some 80%Q else None.

Definition oil_2024_05 : ServiceEvent.t :=
  ServiceEvent.mk 4 7 (Some (datetime.ymd 2024 5 1)) (Some 0)
                  (Some "Oil Change"%string) (Some 80%Q).

(** Bob has an account and no link yet. *)
Definition bob : User.t := User.mk 3 "bob@example.org".

Definition vehicle_form : Request.t :=
  Request.mk "POST"
    [ ("brand", "Mazda"); ("model", "3"); ("current_odometer", "47000") ]%string.

Definition visit : Request.t := Request.mk "GET" [].

Definition mazda_row : VehicleRow.t := VehicleRow.mk (Vehicle.mk 13 47000) 1.

(** A registration under the administrator's address, by a visitor of a
    site where nobody holds it, and stand-ins for [strip] and [lower] that
    read the text it uses. *)
Definition register_form : Request.t :=
  Request.mk "POST"
    [ ("name", "Eve"); ("email", " Admin@Garuda360.com ");
      ("password", "secret") ]%string.

Definition read_strip (text : string) : string :=
  if String.eqb text " Admin@Garuda360.com " then "Admin@Garuda360.com"
  else text.

Definition read_lower (text : string) : string :=
  if String.eqb text "Admin@Garuda360.com" then "admin@garuda360.com"
  else text.

Definition open_site : Site :=
  mkSite [ana; bob] [camry_row; civic_row; focus_row]
         [OwnerGroup.mk 1; OwnerGroup.mk 2]
         [OwnerGroupUser.mk 1 1 1; OwnerGroupUser.mk 2 2 5]
         None Sample.garage.

(** The site after that registration: Eve holds the address, a group and
    a link, and the session. *)
Definition eve : User.t := User.mk 4 "admin@garuda360.com".

Definition registered_site : Site :=
  mkSite [ana; bob; eve] [camry_row; civic_row; focus_row]
         [OwnerGroup.mk 1; OwnerGroup.mk 2; OwnerGroup.mk 3]
         [OwnerGroupUser.mk 1 1 1; OwnerGroupUser.mk 2 2 5;
          OwnerGroupUser.mk 3 3 4]
         (Some eve) Sample.garage.

(** A first fill for the Civic, with the total left to be computed. *)
Definition civic : Vehicle.t := Vehicle.mk 8 32000.

Definition fuel_form : Request.t :=
  Request.mk "POST"
    [ ("date", "2024-05-01"); ("odometer", "47000"); ("liters", "80");
      ("price_per_liter", "80") ]%string.

Definition civic_fill : FuelEntry.t :=
  FuelEntry.mk 3 8 47000 80%Q (Some (80 * 80)%Q).

(** What the detail page of the sample vehicle shows. *)
Definition camry_context : Context.t :=
  Eval vm_compute in
    match result (vehicle_detail Sample.camry) Sample.garage with
    | Ok c => c
    | Raise _ => Context.mk Sample.camry (Summary.mk 0 0%Q 0%Q 0%Q None) []
    end.

End Cases.

(* ================================================================== *)
(** * Facts about the calendar and the date arithmetic *)
(* ================================================================== *)

(** The calendar agrees with CPython on the days used below. *)
Example ordinals_of_known_days :
  datetime.ymd2ord 1 1 1 = 1
  /\ datetime.ymd2ord 2024 1 1 = 738886
  /\ datetime.ymd2ord 9999 12 31 = datetime.MAXORDINAL
  /\ datetime.ord2ymd 738886 = (2024, 1, 1)
  /\ datetime.ord2ymd (738886 + 180) = (2024, 6, 29)
  /\ datetime.ord2ymd (datetime.ymd2ord 2024 2 29) = (2024, 2, 29)
  /\ datetime.ord2ymd datetime.MAXORDINAL = (9999, 12, 31).
Proof. repeat split. Qed.

Lemma timedelta_days_ok n :
  Z.abs n <= datetime.MAX_DELTA_DAYS ->
  timedelta_days n = Ok (datetime.mk_timedelta n).
Proof.
  intros H. unfold timedelta_days.
  destruct (Z.leb_spec (Z.abs n) datetime.MAX_DELTA_DAYS); [reflexivity | lia].
Qed.

Lemma timedelta_days_inv n delta :
  timedelta_days n = Ok delta -> datetime.days delta = n.
Proof.
  unfold timedelta_days.
  destruct (Z.abs n <=? datetime.MAX_DELTA_DAYS); [ | discriminate].
  intros [= <-]. reflexivity.
Qed.

Lemma date_add_ok d delta :
  in_range (toordinal d + datetime.days delta) ->
  date_add d delta = Ok (fromordinal (toordinal d + datetime.days delta)).
Proof.
  intros [Hlo Hhi]. unfold date_add.
  destruct (Z.ltb_spec 0 (toordinal d + datetime.days delta)); [ | lia].
  destruct (Z.leb_spec (toordinal d + datetime.days delta) datetime.MAXORDINAL);
    [reflexivity | lia].
Qed.

Lemma date_add_inv d delta d' :
  date_add d delta = Ok d' ->
  toordinal d' = toordinal d + datetime.days delta /\ datetime.valid d'.
Proof.
  unfold date_add, datetime.valid.
  destruct (Z.ltb_spec 0 (toordinal d + datetime.days delta)); cbn [andb];
    [ | discriminate].
  destruct (Z.leb_spec (toordinal d + datetime.days delta) datetime.MAXORDINAL);
    [ | discriminate].
  intros [= <-]. cbn [toordinal]. lia.
Qed.

(** A shift that keeps a valid date in range is small enough for
    [timedelta]. *)
Lemma shift_fits_timedelta d n :
  datetime.valid d -> in_range (toordinal d + n) ->
  Z.abs n <= datetime.MAX_DELTA_DAYS.
Proof.
  unfold datetime.valid, in_range, datetime.MAXORDINAL, datetime.MAX_DELTA_DAYS.
  lia.
Qed.

(* ================================================================== *)
(** * Facts about the query *)
(* ================================================================== *)

Lemma key_leb_refl a : key_leb a a = true.
Proof. destruct a as [d|]; cbn; [apply Z.leb_refl | reflexivity]. Qed.

Lemma key_leb_total a b : key_leb a b = true \/ key_leb b a = true.
Proof.
  destruct a as [x|], b as [y|]; cbn; auto.
  unfold datetime.leb. destruct (Z.leb_spec (toordinal x) (toordinal y)); auto.
  right. apply Z.leb_le. lia.
Qed.

Lemma key_leb_trans a b c :
  key_leb a b = true -> key_leb b c = true -> key_leb a c = true.
Proof.
  destruct a as [x|], b as [y|], c as [z|]; cbn; try congruence.
  unfold datetime.leb. rewrite !Z.leb_le. lia.
Qed.

Lemma filter_by_In vid st rows ev :
  In ev (filter_by vid st rows) <-> In ev rows /\ matches vid st ev.
Proof.
  unfold filter_by, matches. rewrite filter_In, andb_true_iff, Z.eqb_eq.
  unfold option_string_eqb.
  destruct (ServiceEvent.service_type ev) as [s|].
  - rewrite String.eqb_eq. split; intros (H & H1 & H2); repeat split; congruence.
  - split; intros (H & H1 & H2); discriminate.
Qed.

(** [order_by_service_date_desc] is a sort: it rearranges the rows, and
    in the result no row is followed by a later one. *)
Lemma insert_desc_permutation ev sorted :
  Permutation (insert_desc ev sorted) (ev :: sorted).
Proof.
  induction sorted as [|y rest IH]; cbn; [reflexivity | ].
  destruct (key_leb _ _); [reflexivity | ].
  rewrite IH. apply perm_swap.
Qed.

Lemma order_by_permutation rows :
  Permutation (order_by_service_date_desc rows) rows.
Proof.
  induction rows as [|ev rows IH]; cbn; [reflexivity | ].
  rewrite insert_desc_permutation. apply perm_skip, IH.
Qed.

Lemma insert_desc_sorted ev sorted :
  Sorted not_before sorted -> Sorted not_before (insert_desc ev sorted).
Proof.
  induction sorted as [|y rest IH]; intros Hs; cbn.
  - repeat constructor.
  - destruct (key_leb (ServiceEvent.service_date y)
                      (ServiceEvent.service_date ev)) eqn:Hyev.
    + constructor; [exact Hs | constructor; exact Hyev].
    + inversion Hs as [|? ? Hrest Hhd]; subst.
      assert (Hy : not_before y ev).
      { unfold not_before.
        destruct (key_leb_total (ServiceEvent.service_date ev)
                                (ServiceEvent.service_date y)); congruence. }
      constructor; [apply IH, Hrest | ].
      destruct rest as [|z rest']; cbn; [constructor; exact Hy | ].
      destruct (key_leb (ServiceEvent.service_date z)
                        (ServiceEvent.service_date ev));
        constructor; [exact Hy | ].
      inversion Hhd; assumption.
Qed.

Lemma order_by_sorted rows :
  Sorted not_before (order_by_service_date_desc rows).
Proof.
  induction rows as [|ev rows IH]; cbn; [constructor | ].
  apply insert_desc_sorted, IH.
Qed.

(** The head of the sorted rows, computed without sorting: the running
    maximum, the earlier row winning a tie. *)
Lemma first_insert_desc ev sorted :
  first (insert_desc ev sorted)
  = Some (match first sorted with
          | None => ev
          | Some y =>
              if key_leb (ServiceEvent.service_date y)
                         (ServiceEvent.service_date ev)
              then ev else y
          end).
Proof.
  destruct sorted as [|y rest]; cbn; [reflexivity | ].
  destruct (key_leb _ _); reflexivity.
Qed.

Lemma first_order_by_nil rows :
  first (order_by_service_date_desc rows) = None <-> rows = [].
Proof.
  destruct rows as [|ev rows]; cbn; [tauto | ].
  rewrite first_insert_desc. split; discriminate.
Qed.

Lemma first_order_by_latest rows ev :
  first (order_by_service_date_desc rows) = Some ev ->
  In ev rows
  /\ forall ev', In ev' rows ->
       key_leb (ServiceEvent.service_date ev') (ServiceEvent.service_date ev)
       = true.
Proof.
  revert ev. induction rows as [|x rows IH]; intros ev; cbn [order_by_service_date_desc fold_right].
  - discriminate.
  - rewrite first_insert_desc.
    fold (order_by_service_date_desc rows).
    destruct (first (order_by_service_date_desc rows)) as [y|] eqn:Hy.
    + destruct (IH y eq_refl) as [Hin Hmax].
      destruct (key_leb (ServiceEvent.service_date y)
                        (ServiceEvent.service_date x)) eqn:Hyx;
        intros [= <-].
      * split; [left; reflexivity | ].
        intros ev' [<- | Hin']; [apply key_leb_refl | ].
        eapply key_leb_trans; [apply Hmax, Hin' | exact Hyx].
      * split; [right; exact Hin | ].
        intros ev' [<- | Hin']; [ | apply Hmax, Hin'].
        destruct (key_leb_total (ServiceEvent.service_date x)
                                (ServiceEvent.service_date y)); congruence.
    + apply first_order_by_nil in Hy. subst rows.
      intros [= <-]. split; [left; reflexivity | ].
      intros ev' [<- | []]. apply key_leb_refl.
Qed.

(* ================================================================== *)
(** * Running [predict_next_service] *)
(* ================================================================== *)

Lemma add_int_ok x k z : x = PyInt z -> add_int x k = Ok (z + k).
Proof. intros ->. reflexivity. Qed.

Lemma add_int_inv x k n :
  add_int x k = Ok n -> x = PyInt (as_int x) /\ n = as_int x + k.
Proof. destruct x; cbn; [discriminate | | discriminate]. intros [= <-]. tauto. Qed.

Lemma query_last_event_run v st w :
  query_last_event (Vehicle.id v) st w = (Ok (last_event_in w v st), w).
Proof. reflexivity. Qed.

Lemma predict_run v st km mo w :
  predict_next_service v st km mo w
  = (match timedelta_days (mo * 30) with
     | Ok delta =>
         match date_add (last_date_in w v st) delta with
         | Ok next_date =>
             match add_int (last_odo_in w v st) km with
             | Ok next_odo =>
                 Ok (Prediction.mk st (last_date_in w v st) (last_odo_in w v st)
                                   next_date next_odo)
             | Raise e => Raise e
             end
         | Raise e => Raise e
         end
     | Raise e => Raise e
     end, w).
Proof.
  unfold predict_next_service, bind, last_date_in, last_odo_in.
  rewrite query_last_event_run.
  destruct (last_event_in w v st) as [ev|]; cbn.
  - destruct (ServiceEvent.service_date ev) as [d|]; cbn;
      unfold lift; destruct (timedelta_days (mo * 30)) as [delta|e];
      try reflexivity;
      match goal with |- context [date_add ?a ?b] => destruct (date_add a b) end;
      try reflexivity;
      match goal with |- context [add_int ?a ?b] => destruct (add_int a b) end;
      reflexivity.
  - unfold lift; destruct (timedelta_days (mo * 30)) as [delta|e];
      try reflexivity.
    destruct (date_add (today w) delta); [ | reflexivity].
    destruct (add_int (Vehicle.current_odometer v) km); reflexivity.
Qed.

(** Success: the projection is returned as soon as the projected day is a
    date and the anchor odometer is an integer. *)
Lemma predict_ok v st km mo w o :
  datetime.valid (last_date_in w v st) ->
  in_range (toordinal (last_date_in w v st) + mo * 30) ->
  last_odo_in w v st = PyInt o ->
  predict_next_service v st km mo w
  = (Ok (Prediction.mk st (last_date_in w v st) (PyInt o)
           (fromordinal (toordinal (last_date_in w v st) + mo * 30))
           (o + km)), w).
Proof.
  intros Hv Hr Ho. rewrite predict_run.
  rewrite timedelta_days_ok by (eapply shift_fits_timedelta; eassumption).
  rewrite date_add_ok by exact Hr. rewrite (add_int_ok _ km o Ho), Ho.
  reflexivity.
Qed.

(** Inversion: what a returned prediction contains. *)
Lemma predict_inv v st km mo w f w' :
  predict_next_service v st km mo w = (Ok f, w') ->
  w' = w
  /\ f = Prediction.mk st (last_date_in w v st) (last_odo_in w v st)
           (fromordinal (toordinal (last_date_in w v st) + mo * 30))
           (as_int (last_odo_in w v st) + km)
  /\ in_range (toordinal (last_date_in w v st) + mo * 30)
  /\ last_odo_in w v st = PyInt (as_int (last_odo_in w v st)).
Proof.
  rewrite predict_run.
  destruct (timedelta_days (mo * 30)) as [delta|e] eqn:Hd; [ | discriminate].
  apply timedelta_days_inv in Hd.
  destruct (date_add (last_date_in w v st) delta) as [nd|e] eqn:Ha;
    [ | discriminate].
  apply date_add_inv in Ha. destruct Ha as [Hord Hval]. rewrite Hd in Hord.
  destruct (add_int (last_odo_in w v st) km) as [n|e] eqn:Hn; [ | discriminate].
  apply add_int_inv in Hn. destruct Hn as [Hint ->].
  intros [= <- <-]. repeat split.
  - destruct nd as [o]. cbn in Hord. rewrite Hord. reflexivity.
  - unfold datetime.valid in Hval. lia.
  - unfold datetime.valid in Hval. lia.
  - exact Hint.
Qed.


Lemma last_event_in_matches w v st ev :
  last_event_in w v st = Some ev ->
  In ev (service_event w) /\ matches (Vehicle.id v) st ev
  /\ forall ev', In ev' (service_event w) -> matches (Vehicle.id v) st ev' ->
       key_leb (ServiceEvent.service_date ev') (ServiceEvent.service_date ev)
       = true.
Proof.
  intros H. apply first_order_by_latest in H. destruct H as [Hin Hmax].
  apply filter_by_In in Hin. destruct Hin as [Hin Hm].
  repeat split; try assumption; try apply Hm.
  intros ev' Hin' Hm'. apply Hmax. apply filter_by_In. tauto.
Qed.

Lemma last_event_in_none w v st :
  last_event_in w v st = None <->
  forall ev, In ev (service_event w) -> ~ matches (Vehicle.id v) st ev.
Proof.
  unfold last_event_in. rewrite first_order_by_nil. split.
  - intros H ev Hin Hm.
    assert (Hf : In ev (filter_by (Vehicle.id v) st (service_event w)))
      by (apply filter_by_In; tauto).
    rewrite H in Hf. exact Hf.
  - intros H.
    destruct (filter_by (Vehicle.id v) st (service_event w)) as [|ev l] eqn:E;
      [reflexivity | ].
    assert (Hf : In ev (filter_by (Vehicle.id v) st (service_event w)))
      by (rewrite E; left; reflexivity).
    apply filter_by_In in Hf. destruct Hf as [Hin Hm].
    exfalso. exact (H ev Hin Hm).
Qed.

Lemma last_date_in_valid w v st :
  wf_world w -> datetime.valid (last_date_in w v st).
Proof.
  intros [Ht Hev]. unfold last_date_in.
  destruct (last_event_in w v st) as [ev|] eqn:E; [ | exact Ht].
  destruct (ServiceEvent.service_date ev) as [d|] eqn:Ed; [ | exact Ht].
  apply last_event_in_matches in E. destruct E as [Hin _].
  exact (Hev ev d Hin Ed).
Qed.

Lemma last_date_in_shift w v st days :
  shifts_in_range w days ->
  in_range (toordinal (last_date_in w v st) + days).
Proof.
  intros [Ht Hev]. unfold last_date_in.
  destruct (last_event_in w v st) as [ev|] eqn:E; [ | exact Ht].
  destruct (ServiceEvent.service_date ev) as [d|] eqn:Ed; [ | exact Ht].
  apply last_event_in_matches in E. destruct E as [Hin _].
  exact (Hev ev d Hin Ed).
Qed.

Lemma key_leb_some d x :
  key_leb (Some d) x = true ->
  exists d', x = Some d' /\ toordinal d <= toordinal d'.
Proof.
  destruct x as [d'|]; cbn; [ | discriminate].
  unfold datetime.leb. rewrite Z.leb_le. eauto.
Qed.

(** Evaluate the calendar on the literal dates of a goal, leaving linear
    arithmetic over ordinals. *)
Ltac calendar :=
  unfold datetime.valid, in_range, datetime.MAXORDINAL in *;
  cbn [today service_event Sample.garage Sample.empty] in *;
  repeat match goal with
    | |- context [datetime.ymd ?y ?m ?d] =>
        let o := eval vm_compute in (datetime.ymd2ord y m d) in
        change (datetime.ymd y m d) with (fromordinal o)
    end;
  cbn [toordinal] in *.

Lemma garage_wf : wf_world Sample.garage.
Proof.
  split; [calendar; lia | ].
  intros ev d [<- | [<- | [<- | []]]] [= <-]; calendar; lia.
Qed.

Lemma garage_shifts days :
  -700 <= days <= 1000 -> shifts_in_range Sample.garage days.
Proof.
  intros Hd. split; [calendar; lia | ].
  intros ev d [<- | [<- | [<- | []]]] [= <-]; calendar; lia.
Qed.

(* ================================================================== *)
(** * Forecast: the anchor *)
(* ================================================================== *)

(** C1.  When no service record of the vehicle carries the rule's service
    type, the prediction starts from now: [last_date] is today, [last_odo] is
    the vehicle's current odometer, [next_date] is today plus
    [months_interval * 30] days and [next_odo] is the current odometer plus
    [km_interval].  (Today is a date, so is the projected day, and the
    vehicle's current odometer is an integer.) *)
Theorem predict_without_matching_history
    (w : World) (v : Vehicle.t) (st : string) (km mo o : Z) :
  (forall ev, In ev (service_event w) ->
              ServiceEvent.vehicle_id ev = Vehicle.id v ->
              ServiceEvent.service_type ev <> Some st) ->
  datetime.valid (today w) ->
  in_range (toordinal (today w) + mo * 30) ->
  Vehicle.current_odometer v = PyInt o ->
  predict_next_service v st km mo w
  = (Ok (Prediction.mk st (today w) (Vehicle.current_odometer v)
           (fromordinal (toordinal (today w) + mo * 30))
           (o + km)), w).
Proof.
  intros Hnone Hvalid Hrange Hodo.
  assert (E : last_event_in w v st = None).
  { apply last_event_in_none. intros ev Hin [Hv Ht]. exact (Hnone ev Hin Hv Ht). }
  pose proof (predict_ok v st km mo w o) as Hok.
  unfold last_date_in, last_odo_in in Hok. rewrite E in Hok.
  rewrite Hodo. exact (Hok Hvalid Hrange Hodo).
Qed.

Lemma predict_without_matching_history_witness :
  predict_next_service Sample.camry "Wipers" 20000 18 Sample.garage
  = (Ok (Prediction.mk "Wipers" (datetime.ymd 2024 3 1) (PyInt 45000)
           (fromordinal (toordinal (datetime.ymd 2024 3 1) + 18 * 30))
           (45000 + 20000)), Sample.garage).
Proof.
  apply (predict_without_matching_history Sample.garage Sample.camry
           "Wipers"%string 20000 18 45000).
  - intros ev [<- | [<- | [<- | []]]] _; discriminate.
  - calendar; lia.
  - calendar; lia.
  - reflexivity.
Defined.

(** C2 (amended).  When a prediction is returned and at least one record
    matches the rule, the anchor is a matching record with the latest
    service date among the matching records; [last_date] is its service
    date; [last_odo] is its recorded odometer when that value is not zero,
    and the vehicle's current odometer when the recorded value is zero. *)
Theorem anchor_is_latest_matching_record
    (w w' : World) (v : Vehicle.t) (st : string) (km mo : Z)
    (f : Prediction.t) :
  (exists ev, In ev (service_event w) /\ matches (Vehicle.id v) st ev) ->
  predict_next_service v st km mo w = (Ok f, w') ->
  exists anchor,
    In anchor (service_event w) /\ matches (Vehicle.id v) st anchor
    /\ (forall ev d, In ev (service_event w) -> matches (Vehicle.id v) st ev ->
          ServiceEvent.service_date ev = Some d ->
          exists d', ServiceEvent.service_date anchor = Some d'
                     /\ toordinal d <= toordinal d')
    /\ (forall d, ServiceEvent.service_date anchor = Some d ->
          Prediction.last_date f = d)
    /\ (forall o, ServiceEvent.odometer_at_service anchor = Some o -> o <> 0 ->
          Prediction.last_odo f = PyInt o)
    /\ (ServiceEvent.odometer_at_service anchor = Some 0 ->
        Prediction.last_odo f = Vehicle.current_odometer v).
Proof.
  intros (ev0 & Hin0 & Hm0) Hrun.
  apply predict_inv in Hrun. destruct Hrun as (_ & -> & _).
  destruct (last_event_in w v st) as [anchor|] eqn:E.
  - pose proof (last_event_in_matches _ _ _ _ E) as (Hin & Hm & Hmax).
    exists anchor.
    split; [exact Hin | split; [exact Hm | split; [ | split; [ | split]]]].
    + intros ev d Hev Hmev Hd. specialize (Hmax ev Hev Hmev).
      rewrite Hd in Hmax. apply key_leb_some in Hmax. exact Hmax.
    + intros d Hd. cbn. unfold last_date_in. rewrite E, Hd. reflexivity.
    + intros o Ho Hnz. cbn. unfold last_odo_in. rewrite E, Ho. cbn.
      destruct (Z.eqb_spec o 0); [contradiction | reflexivity].
    + intros Ho. cbn. unfold last_odo_in. rewrite E, Ho. reflexivity.
  - exfalso. rewrite last_event_in_none in E. exact (E ev0 Hin0 Hm0).
Qed.

(** An instance with two oil changes of the vehicle and one of another
    vehicle: the anchor is the later of the vehicle's two. *)
Lemma anchor_is_latest_matching_record_witness :
  exists anchor,
    In anchor (service_event Cases.serviced)
    /\ matches (Vehicle.id Sample.camry) "Oil Change" anchor
    /\ (forall ev d, In ev (service_event Cases.serviced) ->
          matches (Vehicle.id Sample.camry) "Oil Change" ev ->
          ServiceEvent.service_date ev = Some d ->
          exists d', ServiceEvent.service_date anchor = Some d'
                     /\ toordinal d <= toordinal d')
    /\ (forall d, ServiceEvent.service_date anchor = Some d ->
          datetime.ymd 2023 9 1 = d)
    /\ (forall o, ServiceEvent.odometer_at_service anchor = Some o -> o <> 0 ->
          PyInt 43500 = PyInt o)
    /\ (ServiceEvent.odometer_at_service anchor = Some 0 ->
        PyInt 43500 = Vehicle.current_odometer Sample.camry).
Proof.
  apply (anchor_is_latest_matching_record
           Cases.serviced Cases.serviced Sample.camry "Oil Change"%string
           5000 6
           (Prediction.mk "Oil Change" (datetime.ymd 2023 9 1) (PyInt 43500)
              (fromordinal (toordinal (datetime.ymd 2023 9 1) + 6 * 30))
              48500)).
  - exists Sample.oil_2023. split; [cbn; tauto | split; reflexivity].
  - reflexivity.
Defined.

(** C2, as stated, fails: the latest "Oil Change" of the sample garage
    records odometer 0, and the prediction is anchored at the vehicle's
    current odometer 45000 instead. *)
Lemma recorded_zero_odometer_counterexample :
  result (query_last_event (Vehicle.id Sample.camry) "Oil Change") Sample.garage
  = Ok (Some Sample.oil_2024)
  /\ ServiceEvent.odometer_at_service Sample.oil_2024 = Some 0
  /\ exists f,
       predict_next_service Sample.camry "Oil Change" 5000 6 Sample.garage
       = (Ok f, Sample.garage)
       /\ Prediction.last_odo f = PyInt 45000
       /\ Prediction.last_odo f <> PyInt 0.
Proof.
  split; [reflexivity | split; [reflexivity | ]].
  eexists. split; [reflexivity | ]. split; [reflexivity | discriminate].
Qed.

(** C10.  When the record selected by the query has odometer 0 or none,
    [last_odo] is the vehicle's current odometer, so [next_odo] is the
    current odometer plus [km_interval]; when it has no service date,
    [last_date] is today. *)
Theorem zero_or_missing_anchor_fields_fall_back
    (w w' : World) (v : Vehicle.t) (st : string) (km mo : Z)
    (anchor : ServiceEvent.t) (f : Prediction.t) :
  result (query_last_event (Vehicle.id v) st) w = Ok (Some anchor) ->
  predict_next_service v st km mo w = (Ok f, w') ->
  (ServiceEvent.odometer_at_service anchor = Some 0
   \/ ServiceEvent.odometer_at_service anchor = None ->
   Prediction.last_odo f = Vehicle.current_odometer v
   /\ exists o, Vehicle.current_odometer v = PyInt o
                /\ Prediction.next_odo f = o + km)
  /\ (ServiceEvent.service_date anchor = None ->
      Prediction.last_date f = today w).
Proof.
  unfold result. rewrite query_last_event_run. cbn [fst]. intros [= E] Hrun.
  apply predict_inv in Hrun. destruct Hrun as (_ & -> & _ & Hint). cbn.
  revert Hint. unfold last_odo_in, last_date_in. rewrite E. intros Hint. split.
  - intros Ho.
    assert (Hodo : int_or (ServiceEvent.odometer_at_service anchor)
                          (Vehicle.current_odometer v)
                   = Vehicle.current_odometer v)
      by (destruct Ho as [-> | ->]; reflexivity).
    rewrite Hodo in *. split; [reflexivity | ].
    exists (as_int (Vehicle.current_odometer v)). split; [exact Hint | reflexivity].
  - intros ->. reflexivity.
Qed.

Lemma zero_or_missing_anchor_fields_fall_back_witness :
  (ServiceEvent.odometer_at_service Sample.oil_2024 = Some 0
   \/ ServiceEvent.odometer_at_service Sample.oil_2024 = None ->
   PyInt 45000 = Vehicle.current_odometer Sample.camry
   /\ exists o, Vehicle.current_odometer Sample.camry = PyInt o
                /\ 50000 = o + 5000)
  /\ (ServiceEvent.service_date Sample.oil_2024 = None ->
      datetime.ymd 2024 1 1 = today Sample.garage).
Proof.
  apply (zero_or_missing_anchor_fields_fall_back
           Sample.garage Sample.garage Sample.camry "Oil Change"%string
           5000 6 Sample.oil_2024
           (Prediction.mk "Oil Change" (datetime.ymd 2024 1 1) (PyInt 45000)
              (datetime.ymd 2024 6 29) 50000)).
  - reflexivity.
  - reflexivity.
Defined.

(* ================================================================== *)
(** * Forecast: records of other types *)
(* ================================================================== *)

Lemma filter_by_skip vid st rows1 extra rows2 :
  ~ matches vid st extra ->
  filter_by vid st (rows1 ++ extra :: rows2) = filter_by vid st (rows1 ++ rows2).
Proof.
  intros Hno. unfold filter_by. rewrite !filter_app. f_equal. cbn [filter].
  destruct (ServiceEvent.vehicle_id extra =? vid) eqn:Ev; cbn [andb];
    [ | reflexivity].
  destruct (option_string_eqb (ServiceEvent.service_type extra) st) eqn:Es;
    [ | reflexivity].
  exfalso. apply Hno. split; [apply Z.eqb_eq, Ev | ].
  unfold option_string_eqb in Es.
  destruct (ServiceEvent.service_type extra) as [s|]; [ | discriminate].
  apply String.eqb_eq in Es. congruence.
Qed.

(** The prediction is a function of the matching rows, the clock and the
    vehicle. *)
Lemma predict_depends_on_matching_rows v st km mo w1 w2 :
  filter_by (Vehicle.id v) st (service_event w1)
  = filter_by (Vehicle.id v) st (service_event w2) ->
  today w1 = today w2 ->
  result (predict_next_service v st km mo) w1
  = result (predict_next_service v st km mo) w2.
Proof.
  intros Hrows Htoday. unfold result. rewrite !predict_run. cbn [fst].
  unfold last_date_in, last_odo_in, last_event_in. rewrite Hrows, Htoday.
  reflexivity.
Qed.



(* ================================================================== *)
(** * Forecast: the projection *)
(* ================================================================== *)

(** C4 (amended).  Whatever the anchor, a returned prediction has
    [next_date] exactly [30 * months_interval] days after [last_date], not a
    calendar-month sum; the prediction is returned as soon as the anchor date
    is a date, the projected day is one too and the anchor odometer is an
    integer; in particular from 2024-01-01 with 6 months the next date is
    2024-06-29. *)
Theorem next_date_is_thirty_days_per_month :
  (forall w w' v st km mo f,
      predict_next_service v st km mo w = (Ok f, w') ->
      toordinal (Prediction.next_date f)
      = toordinal (Prediction.last_date f) + 30 * mo)
  /\ (forall w v st km mo o,
        datetime.valid (last_date_in w v st) ->
        in_range (toordinal (last_date_in w v st) + 30 * mo) ->
        last_odo_in w v st = PyInt o ->
        exists f,
          predict_next_service v st km mo w = (Ok f, w)
          /\ Prediction.last_date f = last_date_in w v st
          /\ Prediction.next_date f
             = fromordinal (toordinal (last_date_in w v st) + 30 * mo))
  /\ (forall w w' v st km f,
        predict_next_service v st km 6 w = (Ok f, w') ->
        Prediction.last_date f = datetime.ymd 2024 1 1 ->
        Prediction.next_date f = datetime.ymd 2024 6 29
        /\ datetime.fields (Prediction.next_date f) = (2024, 6, 29)).
Proof.
  split; [ | split].
  - intros w w' v st km mo f Hrun.
    apply predict_inv in Hrun. destruct Hrun as (_ & -> & _).
    cbn [Prediction.next_date Prediction.last_date toordinal]. lia.
  - intros w v st km mo o Hv Hr Ho.
    replace (30 * mo) with (mo * 30) in * by lia.
    eexists. split; [exact (predict_ok v st km mo w o Hv Hr Ho) | ].
    split; reflexivity.
  - intros w w' v st km f Hrun Hlast.
    apply predict_inv in Hrun. destruct Hrun as (_ & -> & _).
    cbn in Hlast |- *. rewrite Hlast. split; reflexivity.
Qed.

Lemma next_date_is_thirty_days_per_month_witness :
  exists f,
    predict_next_service Sample.camry "Oil Change" 5000 6 Sample.garage
    = (Ok f, Sample.garage)
    /\ Prediction.last_date f
       = last_date_in Sample.garage Sample.camry "Oil Change"
    /\ Prediction.next_date f
       = fromordinal
           (toordinal (last_date_in Sample.garage Sample.camry "Oil Change")
            + 30 * 6).
Proof.
  apply (proj1 (proj2 next_date_is_thirty_days_per_month)
           Sample.garage Sample.camry "Oil Change"%string 5000 6 45000).
  - exact (last_date_in_valid _ _ _ garage_wf).
  - apply last_date_in_shift, garage_shifts. lia.
  - reflexivity.
Defined.

(** C4, as stated, fails on its example: anchored at 2024-01-01 with a
    6-month rule the code returns 2024-06-29, not 2024-06-30 (2024 is a leap
    year). *)
Lemma next_date_2024_06_30_counterexample :
  exists f,
    predict_next_service Sample.camry "Oil Change" 5000 6 Sample.garage
    = (Ok f, Sample.garage)
    /\ Prediction.last_date f = datetime.ymd 2024 1 1
    /\ datetime.fields (Prediction.next_date f) = (2024, 6, 29)
    /\ Prediction.next_date f <> datetime.ymd 2024 6 30.
Proof.
  eexists. split; [reflexivity | ].
  split; [reflexivity | split; [reflexivity | discriminate]].
Qed.

(** C8 (amended).  The intervals of a rule are not validated: whatever
    their sign, as long as the anchor date is a date, the projected day is
    one too and the anchor odometer is an integer, the call returns an
    ordinary prediction, with [next_odo = last_odo + km_interval] and
    [next_date] lying [months_interval * 30] days from [last_date]. *)
Theorem intervals_are_not_validated
    (w : World) (v : Vehicle.t) (st : string) (km mo o : Z) :
  datetime.valid (last_date_in w v st) ->
  in_range (toordinal (last_date_in w v st) + mo * 30) ->
  last_odo_in w v st = PyInt o ->
  exists f,
    predict_next_service v st km mo w = (Ok f, w)
    /\ Prediction.service_type f = st
    /\ Prediction.last_odo f = PyInt o
    /\ Prediction.next_odo f = o + km
    /\ toordinal (Prediction.next_date f)
       = toordinal (Prediction.last_date f) + mo * 30.
Proof.
  intros Hv Hr Ho. eexists.
  split; [exact (predict_ok v st km mo w o Hv Hr Ho) | ].
  cbn [Prediction.service_type Prediction.next_odo Prediction.last_odo
       Prediction.next_date Prediction.last_date toordinal].
  repeat split.
Qed.

Lemma intervals_are_not_validated_witness :
  exists f,
    predict_next_service Sample.camry "Wipers" (-20000) (-18) Sample.garage
    = (Ok f, Sample.garage)
    /\ Prediction.service_type f = "Wipers"%string
    /\ Prediction.last_odo f = PyInt 45000
    /\ Prediction.next_odo f = 45000 + -20000
    /\ toordinal (Prediction.next_date f)
       = toordinal (Prediction.last_date f) + -18 * 30.
Proof.
  apply (intervals_are_not_validated
           Sample.garage Sample.camry "Wipers"%string (-20000) (-18) 45000).
  - exact (last_date_in_valid _ _ _ garage_wf).
  - apply last_date_in_shift, garage_shifts. lia.
  - reflexivity.
Defined.

(** C8, as stated, fails: a rule with negative intervals yields an ordinary
    prediction, due 20000 km and 540 days before the anchor. *)
Lemma negative_intervals_counterexample :
  predict_next_service Sample.camry "Wipers" (-20000) (-18) Sample.garage
  = (Ok (Prediction.mk "Wipers" (datetime.ymd 2024 3 1) 45000
           (datetime.ymd 2022 9 8) 25000), Sample.garage).
Proof. vm_compute. reflexivity. Qed.

(* ================================================================== *)
(** * Usage summary *)
(* ================================================================== *)

Lemma non_null_map_Some {A B} (g : A -> B) (xs : list A) :
  sql.non_null (map (fun x => Some (g x)) xs) = map g xs.
Proof.
  induction xs as [|x xs IH]; cbn; [reflexivity | rewrite IH; reflexivity].
Qed.

Lemma fold_left_Qplus (xs : list Q) (a : Q) :
  (fold_left Qplus xs a == a + fold_right Qplus 0 xs)%Q.
Proof.
  revert a. induction xs as [|x xs IH]; intros a; cbn.
  - ring.
  - rewrite IH. ring.
Qed.

Lemma total_volume_fold rows :
  total_volume rows = fold_right Qplus 0%Q (map FuelEntry.liters rows).
Proof.
  induction rows as [|f rows IH]; cbn; [reflexivity | rewrite <- IH; reflexivity].
Qed.

Lemma fold_left_max_greatest (xs : list Z) (a : Z) :
  greatest (fold_left Z.max xs a) (a :: xs).
Proof.
  revert a. induction xs as [|x xs IH]; intros a; cbn [fold_left].
  - split; [left; reflexivity | intros y [<- | []]; lia].
  - destruct (IH (Z.max a x)) as [Hin Hmax]. split.
    + destruct Hin as [Heq | Hin]; [ | right; right; exact Hin].
      rewrite <- Heq. destruct (Z.max_spec a x) as [[_ ->] | [_ ->]];
        [right; left | left]; reflexivity.
    + intros y [<- | [<- | Hy]].
      * specialize (Hmax (Z.max a x) (or_introl eq_refl)). lia.
      * specialize (Hmax (Z.max a x) (or_introl eq_refl)). lia.
      * apply Hmax. right. exact Hy.
Qed.

Lemma fold_left_min_least (xs : list Z) (a : Z) :
  least (fold_left Z.min xs a) (a :: xs).
Proof.
  revert a. induction xs as [|x xs IH]; intros a; cbn [fold_left].
  - split; [left; reflexivity | intros y [<- | []]; lia].
  - destruct (IH (Z.min a x)) as [Hin Hmin]. split.
    + destruct Hin as [Heq | Hin]; [ | right; right; exact Hin].
      rewrite <- Heq. destruct (Z.min_spec a x) as [[_ ->] | [_ ->]];
        [left | right; left]; reflexivity.
    + intros y [<- | [<- | Hy]].
      * specialize (Hmin (Z.min a x) (or_introl eq_refl)). lia.
      * specialize (Hmin (Z.min a x) (or_introl eq_refl)). lia.
      * apply Hmin. right. exact Hy.
Qed.

Lemma usage_summary_run v w :
  usage_summary v w
  = (Ok (Summary.mk
           (Z_or (sql.count (service_rows w v)) 0)
           (float (Q_or (sql.coalesce
                           (sql.sum (map ServiceEvent.total_cost (service_rows w v)))
                           0%Q) 0%Q))
           (float (Q_or (sql.coalesce
                           (sql.sum (map FuelEntry.total_cost (fuel_rows w v)))
                           0%Q) 0%Q))
           (float (Q_or (sql.coalesce
                           (sql.sum (map (fun f => Some (FuelEntry.liters f))
                                         (fuel_rows w v)))
                           0%Q) 0%Q))
           (sql.case_when
              (sql.gt (sql.sum (map (fun f => Some (FuelEntry.liters f))
                                    (fuel_rows w v)))
                      (Some 0%Q))
              (sql.div
                 (sql.mul_real
                    (sql.sub
                       (sql.max (map (fun f => Some (FuelEntry.odometer f))
                                     (fuel_rows w v)))
                       (sql.min (map (fun f => Some (FuelEntry.odometer f))
                                     (fuel_rows w v))))
                    1%Q)
                 (sql.sum (map (fun f => Some (FuelEntry.liters f))
                               (fuel_rows w v))))
              None)), w).
Proof. reflexivity. Qed.

Lemma Qle_bool_false_lt (x y : Q) : Qle_bool x y = false -> (y < x)%Q.
Proof.
  intros H. apply Qnot_le_lt. intros Hle.
  apply Qle_bool_iff in Hle. congruence.
Qed.

Lemma Qeq_bool_false_of_pos (x : Q) : (0 < x)%Q -> Qeq_bool x 0 = false.
Proof.
  intros H. destruct (Qeq_bool x 0) eqn:E; [ | reflexivity].
  apply Qeq_bool_iff in E. rewrite E in H. exfalso. exact (Qlt_irrefl 0 H).
Qed.

(** The aggregates of the fuel query over a non-empty history. *)
Lemma fuel_aggregates_cons f rows :
  sql.sum (map (fun g => Some (FuelEntry.liters g)) (f :: rows))
  = Some (fold_left Qplus (map FuelEntry.liters rows) (FuelEntry.liters f))
  /\ sql.max (map (fun g => Some (FuelEntry.odometer g)) (f :: rows))
     = Some (fold_left Z.max (map FuelEntry.odometer rows) (FuelEntry.odometer f))
  /\ sql.min (map (fun g => Some (FuelEntry.odometer g)) (f :: rows))
     = Some (fold_left Z.min (map FuelEntry.odometer rows) (FuelEntry.odometer f)).
Proof.
  unfold sql.sum, sql.max, sql.min.
  rewrite (non_null_map_Some FuelEntry.liters),
          (non_null_map_Some FuelEntry.odometer).
  repeat split.
Qed.

(** C5.  [km_per_liter] is (max odometer - min odometer) / total liters
    whenever the total volume is positive, and the no-data value [None]
    otherwise (never zero, and the summary never fails); with exactly one
    fuel record of positive volume it is 0, whereas with no fuel record it
    is [None]. *)
Theorem fuel_efficiency_is_guarded (w : World) (v : Vehicle.t) :
  exists s,
    usage_summary v w = (Ok s, w)
    /\ (Summary.total_liters s == total_volume (fuel_rows w v))%Q
    /\ ((0 < Summary.total_liters s)%Q ->
        exists hi lo,
          greatest hi (odometers (fuel_rows w v))
          /\ least lo (odometers (fuel_rows w v))
          /\ Summary.km_per_liter s
             = Some (inject_Z (hi - lo) * 1 / Summary.total_liters s)%Q)
    /\ (~ (0 < Summary.total_liters s)%Q -> Summary.km_per_liter s = None)
    /\ (forall f, fuel_rows w v = [f] -> (0 < FuelEntry.liters f)%Q ->
        exists q, Summary.km_per_liter s = Some q /\ (q == 0)%Q)
    /\ (fuel_rows w v = [] -> Summary.km_per_liter s = None).
Proof.
  eexists. split; [apply usage_summary_run | ].
  cbn [Summary.total_liters Summary.km_per_liter]. unfold float.
  destruct (fuel_rows w v) as [|f rows].
  - cbn. repeat split.
    + intros H. exfalso. exact (Qlt_irrefl 0 H).
    + intros g [=].
  - destruct (fuel_aggregates_cons f rows) as (-> & -> & ->).
    remember (fold_left Qplus (map FuelEntry.liters rows) (FuelEntry.liters f))
      as x eqn:Ex.
    remember (fold_left Z.max (map FuelEntry.odometer rows) (FuelEntry.odometer f))
      as hi eqn:Ehi.
    remember (fold_left Z.min (map FuelEntry.odometer rows) (FuelEntry.odometer f))
      as lo eqn:Elo.
    assert (Hx : (x == total_volume (f :: rows))%Q).
    { rewrite Ex, fold_left_Qplus, total_volume_fold. reflexivity. }
    cbn [sql.coalesce sql.gt sql.sub sql.mul_real sql.div sql.case_when].
    unfold Q_or.
    destruct (Qle_bool x 0) eqn:Hle; cbn [negb].
    + (* total volume <= 0 *)
      apply Qle_bool_iff in Hle.
      assert (Hnot : ~ (0 < (if Qeq_bool x 0 then 0 else x))%Q).
      { destruct (Qeq_bool x 0); intros H;
          [exact (Qlt_irrefl 0 H) | exact (Qlt_not_le _ _ H Hle)]. }
      repeat split.
      * destruct (Qeq_bool x 0) eqn:E; [ | exact Hx].
        apply Qeq_bool_iff in E. rewrite <- Hx, E. reflexivity.
      * intros H. contradiction.
      * intros g Hg Hpos. injection Hg as Hf Hrows.
        rewrite Hrows in Ex. cbn in Ex. subst x g.
        exfalso. exact (Qlt_not_le _ _ Hpos Hle).
    + (* total volume > 0 *)
      apply Qle_bool_false_lt in Hle.
      rewrite (Qeq_bool_false_of_pos x Hle).
      repeat split.
      * exact Hx.
      * intros _. exists hi, lo. subst hi lo. repeat split.
        -- apply (fold_left_max_greatest (map FuelEntry.odometer rows)).
        -- apply (fold_left_max_greatest (map FuelEntry.odometer rows)).
        -- apply (fold_left_min_least (map FuelEntry.odometer rows)).
        -- apply (fold_left_min_least (map FuelEntry.odometer rows)).
      * intros H. contradiction.
      * intros g Hg _. injection Hg as Hf Hrows.
        rewrite Hrows in Ehi, Elo. cbn in Ehi, Elo. subst hi lo.
        eexists. split; [reflexivity | ].
        rewrite Z.sub_diag. unfold Qdiv. ring.
      * discriminate.
Qed.

(** The example of the specification: two fills of 10 l at 1000 km and
    1400 km give 20 l and 20 km per liter. *)
Lemma fuel_efficiency_is_guarded_witness :
  exists s,
    usage_summary Sample.camry Sample.garage = (Ok s, Sample.garage)
    /\ (Summary.total_liters s == 20)%Q
    /\ exists q, Summary.km_per_liter s = Some q /\ (q == 20)%Q.
Proof.
  destruct (fuel_efficiency_is_guarded Sample.garage Sample.camry)
    as (s & Hrun & Htot & Hpos & _).
  assert (Ht : (Summary.total_liters s == 20)%Q)
    by (rewrite Htot; reflexivity).
  exists s. split; [exact Hrun | split; [exact Ht | ]].
  change (odometers (fuel_rows Sample.garage Sample.camry))
    with [1000; 1400] in Hpos.
  destruct Hpos as (hi & lo & [Hhi_in Hhi] & [Hlo_in Hlo] & Hkm).
  { rewrite Ht. reflexivity. }
  exists (inject_Z (hi - lo) * 1 / Summary.total_liters s)%Q.
  split; [exact Hkm | ].
  assert (Ehi : hi = 1400).
  { pose proof (Hhi 1400 (or_intror (or_introl eq_refl))).
    destruct Hhi_in as [<- | [<- | []]]; lia. }
  assert (Elo : lo = 1000).
  { pose proof (Hlo 1000 (or_introl eq_refl)).
    destruct Hlo_in as [<- | [<- | []]]; lia. }
  rewrite Ehi, Elo, Ht. reflexivity.
Defined.

Lemma filter_none {A} (p : A -> bool) (xs : list A) :
  (forall x, In x xs -> p x = false) -> filter p xs = [].
Proof.
  induction xs as [|x xs IH]; intros H; cbn; [reflexivity | ].
  rewrite (H x (or_introl eq_refl)). apply IH.
  intros y Hy. apply H. right. exact Hy.
Qed.

(** C6.  For a vehicle with no service record and no fuel record the
    summary is returned, with service_count 0, total_service_expense 0,
    total_fuel_cost 0, total_liters 0 and km_per_liter the no-data value. *)
Theorem summary_of_empty_histories (w : World) (v : Vehicle.t) :
  (forall ev, In ev (service_event w) ->
              ServiceEvent.vehicle_id ev <> Vehicle.id v) ->
  (forall f, In f (fuel_entry w) -> FuelEntry.vehicle_id f <> Vehicle.id v) ->
  usage_summary v w = (Ok (Summary.mk 0 0%Q 0%Q 0%Q None), w).
Proof.
  intros Hs Hf. rewrite usage_summary_run.
  assert (Es : service_rows w v = []).
  { apply filter_none. intros ev Hin. apply Z.eqb_neq. exact (Hs ev Hin). }
  assert (Ef : fuel_rows w v = []).
  { apply filter_none. intros f Hin. apply Z.eqb_neq. exact (Hf f Hin). }
  rewrite Es, Ef. reflexivity.
Qed.

Lemma summary_of_empty_histories_witness :
  usage_summary Sample.camry Sample.empty
  = (Ok (Summary.mk 0 0%Q 0%Q 0%Q None), Sample.empty).
Proof.
  apply (summary_of_empty_histories Sample.empty Sample.camry).
  - intros ev [].
  - intros f [].
Defined.

(* ================================================================== *)
(** * The batch of predictions *)
(* ================================================================== *)

(** A prediction only reads the state. *)
Lemma predict_reads_only v st km mo w :
  predict_next_service v st km mo w
  = (result (predict_next_service v st km mo) w, w).
Proof. unfold result. rewrite predict_run. reflexivity. Qed.

Lemma predict_rule_reads_only v r w :
  predict_rule v r w = (result (predict_rule v r) w, w).
Proof. destruct r as [[st km] mo]. apply predict_reads_only. Qed.

(** The loop returns the predictions built so far followed by one
    prediction per remaining rule, in order, exactly when each of them is
    returned; it fails as soon as one of them fails. *)
Lemma for_rules_spec v w : forall todo predictions out w',
  for_rules v todo predictions w = (Ok out, w') <->
  w' = w
  /\ exists preds,
       out = predictions ++ preds
       /\ map (fun r => result (predict_rule v r) w) todo = map Ok preds.
Proof.
  induction todo as [|r todo IH]; intros predictions out w'.
  - cbn. unfold ret. split.
    + intros [= <- <-]. split; [reflexivity | ].
      exists []. rewrite app_nil_r. split; reflexivity.
    + intros (-> & preds & -> & Hmap).
      destruct preds; [ | discriminate]. rewrite app_nil_r. reflexivity.
  - assert (Hstep : for_rules v (r :: todo) predictions w
                    = match result (predict_rule v r) w with
                      | Ok pred => for_rules v todo (predictions ++ [pred]) w
                      | Raise e => (Raise e, w)
                      end).
    { destruct r as [[st km] mo]. cbn [for_rules]. unfold bind.
      rewrite predict_reads_only. reflexivity. }
    rewrite Hstep. cbn [map].
    destruct (result (predict_rule v r) w) as [pred|e].
    + rewrite IH. split.
      * intros (-> & preds & -> & Hmap). split; [reflexivity | ].
        exists (pred :: preds). rewrite <- app_assoc. cbn. rewrite Hmap.
        split; reflexivity.
      * intros (-> & preds & -> & Hmap). split; [reflexivity | ].
        destruct preds as [|p preds]; [discriminate | ].
        cbn in Hmap. injection Hmap as <- Hmap.
        exists preds. rewrite <- app_assoc. split; [reflexivity | exact Hmap].
    + split; [discriminate | ].
      intros (_ & preds & _ & Hmap). destruct preds; discriminate.
Qed.

(** C7.  For every ordered list of rules the batch returns one prediction
    per rule, in the order of the rules, the i-th being the prediction of
    the i-th rule alone (the batch is returned exactly when each rule's
    prediction is); replacing one rule changes at most the prediction at
    its position; and the rule list of [vehicle_detail] is ("Oil Change",
    5000, 6), ("Brake Pads", 30000, 24), ("Wipers", 20000, 18). *)
Theorem predictions_follow_the_rules :
  (forall v rs w preds w',
      service_predictions v rs w = (Ok preds, w') <->
      w' = w
      /\ map (fun r => result (predict_rule v r) w) rs = map Ok preds)
  /\ (forall v rs w preds w',
        service_predictions v rs w = (Ok preds, w') ->
        List.length preds = List.length rs
        /\ forall i r, nth_error rs i = Some r ->
             exists p, nth_error preds i = Some p
                       /\ predict_rule v r w = (Ok p, w))
  /\ (forall v i rs rs' w preds preds' w1 w2,
        same_except i rs rs' ->
        service_predictions v rs w = (Ok preds, w1) ->
        service_predictions v rs' w = (Ok preds', w2) ->
        same_except i preds preds')
  /\ rules = [ ("Oil Change"%string, 5000, 6);
               ("Brake Pads"%string, 30000, 24);
               ("Wipers"%string, 20000, 18) ]
  /\ (forall v w c w',
        vehicle_detail v w = (Ok c, w') ->
        service_predictions v rules w = (Ok (Context.service_predictions c), w)).
Proof.
  assert (Hiff : forall v rs w preds w',
             service_predictions v rs w = (Ok preds, w') <->
             w' = w
             /\ map (fun r => result (predict_rule v r) w) rs = map Ok preds).
  { intros v rs w preds w'. unfold service_predictions.
    rewrite for_rules_spec. cbn [app]. split.
    - intros (-> & ps & -> & Hmap). split; [reflexivity | exact Hmap].
    - intros (-> & Hmap). split; [reflexivity | ].
      exists preds. split; [reflexivity | exact Hmap]. }
  split; [exact Hiff | ]. split; [ | split; [ | split; [reflexivity | ]]].
  - intros v rs w preds w' Hrun. apply Hiff in Hrun. destruct Hrun as [_ Hmap].
    split.
    + apply (f_equal (@List.length _)) in Hmap.
      rewrite !length_map in Hmap. symmetry. exact Hmap.
    + intros i r Hr.
      apply (f_equal (fun l => nth_error l i)) in Hmap.
      rewrite !nth_error_map, Hr in Hmap. cbn in Hmap.
      destruct (nth_error preds i) as [p|]; [ | discriminate].
      exists p. split; [reflexivity | ].
      injection Hmap as Hp. rewrite predict_rule_reads_only, Hp. reflexivity.
  - intros v i rs rs' w preds preds' w1 w2 [Hlen Hsame] Hrun Hrun'.
    apply Hiff in Hrun. apply Hiff in Hrun'.
    destruct Hrun as [_ Hmap]. destruct Hrun' as [_ Hmap']. split.
    + apply (f_equal (@List.length _)) in Hmap, Hmap'.
      rewrite !length_map in Hmap, Hmap'. congruence.
    + intros j Hj. specialize (Hsame j Hj).
      apply (f_equal (fun l => nth_error l j)) in Hmap, Hmap'.
      rewrite !nth_error_map in Hmap, Hmap'. rewrite Hsame, Hmap' in Hmap.
      destruct (nth_error preds j), (nth_error preds' j); cbn in Hmap;
        congruence.
  - intros v w c w'. unfold vehicle_detail, bind.
    rewrite usage_summary_run.
    destruct (service_predictions v rules w) as [[preds|e] w1] eqn:Hp;
      [ | discriminate].
    intros [= <- <-]. cbn [Context.service_predictions].
    apply Hiff in Hp. destruct Hp as [-> _]. reflexivity.
Qed.

(** The batch on the sample garage: three predictions, in rule order. *)
Lemma predictions_follow_the_rules_witness :
  List.length
    [ Prediction.mk "Oil Change" (datetime.ymd 2024 1 1) 45000
                    (datetime.ymd 2024 6 29) 50000;
      Prediction.mk "Brake Pads" (datetime.ymd 2023 6 15) 42000
                    (datetime.ymd 2025 6 4) 72000;
      Prediction.mk "Wipers" (datetime.ymd 2024 3 1) 45000
                    (datetime.ymd 2025 8 23) 65000 ]
  = List.length rules
  /\ forall i r, nth_error rules i = Some r ->
       exists p,
         nth_error
           [ Prediction.mk "Oil Change" (datetime.ymd 2024 1 1) 45000
                           (datetime.ymd 2024 6 29) 50000;
             Prediction.mk "Brake Pads" (datetime.ymd 2023 6 15) 42000
                           (datetime.ymd 2025 6 4) 72000;
             Prediction.mk "Wipers" (datetime.ymd 2024 3 1) 45000
                           (datetime.ymd 2025 8 23) 65000 ] i = Some p
         /\ predict_rule Sample.camry r Sample.garage = (Ok p, Sample.garage).
Proof.
  apply (proj1 (proj2 predictions_follow_the_rules)
           Sample.camry rules Sample.garage _ Sample.garage).
  vm_compute. reflexivity.
Defined.

(* ================================================================== *)
(** * The rows a prediction reads *)
(* ================================================================== *)


(* ================================================================== *)
(** * Further properties of the forecast and of the summary *)
(* ================================================================== *)




Lemma Q_or_zero (x : Q) : (Q_or x 0 == x)%Q.
Proof.
  unfold Q_or. destruct (Qeq_bool x 0) eqn:E; [ | reflexivity].
  apply Qeq_bool_iff in E. symmetry. exact E.
Qed.

(** [COALESCE(SUM(x), 0)] is the sum of the column with NULL read as 0. *)
Lemma coalesce_sum (xs : list (option Q)) :
  (sql.coalesce (sql.sum xs) 0 == fold_right Qplus 0 (map null_as_zero xs))%Q.
Proof.
  assert (H : (fold_right Qplus 0 (sql.non_null xs)
               == fold_right Qplus 0 (map null_as_zero xs))%Q).
  { induction xs as [|[x|] xs IH]; cbn; [reflexivity | | ].
    - rewrite IH. reflexivity.
    - rewrite IH. ring. }
  rewrite <- H. unfold sql.sum.
  destruct (sql.non_null xs) as [|v vs]; cbn; [reflexivity | ].
  apply fold_left_Qplus.
Qed.

(** X2.  The summary counts the vehicle's service records and totals the
    costs with a missing (NULL) cost read as 0: service_count is the number
    of service rows of the vehicle, total_service_expense and
    total_fuel_cost are the sums of the recorded costs, total_liters is the
    sum of the volumes. *)
Theorem summary_totals (w : World) (v : Vehicle.t) :
  exists s,
    usage_summary v w = (Ok s, w)
    /\ Summary.service_count s = Z.of_nat (List.length (service_rows w v))
    /\ (Summary.total_service_expense s == total_service_cost (service_rows w v))%Q
    /\ (Summary.total_fuel_cost s == total_fuel_spend (fuel_rows w v))%Q
    /\ (Summary.total_liters s == total_volume (fuel_rows w v))%Q.
Proof.
  eexists. split; [apply usage_summary_run | ].
  cbn [Summary.service_count Summary.total_service_expense
       Summary.total_fuel_cost Summary.total_liters].
  unfold float. rewrite !Q_or_zero, !coalesce_sum. repeat split.
  - unfold Z_or, sql.count.
    destruct (Z.eqb_spec (Z.of_nat (List.length (service_rows w v))) 0) as [E|];
      [symmetry; exact E | reflexivity].
  - unfold total_service_cost.
    induction (service_rows w v) as [|ev rows IH]; cbn;
      [reflexivity | rewrite IH; reflexivity].
  - unfold total_fuel_spend.
    induction (fuel_rows w v) as [|f rows IH]; cbn;
      [reflexivity | rewrite IH; reflexivity].
  - unfold total_volume.
    induction (fuel_rows w v) as [|f rows IH]; cbn;
      [reflexivity | rewrite IH; reflexivity].
Qed.

(** The value of [km_per_liter] over the fuel rows of a vehicle. *)
Lemma km_per_liter_value (rows : list FuelEntry.t) :
  sql.case_when
    (sql.gt (sql.sum (map (fun f => Some (FuelEntry.liters f)) rows)) (Some 0%Q))
    (sql.div
       (sql.mul_real
          (sql.sub (sql.max (map (fun f => Some (FuelEntry.odometer f)) rows))
                   (sql.min (map (fun f => Some (FuelEntry.odometer f)) rows)))
          1%Q)
       (sql.sum (map (fun f => Some (FuelEntry.liters f)) rows)))
    None
  = match rows with
    | [] => None
    | f :: rest =>
        let x := fold_left Qplus (map FuelEntry.liters rest) (FuelEntry.liters f) in
        if Qle_bool x 0 then None
        else Some (inject_Z
                     (fold_left Z.max (map FuelEntry.odometer rest)
                                (FuelEntry.odometer f)
                      - fold_left Z.min (map FuelEntry.odometer rest)
                                  (FuelEntry.odometer f)) * 1
                   / x)%Q
    end.
Proof.
  destruct rows as [|f rest]; [reflexivity | ].
  destruct (fuel_aggregates_cons f rest) as (-> & -> & ->).
  cbn [sql.coalesce sql.gt sql.sub sql.mul_real sql.div sql.case_when].
  cbv zeta.
  destruct (Qle_bool (fold_left Qplus (map FuelEntry.liters rest)
                                (FuelEntry.liters f)) 0) eqn:Hle;
    cbn [negb]; [reflexivity | ].
  apply Qle_bool_false_lt in Hle.
  rewrite (Qeq_bool_false_of_pos _ Hle). reflexivity.
Qed.

(** X3.  The fuel efficiency shown is never negative, and it is the
    no-data value exactly when the vehicle's total fuel volume is not
    positive. *)
Theorem km_per_liter_is_nonnegative
    (w w' : World) (v : Vehicle.t) (s : Summary.t) :
  usage_summary v w = (Ok s, w') ->
  (Summary.km_per_liter s = None <-> ~ (0 < total_volume (fuel_rows w v))%Q)
  /\ forall q, Summary.km_per_liter s = Some q -> (0 <= q)%Q.
Proof.
  rewrite usage_summary_run. intros [= <- <-].
  cbn [Summary.km_per_liter]. rewrite km_per_liter_value.
  destruct (fuel_rows w v) as [|f rest].
  - split; [ | discriminate]. split; [ | reflexivity].
    intros _ H. exact (Qlt_irrefl 0 H).
  - cbv zeta.
    remember (fold_left Qplus (map FuelEntry.liters rest) (FuelEntry.liters f))
      as x eqn:Ex.
    assert (Hx : (x == total_volume (f :: rest))%Q).
    { rewrite Ex, fold_left_Qplus, total_volume_fold. reflexivity. }
    rewrite <- Hx.
    destruct (Qle_bool x 0) eqn:Hle.
    + apply Qle_bool_iff in Hle. split; [ | discriminate].
      split; [ | reflexivity]. intros _ H. exact (Qlt_not_le _ _ H Hle).
    + apply Qle_bool_false_lt in Hle. split.
      * split; [discriminate | ]. intros H. contradiction.
      * intros q [= <-].
        pose proof (fold_left_max_greatest (map FuelEntry.odometer rest)
                      (FuelEntry.odometer f)) as [_ Hhi].
        pose proof (fold_left_min_least (map FuelEntry.odometer rest)
                      (FuelEntry.odometer f)) as [_ Hlo].
        specialize (Hhi _ (or_introl eq_refl)).
        specialize (Hlo _ (or_introl eq_refl)).
        unfold Qdiv. apply Qmult_le_0_compat.
        -- apply Qmult_le_0_compat; [ | discriminate].
           unfold Qle. cbn. lia.
        -- apply Qinv_le_0_compat. apply Qlt_le_weak. exact Hle.
Qed.

Lemma km_per_liter_is_nonnegative_witness :
  (Some (400 # 20)%Q = None
   <-> ~ (0 < total_volume (fuel_rows Sample.garage Sample.camry))%Q)
  /\ forall q, Some (400 # 20)%Q = Some q -> (0 <= q)%Q.
Proof.
  apply (km_per_liter_is_nonnegative Sample.garage Sample.garage Sample.camry
           (Summary.mk 3 (503 # 2)%Q 5%Q 20%Q (Some (400 # 20)%Q))).
  vm_compute. reflexivity.
Defined.

(* ================================================================== *)
(** * Further properties of [vehicle_detail] *)
(* ================================================================== *)

Lemma in_range_between (d a b : Z) :
  datetime.valid (fromordinal d) -> 0 <= a <= b -> in_range (d + b) ->
  in_range (d + a).
Proof. unfold datetime.valid, in_range. cbn. lia. Qed.

(** X4.  When, for each of the three rules, the day [months * 30] days
    after the rule's anchor date is a date and the rule's anchor odometer is
    an integer, [vehicle_detail] returns: the context holds the vehicle, the
    usage summary, and three predictions, for "Oil Change", "Brake Pads" and
    "Wipers" in this order, due 5000, 30000 and 20000 km and 180, 720 and
    540 days after their anchors. *)
Theorem vehicle_detail_returns (w : World) (v : Vehicle.t) :
  wf_world w ->
  (forall st km mo, In (st, km, mo) rules ->
     in_range (toordinal (last_date_in w v st) + mo * 30)
     /\ exists o, last_odo_in w v st = PyInt o) ->
  exists c,
    vehicle_detail v w = (Ok c, w)
    /\ Context.vehicle c = v
    /\ usage_summary v w = (Ok (Context.summary c), w)
    /\ map Prediction.service_type (Context.service_predictions c)
       = ["Oil Change"%string; "Brake Pads"%string; "Wipers"%string]
    /\ Forall (fun p => exists o, Prediction.last_odo p = PyInt o)
              (Context.service_predictions c)
    /\ map (fun p => Prediction.next_odo p - as_int (Prediction.last_odo p))
           (Context.service_predictions c)
       = [5000; 30000; 20000]
    /\ map (fun p => toordinal (Prediction.next_date p)
                     - toordinal (Prediction.last_date p))
           (Context.service_predictions c)
       = [180; 720; 540].
Proof.
  intros Hwf Hrules.
  assert (Hrule : forall st km mo, In (st, km, mo) rules ->
            predict_next_service v st km mo w
            = (Ok (Prediction.mk st (last_date_in w v st) (last_odo_in w v st)
                     (fromordinal (toordinal (last_date_in w v st) + mo * 30))
                     (as_int (last_odo_in w v st) + km)), w)).
  { intros st km mo Hin. destruct (Hrules st km mo Hin) as [Hr [o Ho]].
    rewrite (predict_ok v st km mo w o (last_date_in_valid w v st Hwf) Hr Ho).
    rewrite Ho. reflexivity. }
  eexists. split.
  - unfold vehicle_detail, bind. rewrite usage_summary_run.
    unfold service_predictions. unfold rules at 1. cbn [for_rules].
    unfold bind.
    rewrite (Hrule "Oil Change"%string 5000 6) by (cbn; tauto).
    rewrite (Hrule "Brake Pads"%string 30000 24) by (cbn; tauto).
    rewrite (Hrule "Wipers"%string 20000 18) by (cbn; tauto).
    cbn [app]. unfold ret. reflexivity.
  - cbn [Context.vehicle Context.summary Context.service_predictions map
         Prediction.service_type Prediction.next_odo Prediction.last_odo
         Prediction.next_date Prediction.last_date toordinal].
    split; [reflexivity | ]. split; [apply usage_summary_run | ].
    split; [reflexivity | ]. split; [ | split].
    + repeat apply Forall_cons; [ | | | apply Forall_nil].
      * apply (Hrules "Oil Change"%string 5000 6). cbn; tauto.
      * apply (Hrules "Brake Pads"%string 30000 24). cbn; tauto.
      * apply (Hrules "Wipers"%string 20000 18). cbn; tauto.
    + f_equal; [lia | f_equal; [lia | f_equal; lia]].
    + f_equal; [lia | f_equal; [lia | f_equal; lia]].
Qed.

Lemma vehicle_detail_returns_witness :
  exists c,
    vehicle_detail Sample.camry Sample.garage = (Ok c, Sample.garage)
    /\ Context.vehicle c = Sample.camry
    /\ usage_summary Sample.camry Sample.garage
       = (Ok (Context.summary c), Sample.garage)
    /\ map Prediction.service_type (Context.service_predictions c)
       = ["Oil Change"%string; "Brake Pads"%string; "Wipers"%string]
    /\ Forall (fun p => exists o, Prediction.last_odo p = PyInt o)
              (Context.service_predictions c)
    /\ map (fun p => Prediction.next_odo p - as_int (Prediction.last_odo p))
           (Context.service_predictions c)
       = [5000; 30000; 20000]
    /\ map (fun p => toordinal (Prediction.next_date p)
                     - toordinal (Prediction.last_date p))
           (Context.service_predictions c)
       = [180; 720; 540].
Proof.
  apply (vehicle_detail_returns Sample.garage Sample.camry).
  - exact garage_wf.
  - intros st km mo
      [[= <- <- <-] | [[= <- <- <-] | [[= <- <- <-] | []]]];
      (split; [apply last_date_in_shift, garage_shifts; lia
              | eexists; reflexivity]).
Defined.

(** The loop over the rules leaves the state as it found it. *)
Lemma for_rules_step v w r todo predictions :
  for_rules v (r :: todo) predictions w
  = match result (predict_rule v r) w with
    | Ok pred => for_rules v todo (predictions ++ [pred]) w
    | Raise e => (Raise e, w)
    end.
Proof.
  destruct r as [[st km] mo]. cbn [for_rules]. unfold bind.
  rewrite predict_reads_only. reflexivity.
Qed.

Lemma for_rules_reads_only v w : forall todo predictions,
  for_rules v todo predictions w = (result (for_rules v todo predictions) w, w).
Proof.
  induction todo as [|r todo IH]; intros predictions; [reflexivity | ].
  unfold result. rewrite for_rules_step.
  destruct (result (predict_rule v r) w) as [pred|e]; [ | reflexivity].
  apply IH.
Qed.

(** The loop fails with the exception of the first rule that fails. *)
Lemma for_rules_raise v w e : forall todo predictions,
  result (for_rules v todo predictions) w = Raise e <->
  exists before r after,
    todo = before ++ r :: after
    /\ (forall r', In r' before ->
          exists p, result (predict_rule v r') w = Ok p)
    /\ result (predict_rule v r) w = Raise e.
Proof.
  induction todo as [|r todo IH]; intros predictions.
  - split; [discriminate | ].
    intros (before & r & after & H & _). destruct before; discriminate.
  - unfold result at 1. rewrite for_rules_step.
    destruct (result (predict_rule v r) w) as [pred|e0] eqn:E.
    + fold (result (for_rules v todo (predictions ++ [pred])) w).
      rewrite IH. split.
      * intros (before & r' & after & -> & Hok & Hraise).
        exists (r :: before), r', after.
        split; [reflexivity | split; [ | exact Hraise]].
        intros r0 [<- | Hin]; [eexists; exact E | exact (Hok r0 Hin)].
      * intros (before & r' & after & Heq & Hok & Hraise).
        destruct before as [|b before]; cbn in Heq; injection Heq as <- ->.
        -- congruence.
        -- exists before, r', after.
           split; [reflexivity | split; [ | exact Hraise]].
           intros r0 Hin. apply Hok. right. exact Hin.
    + cbn [fst]. split.
      * intros [= <-]. exists [], r, todo.
        split; [reflexivity | split; [intros r0 [] | exact E]].
      * intros (before & r' & after & Heq & Hok & Hraise).
        destruct before as [|b before]; cbn in Heq; injection Heq as <- ->.
        -- congruence.
        -- destruct (Hok r (or_introl eq_refl)) as [p Hp]. congruence.
Qed.

(** X5.  [vehicle_detail] fails as a whole, summary included, exactly when
    the prediction of one of its three rules fails, and it fails with the
    exception of the first rule, in the order of the list, that fails; a
    single service dated too close to the end of the calendar is enough.
    It never changes the state. *)
Theorem vehicle_detail_fails_with_any_rule
    (w : World) (v : Vehicle.t) (e : exn) :
  (result (vehicle_detail v) w = Raise e
   <-> exists before r after,
         rules = before ++ r :: after
         /\ (forall r', In r' before ->
               exists p, result (predict_rule v r') w = Ok p)
         /\ result (predict_rule v r) w = Raise e)
  /\ final (vehicle_detail v) w = w.
Proof.
  unfold result at 1, final, vehicle_detail, bind. rewrite usage_summary_run.
  unfold service_predictions. rewrite for_rules_reads_only.
  rewrite <- (for_rules_raise v w e rules []).
  destruct (result (for_rules v rules []) w) as [preds|e0]; cbn.
  - split; [ | reflexivity]. split; discriminate.
  - split; [ | reflexivity]. split; intros [= ->]; reflexivity.
Qed.

(** The page of the sample vehicle fails once a brake service dated
    9999-06-01 is on record; when the vehicle's odometer holds text and the
    oil change has no reading, it fails earlier, at the first rule, with
    another exception. *)
Lemma vehicle_detail_fails_with_any_rule_witness :
  result (vehicle_detail Sample.camry) Cases.mistyped = Raise OverflowError
  /\ result (vehicle_detail Cases.edited) Cases.mistyped_blank
     = Raise TypeError.
Proof.
  split.
  - apply (proj2 (proj1 (vehicle_detail_fails_with_any_rule
                           Cases.mistyped Sample.camry OverflowError))).
    exists [("Oil Change"%string, 5000, 6)], ("Brake Pads"%string, 30000, 24),
           [("Wipers"%string, 20000, 18)].
    split; [reflexivity | split; [ | reflexivity]].
    intros r [<- | []]. eexists. reflexivity.
  - apply (proj2 (proj1 (vehicle_detail_fails_with_any_rule
                           Cases.mistyped_blank Cases.edited TypeError))).
    exists [], ("Oil Change"%string, 5000, 6),
           [("Brake Pads"%string, 30000, 24); ("Wipers"%string, 20000, 18)].
    split; [reflexivity | split; [intros r [] | reflexivity]].
Defined.

(* ================================================================== *)
(** * The service listing *)
(* ================================================================== *)

Lemma not_before_trans a b c :
  not_before a b -> not_before b c -> not_before a c.
Proof. unfold not_before. intros Hab Hbc. eapply key_leb_trans; eassumption. Qed.

Lemma order_by_strongly_sorted rows :
  StronglySorted not_before (order_by_service_date_desc rows).
Proof.
  apply Sorted_StronglySorted; [ | apply order_by_sorted].
  intros a b c. apply not_before_trans.
Qed.




Lemma first_filter_find {A} (p : A -> bool) (xs : list A) :
  first (filter p xs) = find p xs.
Proof.
  induction xs as [|x xs IH]; cbn; [reflexivity | ].
  destruct (p x); [reflexivity | exact IH].
Qed.

Lemma list_services_run v w :
  list_services v w = (Ok (order_by_service_date_desc (service_rows w v)), w).
Proof. reflexivity. Qed.

(** X6.  The service listing of a vehicle returns exactly the service
    records of that vehicle, each once, arranged so that no record is dated
    before a record listed after it; the state is left as it was. *)
Theorem list_services_sorted_permutation (w : World) (v : Vehicle.t) :
  exists services,
    list_services v w = (Ok services, w)
    /\ Permutation services (service_rows w v)
    /\ StronglySorted not_before services
    /\ forall ev, In ev services <->
                  In ev (service_event w)
                  /\ ServiceEvent.vehicle_id ev = Vehicle.id v.
Proof.
  eexists. split; [apply list_services_run | ].
  split; [apply order_by_permutation | ].
  split; [apply order_by_strongly_sorted | ].
  intros ev. split.
  - intros Hin.
    apply (Permutation_in _ (order_by_permutation (service_rows w v))) in Hin.
    unfold service_rows in Hin. apply filter_In in Hin.
    destruct Hin as [Hin Hv]. split; [exact Hin | apply Z.eqb_eq, Hv].
  - intros [Hin Hv].
    apply (Permutation_in _ (Permutation_sym
                               (order_by_permutation (service_rows w v)))).
    unfold service_rows. apply filter_In. split; [exact Hin | ].
    apply Z.eqb_eq, Hv.
Qed.


(* ================================================================== *)
(** * Access to vehicles *)
(* ================================================================== *)

Lemma In_owned_vehicles s uid row :
  In row (owned_vehicles s uid) <-> In row (vehicle_table s) /\ member s uid row.
Proof.
  unfold owned_vehicles, member. rewrite in_flat_map. split.
  - intros (v & Hv & Hrow). apply in_flat_map in Hrow.
    destruct Hrow as (g & Hg & Hrow). apply in_map_iff in Hrow.
    destruct Hrow as (l & <- & Hl).
    apply filter_In in Hg. destruct Hg as [Hg Hvg].
    apply filter_In in Hl. destruct Hl as [Hl Hgl].
    apply andb_true_iff in Hgl. destruct Hgl as [Hgl Hlu].
    apply Z.eqb_eq in Hvg, Hgl, Hlu.
    split; [exact Hv | ]. exists g, l. repeat split; congruence.
  - intros (Hv & g & l & Hg & Hvg & Hl & Hgl & Hlu).
    exists row. split; [exact Hv | ]. apply in_flat_map.
    exists g. split.
    + apply filter_In. split; [exact Hg | ]. apply Z.eqb_eq. congruence.
    + apply in_map_iff. exists l. split; [reflexivity | ].
      apply filter_In. split; [exact Hl | ].
      apply andb_true_iff. split; apply Z.eqb_eq; congruence.
Qed.

(** [first_or_404] over the rows a query yields. *)
Lemma get_vehicle_over s vid rows :
  vehicle_query_for_current_user s = Done rows ->
  (forall row, get_vehicle_for_current_user vid s = Done row ->
               In row rows /\ VehicleRow.id row = vid)
  /\ ((exists row, get_vehicle_for_current_user vid s = Done row)
      <-> exists row, In row rows /\ VehicleRow.id row = vid)
  /\ (get_vehicle_for_current_user vid s = Abort NotFound
      <-> ~ exists row, In row rows /\ VehicleRow.id row = vid).
Proof.
  intros Hq. unfold get_vehicle_for_current_user. rewrite Hq.
  rewrite first_filter_find.
  destruct (find (fun v => VehicleRow.id v =? vid) rows) as [v|] eqn:E.
  - apply find_some in E. destruct E as [Hin Hid]. apply Z.eqb_eq in Hid.
    split; [intros row [= <-]; tauto | ]. split.
    + split; [intros _; exists v; tauto | intros _; exists v; reflexivity].
    + split; [discriminate | ]. intros H. exfalso. apply H. exists v. tauto.
  - split; [discriminate | ]. split.
    + split; [intros [row [=]] | ].
      intros (row & Hin & Hid).
      apply (find_none _ _ E) in Hin. apply Z.eqb_neq in Hin. contradiction.
    + split; [ | reflexivity]. intros _ (row & Hin & Hid).
      apply (find_none _ _ E) in Hin. apply Z.eqb_neq in Hin. contradiction.
Qed.

Lemma vehicle_query_owner s u :
  current_user s = Some u -> ~ is_admin u ->
  vehicle_query_for_current_user s = Done (owned_vehicles s (User.id u)).
Proof.
  intros Hu Hna. unfold vehicle_query_for_current_user. rewrite Hu.
  destruct (String.eqb_spec (User.email u) ADMIN_EMAIL) as [E|_];
    [contradiction | reflexivity].
Qed.

Lemma vehicle_query_admin s u :
  current_user s = Some u -> is_admin u ->
  vehicle_query_for_current_user s = Done (vehicle_table s).
Proof.
  intros Hu Ha. unfold vehicle_query_for_current_user. rewrite Hu.
  destruct (String.eqb_spec (User.email u) ADMIN_EMAIL) as [_|E];
    [reflexivity | contradiction].
Qed.

(** X8.  An owner who is not the administrator gets a vehicle by its id
    only if a link ties the owner to the vehicle's (existing) group, gets
    one whenever such a vehicle exists, and gets 404 otherwise. *)
Theorem owner_reaches_only_vehicles_of_own_groups
    (s : Site) (u : User.t) (vid : Z) :
  current_user s = Some u -> ~ is_admin u ->
  (forall row, get_vehicle_for_current_user vid s = Done row ->
               In row (vehicle_table s) /\ VehicleRow.id row = vid
               /\ member s (User.id u) row)
  /\ ((exists row, get_vehicle_for_current_user vid s = Done row)
      <-> exists row, In row (vehicle_table s) /\ VehicleRow.id row = vid
                      /\ member s (User.id u) row)
  /\ (get_vehicle_for_current_user vid s = Abort NotFound
      <-> ~ exists row, In row (vehicle_table s) /\ VehicleRow.id row = vid
                        /\ member s (User.id u) row).
Proof.
  intros Hu Hna.
  destruct (get_vehicle_over s vid _ (vehicle_query_owner s u Hu Hna))
    as (Hsound & Hsome & Hnone).
  assert (Heq : (exists row, In row (owned_vehicles s (User.id u))
                             /\ VehicleRow.id row = vid)
                <-> exists row, In row (vehicle_table s)
                                /\ VehicleRow.id row = vid
                                /\ member s (User.id u) row).
  { split; intros (row & H); exists row;
      [destruct H as [H Hid]; apply In_owned_vehicles in H
      | destruct H as (Hin & Hid & Hm);
        split; [apply In_owned_vehicles | ] ]; tauto. }
  split; [ | split].
  - intros row Hrow. destruct (Hsound row Hrow) as [Hin Hid].
    apply In_owned_vehicles in Hin. tauto.
  - rewrite Hsome. exact Heq.
  - rewrite Hnone, Heq. reflexivity.
Qed.

(** Ana, linked to group 1 only, is refused vehicle 12 of group 2. *)
Lemma owner_reaches_only_vehicles_of_own_groups_witness :
  get_vehicle_for_current_user 12 (Cases.site (Some Cases.ana))
  = Abort NotFound.
Proof.
  apply (proj2 (proj2 (owner_reaches_only_vehicles_of_own_groups
                         (Cases.site (Some Cases.ana)) Cases.ana 12
                         eq_refl ltac:(discriminate)))).
  intros (row & Hin & Hid & g & l & Hg & Hgid & Hl & Hlg & Hlu).
  destruct Hin as [<- | [<- | [<- | []]]]; try discriminate Hid.
  destruct Hl as [<- | [<- | []]]; cbn in Hgid, Hlg, Hlu; lia.
Defined.

(** X9.  The administrator gets any vehicle by its id, whatever the
    groups and links, and 404 only when no vehicle has that id. *)
Theorem admin_reaches_every_vehicle (s : Site) (u : User.t) (vid : Z) :
  current_user s = Some u -> is_admin u ->
  (forall row, get_vehicle_for_current_user vid s = Done row ->
               In row (vehicle_table s) /\ VehicleRow.id row = vid)
  /\ ((exists row, get_vehicle_for_current_user vid s = Done row)
      <-> exists row, In row (vehicle_table s) /\ VehicleRow.id row = vid)
  /\ (get_vehicle_for_current_user vid s = Abort NotFound
      <-> ~ exists row, In row (vehicle_table s) /\ VehicleRow.id row = vid).
Proof.
  intros Hu Ha. exact (get_vehicle_over s vid _ (vehicle_query_admin s u Hu Ha)).
Qed.

(** The administrator, linked to no group, gets vehicle 12. *)
Lemma admin_reaches_every_vehicle_witness :
  exists row,
    get_vehicle_for_current_user 12 (Cases.site (Some Cases.admin)) = Done row.
Proof.
  apply (proj1 (proj2 (admin_reaches_every_vehicle
                         (Cases.site (Some Cases.admin)) Cases.admin 12
                         eq_refl eq_refl))).
  exists Cases.focus_row. split; [cbn; tauto | reflexivity].
Defined.

(** X10.  The detail page is closed to whoever may not see the vehicle: an
    anonymous visitor is sent to the login (the anonymous user's missing
    attributes are never touched), and an owner who is not the administrator
    and has no link to the group of a vehicle with the requested id gets
    404, whatever the service and fuel records are. *)
Theorem vehicle_detail_view_refuses (s : Site) (vid : Z) :
  (current_user s = None -> vehicle_detail_view vid s = Abort LoginRequired)
  /\ vehicle_detail_view vid s <> Abort AttributeError
  /\ (forall u,
        current_user s = Some u -> ~ is_admin u ->
        (~ exists row, In row (vehicle_table s) /\ VehicleRow.id row = vid
                       /\ member s (User.id u) row) ->
        forall w, vehicle_detail_view vid
                    (mkSite (user_table s) (vehicle_table s) (owner_group s)
                            (owner_group_user s) (current_user s) w)
                  = Abort NotFound).
Proof.
  split; [ | split].
  - intros Hu. unfold vehicle_detail_view, login_required. rewrite Hu.
    reflexivity.
  - unfold vehicle_detail_view, login_required.
    destruct (current_user s) as [u|] eqn:Hu; [ | discriminate].
    unfold get_vehicle_for_current_user, vehicle_query_for_current_user.
    rewrite Hu.
    destruct (String.eqb (User.email u) ADMIN_EMAIL);
      match goal with
      | |- context [first ?l] => destruct (first l)
      end; try discriminate;
      match goal with
      | |- context [result ?m ?w] => destruct (result m w)
      end; discriminate.
  - intros u Hu Hna Hnone w.
    set (s' := mkSite (user_table s) (vehicle_table s) (owner_group s)
                      (owner_group_user s) (current_user s) w).
    assert (Hget : get_vehicle_for_current_user vid s' = Abort NotFound).
    { destruct (get_vehicle_over s' vid _ (vehicle_query_owner s' u Hu Hna))
        as (_ & _ & Hn).
      apply Hn. intros (row & Hin & Hid). apply In_owned_vehicles in Hin.
      apply Hnone. exists row. split; [apply Hin | split; [exact Hid | apply Hin]]. }
    unfold vehicle_detail_view, login_required. cbn [current_user s'].
    rewrite Hu, Hget. reflexivity.
Qed.

Lemma vehicle_detail_inv v w c :
  result (vehicle_detail v) w = Ok c ->
  vehicle_detail v w = (Ok c, w) /\ Context.vehicle c = v.
Proof.
  unfold result, vehicle_detail, bind. rewrite usage_summary_run.
  unfold service_predictions, rules. cbn [for_rules]. unfold bind.
  rewrite (predict_reads_only v "Oil Change" 5000 6 w).
  destruct (result (predict_next_service v "Oil Change" 5000 6) w);
    [ | discriminate].
  rewrite (predict_reads_only v "Brake Pads" 30000 24 w).
  destruct (result (predict_next_service v "Brake Pads" 30000 24) w);
    [ | discriminate].
  rewrite (predict_reads_only v "Wipers" 20000 18 w).
  destruct (result (predict_next_service v "Wipers" 20000 18) w);
    [ | discriminate].
  cbn. intros [= <-]. split; reflexivity.
Qed.

(** X11.  Whenever the detail page is rendered, the visitor is logged in
    and is the administrator or linked to the group of the vehicle shown,
    that vehicle carries the requested id, and the context is the one
    [vehicle_detail] computes for it. *)
Theorem vehicle_detail_view_renders (s : Site) (vid : Z) (c : Context.t) :
  vehicle_detail_view vid s = Done c ->
  exists u row,
    current_user s = Some u
    /\ In row (vehicle_table s) /\ VehicleRow.id row = vid
    /\ (is_admin u \/ member s (User.id u) row)
    /\ Context.vehicle c = VehicleRow.vehicle row
    /\ vehicle_detail (VehicleRow.vehicle row) (world s) = (Ok c, world s).
Proof.
  unfold vehicle_detail_view, login_required.
  destruct (current_user s) as [u|] eqn:Hu; [ | discriminate].
  destruct (get_vehicle_for_current_user vid s) as [row|e] eqn:Hget;
    [ | discriminate].
  destruct (result (vehicle_detail (VehicleRow.vehicle row)) (world s))
    as [c'|e] eqn:Hc; [ | discriminate].
  intros [= <-]. apply vehicle_detail_inv in Hc. destruct Hc as [Hrun Hv].
  exists u, row. split; [reflexivity | ].
  assert (Hrow : In row (vehicle_table s) /\ VehicleRow.id row = vid
                 /\ (is_admin u \/ member s (User.id u) row)).
  { destruct (String.eqb_spec (User.email u) ADMIN_EMAIL) as [Ha|Hna].
    - destruct (get_vehicle_over s vid _ (vehicle_query_admin s u Hu Ha))
        as (Hsound & _).
      destruct (Hsound row Hget). repeat split; try assumption. left. exact Ha.
    - destruct (get_vehicle_over s vid _ (vehicle_query_owner s u Hu Hna))
        as (Hsound & _).
      destruct (Hsound row Hget) as [Hin Hid].
      apply In_owned_vehicles in Hin. repeat split; try tauto. }
  repeat split; try tauto; assumption.
Qed.

(** Ana, linked to group 1, is shown the sample vehicle. *)
Lemma vehicle_detail_view_renders_witness :
  exists u row,
    current_user (Cases.site (Some Cases.ana)) = Some u
    /\ In row (vehicle_table (Cases.site (Some Cases.ana)))
    /\ VehicleRow.id row = 7
    /\ (is_admin u \/ member (Cases.site (Some Cases.ana)) (User.id u) row)
    /\ Context.vehicle Cases.camry_context = VehicleRow.vehicle row
    /\ vehicle_detail (VehicleRow.vehicle row)
                      (world (Cases.site (Some Cases.ana)))
       = (Ok Cases.camry_context, world (Cases.site (Some Cases.ana))).
Proof.
  apply (vehicle_detail_view_renders (Cases.site (Some Cases.ana)) 7
           Cases.camry_context).
  vm_compute. reflexivity.
Defined.

(* ---------------------------------------------------------------- *)

Lemma unique_entities_In seen rows row :
  In row (unique_entities seen rows) ->
  In row rows /\ ~ In (VehicleRow.id row) seen.
Proof.
  revert seen. induction rows as [|v rest IH]; intros seen; cbn; [tauto | ].
  destruct (existsb (Z.eqb (VehicleRow.id v)) seen) eqn:E.
  - intros H. apply IH in H. tauto.
  - intros [<- | H].
    + split; [left; reflexivity | ]. intros Hin.
      assert (Ht : existsb (Z.eqb (VehicleRow.id v)) seen = true).
      { apply existsb_exists. exists (VehicleRow.id v).
        split; [exact Hin | apply Z.eqb_refl]. }
      congruence.
    + apply IH in H. destruct H as [Hin Hseen].
      split; [right; exact Hin | ]. intros Hs. apply Hseen. right. exact Hs.
Qed.

Lemma unique_entities_complete seen rows row :
  In row rows -> ~ In (VehicleRow.id row) seen ->
  exists row', In row' (unique_entities seen rows)
               /\ VehicleRow.id row' = VehicleRow.id row.
Proof.
  revert seen. induction rows as [|v rest IH]; intros seen; cbn; [tauto | ].
  intros Hin Hseen.
  destruct (existsb (Z.eqb (VehicleRow.id v)) seen) eqn:E.
  - destruct Hin as [-> | Hin]; [ | exact (IH seen Hin Hseen)].
    exfalso. apply existsb_exists in E. destruct E as (i & Hi & Heq).
    apply Z.eqb_eq in Heq. subst i. exact (Hseen Hi).
  - destruct Hin as [-> | Hin]; [exists row; split; [left | ]; reflexivity | ].
    destruct (Z.eq_dec (VehicleRow.id v) (VehicleRow.id row)) as [Heq|Hne].
    + exists v. split; [left; reflexivity | exact Heq].
    + destruct (IH (VehicleRow.id v :: seen) Hin) as (row' & Hin' & Hid).
      * intros [H | H]; [exact (Hne H) | exact (Hseen H)].
      * exists row'. split; [right; exact Hin' | exact Hid].
Qed.

Lemma unique_entities_NoDup seen rows :
  NoDup (map VehicleRow.id (unique_entities seen rows)).
Proof.
  revert seen. induction rows as [|v rest IH]; intros seen; cbn;
    [constructor | ].
  destruct (existsb (Z.eqb (VehicleRow.id v)) seen); [apply IH | ].
  cbn. constructor; [ | apply IH].
  intros Hin. apply in_map_iff in Hin. destruct Hin as (row & Hid & Hin).
  apply unique_entities_In in Hin. destruct Hin as [_ Hseen].
  apply Hseen. left. symmetry. exact Hid.
Qed.

(** X12.  The vehicle list of an owner who is not the administrator shows
    only vehicles of groups the owner is linked to, shows every such
    vehicle, and shows no vehicle id twice, however many links or groups
    lead to it. *)
Theorem list_vehicles_shows_own_vehicles (s : Site) (u : User.t) :
  current_user s = Some u -> ~ is_admin u ->
  exists rows,
    list_vehicles s = Done rows
    /\ (forall row, In row rows ->
                    In row (vehicle_table s) /\ member s (User.id u) row)
    /\ (forall row, In row (vehicle_table s) -> member s (User.id u) row ->
                    exists row', In row' rows
                                 /\ VehicleRow.id row' = VehicleRow.id row)
    /\ NoDup (map VehicleRow.id rows).
Proof.
  intros Hu Hna. eexists. split.
  - unfold list_vehicles, login_required.
    rewrite Hu, (vehicle_query_owner s u Hu Hna). reflexivity.
  - split; [ | split].
    + intros row Hin. apply unique_entities_In in Hin.
      apply In_owned_vehicles, Hin.
    + intros row Hin Hm. apply unique_entities_complete; [ | intros []].
      apply In_owned_vehicles. tauto.
    + apply unique_entities_NoDup.
Qed.

(** Ana sees the two vehicles of group 1. *)
Lemma list_vehicles_shows_own_vehicles_witness :
  list_vehicles (Cases.site (Some Cases.ana))
  = Done [Cases.camry_row; Cases.civic_row].
Proof.
  destruct (list_vehicles_shows_own_vehicles
              (Cases.site (Some Cases.ana)) Cases.ana eq_refl
              ltac:(discriminate)) as (rows & Hrun & _).
  rewrite Hrun. vm_compute in Hrun. injection Hrun as <-. reflexivity.
Defined.

(* ================================================================== *)
(** * Recording a service *)
(* ================================================================== *)

Lemma next_id_fresh rows ev :
  In ev rows -> ServiceEvent.id ev < next_id rows.
Proof.
  unfold next_id. induction rows as [|x rows IH]; cbn [map fold_right In];
    [tauto | ].
  intros [<- | Hin]; [lia | ]. specialize (IH Hin). lia.
Qed.

Lemma filter_by_with_service w row vid st :
  filter_by vid st (service_event (with_service w row))
  = filter_by vid st (service_event w) ++ filter_by vid st [row].
Proof. unfold with_service, filter_by. cbn [service_event]. apply filter_app. Qed.

Lemma filter_by_one_matching vid st row :
  matches vid st row -> filter_by vid st [row] = [row].
Proof.
  intros [Hv Ht]. unfold filter_by. cbn. rewrite Hv, Z.eqb_refl, Ht. cbn.
  rewrite String.eqb_refl. reflexivity.
Qed.

Lemma filter_by_one_other vid st row :
  ~ matches vid st row -> filter_by vid st [row] = [].
Proof.
  intros Hno. apply (filter_by_skip vid st [] row []) in Hno. exact Hno.
Qed.

(** A new row dated after every matching row on record is the one the
    query selects. *)
Lemma last_event_in_with_service w row v st d :
  matches (Vehicle.id v) st row ->
  ServiceEvent.service_date row = Some d ->
  (forall ev d', In ev (service_event w) -> matches (Vehicle.id v) st ev ->
                 ServiceEvent.service_date ev = Some d' ->
                 toordinal d' < toordinal d) ->
  last_event_in (with_service w row) v st = Some row.
Proof.
  intros Hm Hd Hlater. unfold last_event_in.
  rewrite filter_by_with_service, (filter_by_one_matching _ _ _ Hm).
  destruct (first (order_by_service_date_desc
                     (filter_by (Vehicle.id v) st (service_event w) ++ [row])))
    as [ev|] eqn:E.
  - apply first_order_by_latest in E. destruct E as [Hin Hmax].
    assert (Hrow : In row (filter_by (Vehicle.id v) st (service_event w)
                           ++ [row]))
      by (apply in_or_app; right; left; reflexivity).
    specialize (Hmax row Hrow).
    rewrite Hd in Hmax. apply key_leb_some in Hmax.
    destruct Hmax as (d' & Hd' & Hle).
    apply in_app_or in Hin. destruct Hin as [Hin | [<- | []]]; [ | reflexivity].
    apply filter_by_In in Hin. destruct Hin as [Hin Hmev].
    specialize (Hlater ev d' Hin Hmev Hd'). lia.
  - apply first_order_by_nil in E. destruct (filter_by _ _ _); discriminate.
Qed.

Section FormsFacts.

Variable strptime_ymd : string -> option date.
Variable py_int : string -> option Z.
Variable py_float : string -> option Q.

(** What a POST that returns has read and stored. *)
Lemma add_service_post_inv req v w pg w' :
  Request.method req = "POST"%string ->
  add_service strptime_ymd py_int py_float req v w = (Done pg, w') ->
  exists raw_date d raw_odo odo labor total,
    form_get (Request.form req) "service_date" = Some raw_date
    /\ strptime_ymd raw_date = Some d
    /\ form_get (Request.form req) "odometer_at_service" = Some raw_odo
    /\ or_zero py_int 0 (Some raw_odo) = Some odo
    /\ or_zero py_float 0%Q (form_get (Request.form req) "labor_cost")
       = Some labor
    /\ or_zero py_float 0%Q (form_get (Request.form req) "total_cost")
       = Some total
    /\ pg = redirect_list_services (Vehicle.id v)
    /\ w' = with_service w
              (ServiceEvent.mk (next_id (service_event w)) (Vehicle.id v)
                 (Some d) (Some odo)
                 (form_get (Request.form req) "service_type") (Some total)).
Proof.
  intros Hpost. unfold add_service. rewrite Hpost, String.eqb_refl.
  unfold st_bind, form_item, parsed, st_ret, db_add_service_event.
  destruct (form_get (Request.form req) "service_date") as [raw_date|];
    [ | discriminate].
  destruct (strptime_ymd raw_date) as [d|] eqn:Ed; [ | discriminate].
  destruct (form_get (Request.form req) "odometer_at_service") as [raw_odo|];
    [ | discriminate].
  destruct (or_zero py_int 0 (Some raw_odo)) as [odo|] eqn:Eo; [ | discriminate].
  destruct (or_zero py_float 0%Q (form_get (Request.form req) "labor_cost"))
    as [labor|] eqn:El; [ | discriminate].
  destruct (or_zero py_float 0%Q (form_get (Request.form req) "total_cost"))
    as [total|] eqn:Et; [ | discriminate].
  intros [= <- <-].
  exists raw_date, d, raw_odo, odo, labor, total. repeat split; assumption.
Qed.

Lemma service_rows_with_service w row v :
  service_rows (with_service w row) v
  = service_rows w v
    ++ (if ServiceEvent.vehicle_id row =? Vehicle.id v then [row] else []).
Proof. unfold service_rows, with_service. cbn [service_event]. apply filter_app. Qed.

Lemma Z_or_zero (x : Z) : Z_or x 0 = x.
Proof. unfold Z_or. destruct (Z.eqb_spec x 0); congruence. Qed.

Lemma fold_right_Qplus_snoc (xs : list Q) (x : Q) :
  (fold_right Qplus 0 (xs ++ [x]) == fold_right Qplus 0 xs + x)%Q.
Proof.
  induction xs as [|y xs IH]; cbn; [ring | rewrite IH; ring].
Qed.

(** X13.  A service recorded through the form, dated after every service
    of its type already on record for the vehicle, becomes the anchor of
    that type's forecast: the anchor date is the posted date, and the anchor
    odometer is the posted reading, or the vehicle's current odometer when
    the odometer field was left empty. *)
Theorem recorded_service_anchors_forecast
    (req : Request.t) (v : Vehicle.t) (w w' w'' : World) (pg : page)
    (st : string) (d : date) (km mo : Z) (f : Prediction.t) :
  Request.method req = "POST"%string ->
  add_service strptime_ymd py_int py_float req v w = (Done pg, w') ->
  form_get (Request.form req) "service_type" = Some st ->
  (exists raw, form_get (Request.form req) "service_date" = Some raw
               /\ strptime_ymd raw = Some d) ->
  (forall ev d', In ev (service_event w) -> matches (Vehicle.id v) st ev ->
                 ServiceEvent.service_date ev = Some d' ->
                 toordinal d' < toordinal d) ->
  predict_next_service v st km mo w' = (Ok f, w'') ->
  Prediction.last_date f = d
  /\ (form_get (Request.form req) "odometer_at_service" = Some ""%string ->
      Prediction.last_odo f = Vehicle.current_odometer v)
  /\ (forall raw o,
        form_get (Request.form req) "odometer_at_service" = Some raw ->
        raw <> ""%string -> py_int raw = Some o -> o <> 0 ->
        Prediction.last_odo f = o).
Proof.
  intros Hpost Hrun Htype (raw & Hraw & Hd) Hlater Hpred.
  destruct (add_service_post_inv req v w pg w' Hpost Hrun)
    as (raw_date & d0 & raw_odo & odo & labor & total
        & Hraw0 & Hd0 & Hodo_raw & Hodo & _ & _ & _ & ->).
  assert (d0 = d) by congruence. subst d0.
  set (row := ServiceEvent.mk (next_id (service_event w)) (Vehicle.id v)
                (Some d) (Some odo)
                (form_get (Request.form req) "service_type") (Some total)).
  assert (E : last_event_in (with_service w row) v st = Some row).
  { apply (last_event_in_with_service w row v st d);
      [split; [reflexivity | exact Htype] | reflexivity | exact Hlater]. }
  apply predict_inv in Hpred. destruct Hpred as (_ & -> & _).
  cbn [Prediction.last_date Prediction.last_odo].
  unfold last_date_in, last_odo_in. fold row. rewrite E.
  cbn [ServiceEvent.service_date ServiceEvent.odometer_at_service row].
  split; [reflexivity | split].
  - intros Hempty. rewrite Hempty in Hodo_raw. injection Hodo_raw as <-.
    cbn in Hodo. injection Hodo as <-. reflexivity.
  - intros raw' o Hraw' Hne Ho Hnz. rewrite Hraw' in Hodo_raw.
    injection Hodo_raw as <-. unfold or_zero in Hodo.
    destruct (String.eqb_spec raw' ""); [contradiction | ].
    assert (odo = o) by congruence. subst odo. cbn.
    destruct (Z.eqb_spec o 0); [contradiction | reflexivity].
Qed.

(** X14.  A recorded service enters the vehicle's summary: the service
    count grows by one and the total service expense by the posted total
    cost (nothing when that field is absent or empty); the fuel figures stay
    as they were. *)
Theorem recorded_service_enters_summary
    (req : Request.t) (v : Vehicle.t) (w w' : World) (pg : page) :
  Request.method req = "POST"%string ->
  add_service strptime_ymd py_int py_float req v w = (Done pg, w') ->
  exists s s' cost,
    usage_summary v w = (Ok s, w)
    /\ usage_summary v w' = (Ok s', w')
    /\ or_zero py_float 0%Q (form_get (Request.form req) "total_cost")
       = Some cost
    /\ Summary.service_count s' = Summary.service_count s + 1
    /\ (Summary.total_service_expense s'
        == Summary.total_service_expense s + cost)%Q
    /\ Summary.total_fuel_cost s' = Summary.total_fuel_cost s
    /\ Summary.total_liters s' = Summary.total_liters s
    /\ Summary.km_per_liter s' = Summary.km_per_liter s.
Proof.
  intros Hpost Hrun.
  destruct (add_service_post_inv req v w pg w' Hpost Hrun)
    as (raw_date & d & raw_odo & odo & labor & total
        & _ & _ & _ & _ & _ & Htotal & _ & ->).
  do 2 eexists. exists total.
  split; [apply usage_summary_run | ]. split; [apply usage_summary_run | ].
  split; [exact Htotal | ].
  cbn [Summary.service_count Summary.total_service_expense
       Summary.total_fuel_cost Summary.total_liters Summary.km_per_liter].
  rewrite service_rows_with_service.
  cbn [ServiceEvent.vehicle_id]. rewrite Z.eqb_refl.
  split; [ | split; [ | repeat split]].
  - rewrite !Z_or_zero. unfold sql.count. rewrite length_app. cbn. lia.
  - unfold float. rewrite !Q_or_zero, !coalesce_sum, !map_app.
    cbn [map ServiceEvent.total_cost null_as_zero].
    apply fold_right_Qplus_snoc.
Qed.

(** X15.  Recording a service for one vehicle and one service type leaves
    every other forecast and every other vehicle's summary as it was, and
    touches neither the fuel records nor the clock. *)
Theorem recorded_service_leaves_the_rest
    (req : Request.t) (v : Vehicle.t) (w w' : World) (pg : page) :
  Request.method req = "POST"%string ->
  add_service strptime_ymd py_int py_float req v w = (Done pg, w') ->
  (forall v' st km mo,
      Vehicle.id v' <> Vehicle.id v
      \/ form_get (Request.form req) "service_type" <> Some st ->
      result (predict_next_service v' st km mo) w'
      = result (predict_next_service v' st km mo) w)
  /\ (forall v', Vehicle.id v' <> Vehicle.id v ->
                 result (usage_summary v') w' = result (usage_summary v') w)
  /\ fuel_entry w' = fuel_entry w
  /\ today w' = today w.
Proof.
  intros Hpost Hrun.
  destruct (add_service_post_inv req v w pg w' Hpost Hrun)
    as (raw_date & d & raw_odo & odo & labor & total
        & _ & _ & _ & _ & _ & _ & _ & ->).
  split; [ | split; [ | split; reflexivity]].
  - intros v' st km mo Hother.
    apply predict_depends_on_matching_rows; [ | reflexivity].
    rewrite filter_by_with_service, filter_by_one_other;
      [apply app_nil_r | ].
    intros [Hv Ht]. cbn in Hv, Ht. destruct Hother as [H | H];
      [apply H; symmetry; exact Hv | exact (H Ht)].
  - intros v' Hv. unfold result. rewrite !usage_summary_run. cbn [fst].
    rewrite service_rows_with_service. cbn [ServiceEvent.vehicle_id].
    destruct (Z.eqb_spec (Vehicle.id v) (Vehicle.id v')) as [E|_];
      [exfalso; apply Hv; symmetry; exact E | ].
    rewrite app_nil_r. reflexivity.
Qed.

(** X16.  [add_service] stores a row only when a POST goes through: a GET
    shows the form and a failing request stores nothing; a POST that
    returns redirects to the listing and has appended exactly one row, of
    this vehicle, under an id above every id on record (so ids stay
    distinct); the date and the odometer field are required, a POST
    without one of them fails. *)
Theorem add_service_stores_on_success_only
    (req : Request.t) (v : Vehicle.t) (w w' : World) (r : response page) :
  add_service strptime_ymd py_int py_float req v w = (r, w') ->
  (Request.method req <> "POST"%string ->
   r = Done (render_add_service v) /\ w' = w)
  /\ (forall e, r = Abort e -> w' = w)
  /\ (forall pg,
        Request.method req = "POST"%string -> r = Done pg ->
        pg = redirect_list_services (Vehicle.id v)
        /\ exists row,
             service_event w' = service_event w ++ [row]
             /\ ServiceEvent.vehicle_id row = Vehicle.id v
             /\ (forall ev, In ev (service_event w) ->
                            ServiceEvent.id ev < ServiceEvent.id row)
             /\ (NoDup (map ServiceEvent.id (service_event w)) ->
                 NoDup (map ServiceEvent.id (service_event w'))))
  /\ (Request.method req = "POST"%string ->
      form_get (Request.form req) "service_date" = None
      \/ form_get (Request.form req) "odometer_at_service" = None ->
      exists e, r = Abort e).
Proof.
  intros Hrun. split; [ | split; [ | split]].
  - intros Hget. unfold add_service in Hrun.
    destruct (String.eqb_spec (Request.method req) "POST"); [contradiction | ].
    unfold st_ret in Hrun. injection Hrun as <- <-. split; reflexivity.
  - intros e ->. unfold add_service in Hrun.
    destruct (String.eqb (Request.method req) "POST");
      [ | discriminate].
    unfold st_bind, form_item, parsed, st_ret, db_add_service_event in Hrun.
    repeat match type of Hrun with
           | context [match ?x with _ => _ end] =>
               match x with
               | context [match _ with _ => _ end] => fail 1
               | _ => destruct x
               end
           end;
      try discriminate; injection Hrun as _ <-; reflexivity.
  - intros pg Hpost ->.
    destruct (add_service_post_inv req v w pg w' Hpost Hrun)
      as (raw_date & d & raw_odo & odo & labor & total
          & _ & _ & _ & _ & _ & _ & -> & ->).
    split; [reflexivity | ]. eexists. split; [reflexivity | ].
    split; [reflexivity | ]. split.
    + intros ev Hin. apply next_id_fresh, Hin.
    + intros Hnd. cbn [with_service service_event]. rewrite map_app.
      cbn [map ServiceEvent.id].
      apply NoDup_app; [exact Hnd | repeat constructor; intros [] | ].
      intros i Hi [<- | []]. apply in_map_iff in Hi.
      destruct Hi as (ev & Hid & Hin).
      pose proof (next_id_fresh (service_event w) ev Hin). lia.
  - intros Hpost Hmissing. unfold add_service in Hrun.
    rewrite Hpost, String.eqb_refl in Hrun.
    unfold st_bind, form_item, parsed in Hrun.
    destruct (form_get (Request.form req) "service_date") as [raw_date|];
      [ | injection Hrun as <- _; eexists; reflexivity].
    destruct (strptime_ymd raw_date);
      [ | injection Hrun as <- _; eexists; reflexivity].
    destruct (form_get (Request.form req) "odometer_at_service");
      [destruct Hmissing; discriminate | ].
    injection Hrun as <- _. eexists. reflexivity.
Qed.

End FormsFacts.

(** The sample form, posted for the sample vehicle, stores an oil change
    dated 2024-05-01 with odometer 0. *)
Lemma oil_form_posted :
  add_service Cases.read_date Cases.read_int Cases.read_float
              Cases.oil_form Sample.camry Sample.garage
  = (Done (redirect_list_services 7),
     with_service Sample.garage Cases.oil_2024_05).
Proof. vm_compute. reflexivity. Qed.

Lemma recorded_service_anchors_forecast_witness :
  Prediction.last_date
    (Prediction.mk "Oil Change" (datetime.ymd 2024 5 1) 45000
                   (datetime.ymd 2024 10 28) 50000)
  = datetime.ymd 2024 5 1
  /\ (form_get (Request.form Cases.oil_form) "odometer_at_service"
      = Some ""%string ->
      Prediction.last_odo
        (Prediction.mk "Oil Change" (datetime.ymd 2024 5 1) 45000
                       (datetime.ymd 2024 10 28) 50000)
      = Vehicle.current_odometer Sample.camry)
  /\ (forall raw o,
        form_get (Request.form Cases.oil_form) "odometer_at_service" = Some raw ->
        raw <> ""%string -> Cases.read_int raw = Some o -> o <> 0 ->
        Prediction.last_odo
          (Prediction.mk "Oil Change" (datetime.ymd 2024 5 1) 45000
                         (datetime.ymd 2024 10 28) 50000)
        = o).
Proof.
  apply (recorded_service_anchors_forecast
           Cases.read_date Cases.read_int Cases.read_float
           Cases.oil_form Sample.camry Sample.garage
           (with_service Sample.garage Cases.oil_2024_05)
           (with_service Sample.garage Cases.oil_2024_05)
           (redirect_list_services 7) "Oil Change"%string
           (datetime.ymd 2024 5 1) 5000 6).
  - reflexivity.
  - exact oil_form_posted.
  - reflexivity.
  - exists "2024-05-01"%string. split; reflexivity.
  - intros ev d' [<- | [<- | [<- | []]]] [_ Ht] [= <-];
      try discriminate Ht; calendar; lia.
  - vm_compute. reflexivity.
Defined.

Lemma recorded_service_enters_summary_witness :
  exists s s' cost,
    usage_summary Sample.camry Sample.garage = (Ok s, Sample.garage)
    /\ usage_summary Sample.camry (with_service Sample.garage Cases.oil_2024_05)
       = (Ok s', with_service Sample.garage Cases.oil_2024_05)
    /\ or_zero Cases.read_float 0%Q
               (form_get (Request.form Cases.oil_form) "total_cost")
       = Some cost
    /\ Summary.service_count s' = Summary.service_count s + 1
    /\ (Summary.total_service_expense s'
        == Summary.total_service_expense s + cost)%Q
    /\ Summary.total_fuel_cost s' = Summary.total_fuel_cost s
    /\ Summary.total_liters s' = Summary.total_liters s
    /\ Summary.km_per_liter s' = Summary.km_per_liter s.
Proof.
  apply (recorded_service_enters_summary
           Cases.read_date Cases.read_int Cases.read_float
           Cases.oil_form Sample.camry Sample.garage
           (with_service Sample.garage Cases.oil_2024_05)
           (redirect_list_services 7)).
  - reflexivity.
  - exact oil_form_posted.
Defined.

Lemma recorded_service_leaves_the_rest_witness :
  (forall v' st km mo,
      Vehicle.id v' <> Vehicle.id Sample.camry
      \/ form_get (Request.form Cases.oil_form) "service_type" <> Some st ->
      result (predict_next_service v' st km mo)
             (with_service Sample.garage Cases.oil_2024_05)
      = result (predict_next_service v' st km mo) Sample.garage)
  /\ (forall v', Vehicle.id v' <> Vehicle.id Sample.camry ->
                 result (usage_summary v')
                        (with_service Sample.garage Cases.oil_2024_05)
                 = result (usage_summary v') Sample.garage)
  /\ fuel_entry (with_service Sample.garage Cases.oil_2024_05)
     = fuel_entry Sample.garage
  /\ today (with_service Sample.garage Cases.oil_2024_05)
     = today Sample.garage.
Proof.
  apply (recorded_service_leaves_the_rest
           Cases.read_date Cases.read_int Cases.read_float
           Cases.oil_form Sample.camry Sample.garage
           (with_service Sample.garage Cases.oil_2024_05)
           (redirect_list_services 7)).
  - reflexivity.
  - exact oil_form_posted.
Defined.

Lemma add_service_stores_on_success_only_witness :
  redirect_list_services 7 = redirect_list_services (Vehicle.id Sample.camry)
  /\ exists row,
       service_event (with_service Sample.garage Cases.oil_2024_05)
       = service_event Sample.garage ++ [row]
       /\ ServiceEvent.vehicle_id row = Vehicle.id Sample.camry
       /\ (forall ev, In ev (service_event Sample.garage) ->
                      ServiceEvent.id ev < ServiceEvent.id row)
       /\ (NoDup (map ServiceEvent.id (service_event Sample.garage)) ->
           NoDup (map ServiceEvent.id
                      (service_event
                         (with_service Sample.garage Cases.oil_2024_05)))).
Proof.
  apply (proj1 (proj2 (proj2 (add_service_stores_on_success_only
           Cases.read_date Cases.read_int Cases.read_float
           Cases.oil_form Sample.camry Sample.garage
           (with_service Sample.garage Cases.oil_2024_05)
           (Done (redirect_list_services 7))
           oil_form_posted)))
         (redirect_list_services 7) eq_refl eq_refl).
Defined.

(* ================================================================== *)
(** * The per-vehicle queries and the detail page *)
(* ================================================================== *)

Lemma insert_by_permutation {A} (leb : A -> A -> bool) x sorted :
  Permutation (insert_by leb x sorted) (x :: sorted).
Proof.
  induction sorted as [|y rest IH]; cbn; [reflexivity | ].
  destruct (leb y x); [reflexivity | ].
  rewrite IH. apply perm_swap.
Qed.

Lemma order_by_desc_permutation {A} (leb : A -> A -> bool) rows :
  Permutation (order_by_desc leb rows) rows.
Proof.
  induction rows as [|x rows IH]; cbn; [reflexivity | ].
  rewrite insert_by_permutation. apply perm_skip, IH.
Qed.

(** The rows of a grouped query: one per group, carrying the aggregate of
    that group. *)
Lemma In_grouped {B} (leb : Z * B -> Z * B -> bool) (g : Z -> B)
    (groups : list Z) (vid : Z) (b : B) :
  In (vid, b) (order_by_desc leb (map (fun i => (i, g i)) groups))
  <-> In vid groups /\ b = g vid.
Proof.
  split.
  - intros Hin.
    apply (Permutation_in _ (order_by_desc_permutation leb _)) in Hin.
    apply in_map_iff in Hin. destruct Hin as (i & [= -> ->] & Hi).
    split; [exact Hi | reflexivity].
  - intros [Hin ->].
    apply (Permutation_in _ (Permutation_sym (order_by_desc_permutation leb _))).
    apply in_map_iff. exists vid. split; [reflexivity | exact Hin].
Qed.

Lemma grouped_keys_NoDup {B} (leb : Z * B -> Z * B -> bool) (g : Z -> B)
    (groups : list Z) :
  NoDup groups ->
  NoDup (map fst (order_by_desc leb (map (fun i => (i, g i)) groups))).
Proof.
  intros Hnd.
  apply (Permutation_NoDup
           (l := map fst (map (fun i => (i, g i)) groups))).
  - apply Permutation_map, Permutation_sym, order_by_desc_permutation.
  - rewrite map_map. cbn. rewrite map_id. exact Hnd.
Qed.

Lemma In_group_ids {A} (key : A -> Z) (table : list A) (vid : Z) :
  In vid (group_ids (map key table))
  <-> filter (fun x => key x =? vid) table <> [].
Proof.
  unfold group_ids. rewrite nodup_In, in_map_iff. split.
  - intros (x & Hk & Hin) Hnil.
    assert (Hf : In x (filter (fun x => key x =? vid) table))
      by (apply filter_In; split; [exact Hin | apply Z.eqb_eq, Hk]).
    rewrite Hnil in Hf. exact Hf.
  - intros Hne.
    destruct (filter (fun x => key x =? vid) table) as [|x rest] eqn:E;
      [contradiction | ].
    assert (Hf : In x (filter (fun x => key x =? vid) table))
      by (rewrite E; left; reflexivity).
    apply filter_In in Hf. destruct Hf as [Hin Hk].
    exists x. split; [apply Z.eqb_eq, Hk | exact Hin].
Qed.

(** X17.  The service counts of the sql-demo page and the detail page
    agree: a vehicle is listed, once, exactly when it has a service record,
    and then with the count its detail page shows. *)
Theorem service_counts_agree_with_detail (w : World) :
  exists counts,
    sql_service_counts w = (Ok counts, w)
    /\ NoDup (map fst counts)
    /\ forall v, exists s,
         usage_summary v w = (Ok s, w)
         /\ forall c, In (Vehicle.id v, c) counts
                      <-> c = Summary.service_count s /\ 0 < c.
Proof.
  eexists. split; [reflexivity | ]. split.
  - apply (grouped_keys_NoDup (fun a b => snd a <=? snd b)).
    apply NoDup_nodup.
  - intros v. eexists. split; [apply usage_summary_run | ].
    intros c. cbn [Summary.service_count]. rewrite Z_or_zero.
    rewrite (In_grouped (fun a b => snd a <=? snd b)
               (fun vid => sql.count
                             (filter (fun ev => ServiceEvent.vehicle_id ev =? vid)
                                     (service_event w)))).
    rewrite In_group_ids. fold (service_rows w v). unfold sql.count.
    destruct (service_rows w v) as [|ev rows]; cbn [List.length].
    + split; [intros [H _]; contradiction | intros [-> H]; cbn in H; lia].
    + split; [intros [_ ->]; split; [reflexivity | lia]
             | intros [-> _]; split; [discriminate | reflexivity]].
Qed.

Lemma sum_None_iff (xs : list (option Q)) :
  sql.sum xs = None <-> forall x, In x xs -> x = None.
Proof.
  unfold sql.sum. split.
  - intros H x Hin. induction xs as [|[y|] xs IH]; cbn in *.
    + contradiction.
    + discriminate.
    + destruct Hin as [<- | Hin]; [reflexivity | exact (IH H Hin)].
  - intros H. induction xs as [|[y|] xs IH]; cbn.
    + reflexivity.
    + specialize (H (Some y) (or_introl eq_refl)). discriminate.
    + apply IH. intros x Hin. apply H. right. exact Hin.
Qed.

(** X18.  The total service expense of a vehicle on the sql-demo page is
    the amount its detail page shows, except that where no service of the
    vehicle records a cost the sql-demo page has NULL and the detail page
    0. *)
Theorem total_expenses_agree_with_detail (w : World) :
  exists totals,
    sql_total_expenses w = (Ok totals, w)
    /\ forall v, exists s,
         usage_summary v w = (Ok s, w)
         /\ ((exists t, In (Vehicle.id v, t) totals) <-> service_rows w v <> [])
         /\ forall t, In (Vehicle.id v, t) totals ->
              (Summary.total_service_expense s == null_as_zero t)%Q
              /\ (t = None <->
                  forall ev, In ev (service_rows w v) ->
                             ServiceEvent.total_cost ev = None).
Proof.
  eexists. split; [reflexivity | ].
  intros v. eexists. split; [apply usage_summary_run | ].
  cbn [Summary.total_service_expense]. unfold float.
  pose proof (In_grouped (fun a b => real_leb (snd a) (snd b))
               (fun vid => sql.sum
                             (map ServiceEvent.total_cost
                                  (filter (fun ev => ServiceEvent.vehicle_id ev
                                                     =? vid)
                                          (service_event w))))
               (group_ids (map ServiceEvent.vehicle_id (service_event w)))
               (Vehicle.id v)) as Hin.
  cbv beta in Hin. fold (service_rows w v) in Hin. split.
  - split.
    + intros [t Ht]. apply Hin in Ht. destruct Ht as [Hg _].
      apply In_group_ids in Hg. exact Hg.
    + intros Hne. eexists. apply Hin. split; [ | reflexivity].
      apply In_group_ids. exact Hne.
  - intros t Ht. apply Hin in Ht. destruct Ht as [_ ->]. split.
    + rewrite Q_or_zero.
      destruct (sql.sum (map ServiceEvent.total_cost (service_rows w v)));
        reflexivity.
    + rewrite sum_None_iff. split.
      * intros H ev Hev. apply H, in_map, Hev.
      * intros H x Hx. apply in_map_iff in Hx.
        destruct Hx as (ev & <- & Hev). apply H, Hev.
Qed.

(** X19.  The mileage of the sql-demo page lists a vehicle exactly when it
    has more than one fuel entry, so a vehicle with a single fill, which
    its detail page rates at 0, is missing there; for a listed vehicle the
    two pages show the same figure (NULL when the volumes sum to zero)
    unless the volumes sum to a negative number, where the detail page has
    no figure and the sql-demo page has one. *)
Theorem mileage_agrees_with_detail (w : World) :
  exists rows,
    sql_mileage w = (Ok rows, w)
    /\ forall v, exists s,
         usage_summary v w = (Ok s, w)
         /\ ((exists km, In (Vehicle.id v, km) rows)
             <-> (1 < List.length (fuel_rows w v))%nat)
         /\ forall km, In (Vehicle.id v, km) rows ->
              (~ (total_volume (fuel_rows w v) < 0)%Q ->
               km = Summary.km_per_liter s)
              /\ ((total_volume (fuel_rows w v) < 0)%Q ->
                  Summary.km_per_liter s = None /\ km <> None).
Proof.
  eexists. split; [reflexivity | ].
  intros v. eexists. split; [apply usage_summary_run | ].
  cbn [Summary.km_per_liter]. rewrite km_per_liter_value.
  set (km_of := fun vid : Z =>
         sql.div
           (sql.mul_real
              (sql.sub
                 (sql.max (map (fun f => Some (FuelEntry.odometer f))
                               (filter (fun f => FuelEntry.vehicle_id f =? vid)
                                       (fuel_entry w))))
                 (sql.min (map (fun f => Some (FuelEntry.odometer f))
                               (filter (fun f => FuelEntry.vehicle_id f =? vid)
                                       (fuel_entry w)))))
              1%Q)
           (nullif_zero
              (sql.sum (map (fun f => Some (FuelEntry.liters f))
                            (filter (fun f => FuelEntry.vehicle_id f =? vid)
                                    (fuel_entry w)))))).
  assert (Hin : forall km,
             In (Vehicle.id v, km)
                (order_by_desc
                   (fun a b => real_leb (snd a) (snd b))
                   (map (fun vid => (vid, km_of vid))
                        (filter (fun vid =>
                                   1 <? sql.count
                                          (filter (fun f => FuelEntry.vehicle_id f
                                                            =? vid)
                                                  (fuel_entry w)))
                                (group_ids (map FuelEntry.vehicle_id
                                                (fuel_entry w))))))
             <-> (1 < List.length (fuel_rows w v))%nat
                 /\ km = km_of (Vehicle.id v)).
  { intros km. rewrite In_grouped, filter_In, In_group_ids.
    fold (fuel_rows w v). unfold sql.count. rewrite Z.ltb_lt.
    split.
    - intros [[_ Hlen] ->]. split; [lia | reflexivity].
    - intros [Hlen ->]. split; [ | reflexivity]. split; [ | lia].
      intros E. rewrite E in Hlen. cbn in Hlen. lia. }
  split.
  - split.
    + intros [km Hkm]. apply Hin in Hkm. apply Hkm.
    + intros Hlen. exists (km_of (Vehicle.id v)). apply Hin. tauto.
  - intros km Hkm. apply Hin in Hkm. destruct Hkm as [Hlen ->].
    unfold km_of. fold (fuel_rows w v).
    destruct (fuel_rows w v) as [|f rest]; [cbn in Hlen; lia | ].
    destruct (fuel_aggregates_cons f rest) as (-> & -> & ->).
    cbv zeta.
    remember (fold_left Qplus (map FuelEntry.liters rest) (FuelEntry.liters f))
      as x eqn:Ex.
    assert (Hx : (x == total_volume (f :: rest))%Q).
    { rewrite Ex, fold_left_Qplus, total_volume_fold. reflexivity. }
    rewrite <- Hx.
    cbn [sql.sub sql.mul_real nullif_zero].
    destruct (Qeq_bool x 0) eqn:Hz.
    + apply Qeq_bool_iff in Hz.
      assert (Hle : Qle_bool x 0 = true)
        by (apply Qle_bool_iff; rewrite Hz; apply Qle_refl).
      rewrite Hle. cbn [sql.div]. split; [reflexivity | ].
      intros Hneg. rewrite Hz in Hneg. exfalso. exact (Qlt_irrefl 0 Hneg).
    + cbn [sql.div]. rewrite Hz.
      destruct (Qle_bool x 0) eqn:Hle.
      * apply Qle_bool_iff in Hle.
        assert (Hneg : (x < 0)%Q).
        { apply Qle_lteq in Hle. destruct Hle as [H | H]; [exact H | ].
          apply Qeq_bool_iff in H. congruence. }
        split; [contradiction | ]. intros _. split; [reflexivity | discriminate].
      * apply Qle_bool_false_lt in Hle. split; [reflexivity | ].
        intros Hneg. exfalso.
        exact (Qlt_irrefl 0 (Qlt_trans _ _ _ Hle Hneg)).
Qed.

(* ================================================================== *)
(** * Adding a vehicle *)
(* ================================================================== *)

Lemma next_key_fresh ids i : In i ids -> i < next_key ids.
Proof.
  unfold next_key. induction ids as [|x ids IH]; cbn [fold_right In];
    [tauto | ].
  intros [<- | Hin]; [lia | ]. specialize (IH Hin). lia.
Qed.

Lemma garage_step_spec u s :
  let link := fst (garage_step u s) in
  let s1 := snd (garage_step u s) in
  OwnerGroupUser.user_id link = User.id u
  /\ In link (owner_group_user s1)
  /\ user_table s1 = user_table s /\ vehicle_table s1 = vehicle_table s
  /\ current_user s1 = current_user s /\ world s1 = world s
  /\ ((exists l, In l (owner_group_user s) /\ OwnerGroupUser.user_id l = User.id u)
      -> s1 = s)
  /\ ((forall l, In l (owner_group_user s) -> OwnerGroupUser.user_id l <> User.id u)
      -> exists g,
           owner_group s1 = owner_group s ++ [g]
           /\ owner_group_user s1 = owner_group_user s ++ [link]
           /\ OwnerGroupUser.group_id link = OwnerGroup.id g
           /\ forall g0, In g0 (owner_group s) -> OwnerGroup.id g0 < OwnerGroup.id g)
  /\ (links_wf s -> links_wf s1).
Proof.
  unfold garage_step. rewrite first_filter_find.
  destruct (find (fun l => OwnerGroupUser.user_id l =? User.id u)
                 (owner_group_user s)) as [link|] eqn:E; cbn [fst snd].
  - apply find_some in E. destruct E as [Hin Hu]. apply Z.eqb_eq in Hu.
    repeat split; try assumption; try reflexivity; try tauto.
    intros Hnone. exfalso. exact (Hnone link Hin Hu).
  - cbn [user_table vehicle_table current_user world owner_group
         owner_group_user OwnerGroupUser.user_id OwnerGroupUser.group_id
         OwnerGroup.id].
    split; [reflexivity | ].
    split; [apply in_or_app; right; left; reflexivity | ].
    do 4 (split; [reflexivity | ]). split; [ | split].
    + intros (l & Hin & Hu). apply (find_none _ _ E) in Hin.
      apply Z.eqb_neq in Hin. contradiction.
    + intros _. eexists. split; [reflexivity | ]. split; [reflexivity | ].
      split; [reflexivity | ].
      intros g0 Hg0. cbn [OwnerGroup.id]. apply next_key_fresh.
      apply in_map, Hg0.
    + intros Hwf l Hl. cbn [owner_group owner_group_user] in *.
      apply in_app_or in Hl. destruct Hl as [Hl | [<- | []]].
      * destruct (Hwf l Hl) as (g & Hg & Hid). exists g.
        split; [apply in_or_app; left; exact Hg | exact Hid].
      * eexists. split; [apply in_or_app; right; left; reflexivity | ].
        reflexivity.
Qed.

Section VehiclesFacts.

Variable py_int : string -> option Z.

(** How a visit of [add_vehicle] by a logged-in user ends. *)
Lemma add_vehicle_inv req s u r s' :
  current_user s = Some u ->
  add_vehicle py_int req s = (r, s') ->
  (Request.method req <> "POST"%string ->
   r = Done render_add_vehicle /\ s' = snd (garage_step u s))
  /\ (Request.method req = "POST"%string ->
      (exists e, r = Abort e /\ s' = snd (garage_step u s))
      \/ exists odometer,
           or_zero py_int 0 (form_get (Request.form req) "current_odometer")
           = Some odometer
           /\ r = Done redirect_list_vehicles
           /\ s' = with_vehicle (snd (garage_step u s))
                     (VehicleRow.mk
                        (Vehicle.mk
                           (next_key (map VehicleRow.id
                                          (vehicle_table (snd (garage_step u s)))))
                           odometer)
                        (OwnerGroupUser.group_id (fst (garage_step u s))))).
Proof.
  intros Hu. unfold add_vehicle. rewrite Hu.
  unfold st_bind at 1. unfold first_link.
  assert (Hstep :
            (let (a, s1) :=
               match first (filter (fun l => OwnerGroupUser.user_id l =? User.id u)
                                   (owner_group_user s)) with
               | Some link => st_ret link
               | None =>
                   st_bind add_group
                     (fun group => add_link (OwnerGroup.id group) (User.id u))
               end s in (a, s1))
            = (Done (fst (garage_step u s)), snd (garage_step u s))).
  { unfold garage_step.
    destruct (first (filter (fun l => OwnerGroupUser.user_id l =? User.id u)
                            (owner_group_user s))); reflexivity. }
  unfold st_bind at 1.
  destruct (match first (filter (fun l => OwnerGroupUser.user_id l =? User.id u)
                                (owner_group_user s)) with
            | Some link => st_ret link
            | None =>
                st_bind add_group
                  (fun group => add_link (OwnerGroup.id group) (User.id u))
            end s) as [a s1] eqn:E.
  injection Hstep as -> ->.
  destruct (String.eqb_spec (Request.method req) "POST") as [Hpost|Hget].
  - unfold st_bind, form_item, parsed, add_vehicle_row, st_ret.
    intros Hrun. split; [intros H; contradiction | ]. intros _.
    destruct (form_get (Request.form req) "brand");
      [ | left; injection Hrun as <- <-; eexists; split; reflexivity].
    destruct (form_get (Request.form req) "model");
      [ | left; injection Hrun as <- <-; eexists; split; reflexivity].
    destruct (or_zero (fun t => option_map Some (py_int t)) None
                      (form_get (Request.form req) "year"));
      [ | left; injection Hrun as <- <-; eexists; split; reflexivity].
    destruct (or_zero py_int 0 (form_get (Request.form req) "current_odometer"))
      as [odometer|];
      [ | left; injection Hrun as <- <-; eexists; split; reflexivity].
    right. injection Hrun as <- <-. exists odometer.
    split; [reflexivity | split; reflexivity].
  - unfold st_ret. intros [= <- <-].
    split; [intros _; split; reflexivity | intros H; contradiction].
Qed.

(** X20.  A vehicle added through the form can be opened by the user who
    added it: the POST that returns has stored one vehicle, under a new id,
    with the posted odometer (0 when the field is absent or empty), in the
    group of the user's link, and [get_vehicle_for_current_user] finds it
    for that user (every link of the site naming an existing group). *)
Theorem added_vehicle_is_reachable
    (req : Request.t) (s s' : Site) (u : User.t) (pg : page) :
  current_user s = Some u -> links_wf s ->
  Request.method req = "POST"%string ->
  add_vehicle py_int req s = (Done pg, s') ->
  pg = redirect_list_vehicles
  /\ exists row,
       vehicle_table s' = vehicle_table s ++ [row]
       /\ (forall r, In r (vehicle_table s) ->
                     VehicleRow.id r < VehicleRow.id row)
       /\ (exists odometer,
             or_zero py_int 0 (form_get (Request.form req) "current_odometer")
             = Some odometer
             /\ Vehicle.current_odometer (VehicleRow.vehicle row)
                = PyInt odometer)
       /\ member s' (User.id u) row
       /\ get_vehicle_for_current_user (VehicleRow.id row) s' = Done row.
Proof.
  intros Hu Hwf Hpost Hrun.
  destruct (add_vehicle_inv req s u _ _ Hu Hrun) as [_ Hinv].
  destruct (Hinv Hpost) as [(e & [=] & _) | (odometer & Hodo & Hpg & ->)].
  injection Hpg as ->. split; [reflexivity | ].
  destruct (garage_step_spec u s)
    as (Hlu & Hlin & _ & Hvt & Hcu & _ & _ & _ & Hwf1).
  cbv zeta in *. specialize (Hwf1 Hwf).
  set (link := fst (garage_step u s)) in *.
  set (s1 := snd (garage_step u s)) in *.
  set (row := VehicleRow.mk
                (Vehicle.mk (next_key (map VehicleRow.id (vehicle_table s1)))
                            odometer)
                (OwnerGroupUser.group_id link)).
  assert (Hfresh : forall r, In r (vehicle_table s) ->
                             VehicleRow.id r < VehicleRow.id row).
  { intros r Hr. unfold row, VehicleRow.id at 2. cbn [VehicleRow.vehicle Vehicle.id].
    apply next_key_fresh. rewrite Hvt. apply in_map, Hr. }
  assert (Hmember : member (with_vehicle s1 row) (User.id u) row).
  { destruct (Hwf1 link Hlin) as (g & Hg & Hgid).
    exists g, link. cbn [with_vehicle owner_group owner_group_user].
    repeat split; try assumption. symmetry. exact Hgid. }
  exists row. split; [cbn [with_vehicle vehicle_table]; rewrite Hvt; reflexivity | ].
  split; [exact Hfresh | ].
  split; [exists odometer; split; [exact Hodo | reflexivity] | ].
  split; [exact Hmember | ].
  assert (Hu' : current_user (with_vehicle s1 row) = Some u)
    by (cbn [with_vehicle current_user]; rewrite Hcu; exact Hu).
  assert (Hrow : In row (vehicle_table (with_vehicle s1 row)))
    by (cbn [with_vehicle vehicle_table]; apply in_or_app; right; left;
        reflexivity).
  assert (Hfound : forall rows,
             vehicle_query_for_current_user (with_vehicle s1 row) = Done rows ->
             In row rows ->
             (forall r, In r rows -> In r (vehicle_table (with_vehicle s1 row))) ->
             get_vehicle_for_current_user (VehicleRow.id row)
                                          (with_vehicle s1 row) = Done row).
  { intros rows Hq Hin Hsub.
    destruct (get_vehicle_over _ (VehicleRow.id row) rows Hq)
      as (Hsound & Hsome & _).
    destruct (proj2 Hsome (ex_intro _ row (conj Hin eq_refl))) as [row' Hget].
    destruct (Hsound row' Hget) as [Hin' Hid].
    apply Hsub in Hin'. cbn [with_vehicle vehicle_table] in Hin'.
    apply in_app_or in Hin'. destruct Hin' as [Hold | [<- | []]];
      [ | exact Hget].
    rewrite Hvt in Hold. specialize (Hfresh row' Hold). lia. }
  destruct (String.eqb_spec (User.email u) ADMIN_EMAIL) as [Ha|Hna].
  - apply (Hfound _ (vehicle_query_admin _ u Hu' Ha) Hrow). tauto.
  - apply (Hfound _ (vehicle_query_owner _ u Hu' Hna)).
    + apply In_owned_vehicles. tauto.
    + intros r Hr. apply In_owned_vehicles in Hr. apply Hr.
Qed.

(** X21.  Any visit of the add-vehicle page by a logged-in user without a
    link, a GET or a failing POST included, stores a new group and a link
    tying the user to it; a user who has a link gets none.  The users, the
    session and the service and fuel records are never touched, and a GET
    stores no vehicle. *)
Theorem add_vehicle_opens_a_garage
    (req : Request.t) (s s' : Site) (u : User.t) (r : response page) :
  current_user s = Some u ->
  add_vehicle py_int req s = (r, s') ->
  ((exists l, In l (owner_group_user s) /\ OwnerGroupUser.user_id l = User.id u)
   -> owner_group s' = owner_group s
      /\ owner_group_user s' = owner_group_user s)
  /\ ((forall l, In l (owner_group_user s) ->
                 OwnerGroupUser.user_id l <> User.id u)
      -> exists g l,
           owner_group s' = owner_group s ++ [g]
           /\ owner_group_user s' = owner_group_user s ++ [l]
           /\ OwnerGroupUser.group_id l = OwnerGroup.id g
           /\ OwnerGroupUser.user_id l = User.id u
           /\ forall g0, In g0 (owner_group s) ->
                         OwnerGroup.id g0 < OwnerGroup.id g)
  /\ user_table s' = user_table s
  /\ current_user s' = current_user s
  /\ world s' = world s
  /\ (Request.method req <> "POST"%string ->
      r = Done render_add_vehicle /\ vehicle_table s' = vehicle_table s).
Proof.
  intros Hu Hrun.
  destruct (add_vehicle_inv req s u _ _ Hu Hrun) as [Hget Hpost].
  destruct (garage_step_spec u s)
    as (Hlu & Hlin & Hut & Hvt & Hcu & Hw & Hsame & Hnew & _).
  cbv zeta in *.
  assert (Hs' : owner_group s' = owner_group (snd (garage_step u s))
                /\ owner_group_user s'
                   = owner_group_user (snd (garage_step u s))
                /\ user_table s' = user_table (snd (garage_step u s))
                /\ current_user s' = current_user (snd (garage_step u s))
                /\ world s' = world (snd (garage_step u s))).
  { destruct (String.eqb_spec (Request.method req) "POST") as [Hp|Hg].
    - destruct (Hpost Hp) as [(e & _ & ->) | (odometer & _ & _ & ->)];
        repeat split.
    - destruct (Hget Hg) as [_ ->]. repeat split. }
  destruct Hs' as (Hg' & Hl' & Hut' & Hcu' & Hw').
  split; [ | split; [ | split; [ | split; [ | split]]]].
  - intros Hhas. rewrite Hg', Hl', (Hsame Hhas). split; reflexivity.
  - intros Hnone. destruct (Hnew Hnone) as (g & Hg & Hl & Hgid & Hlt).
    exists g, (fst (garage_step u s)). rewrite Hg', Hl'.
    repeat split; assumption.
  - congruence.
  - congruence.
  - congruence.
  - intros Hmeth. destruct (Hget Hmeth) as [-> ->]. split; [reflexivity | exact Hvt].
Qed.

End VehiclesFacts.

Lemma site_links_wf user : links_wf (Cases.site user).
Proof.
  intros l [<- | [<- | []]];
    [exists (OwnerGroup.mk 1) | exists (OwnerGroup.mk 2)];
    (split; [cbn; tauto | reflexivity]).
Qed.

(** Ana adds a Mazda and can open it. *)
Lemma added_vehicle_is_reachable_witness :
  redirect_list_vehicles = redirect_list_vehicles
  /\ exists row,
       vehicle_table (with_vehicle (Cases.site (Some Cases.ana)) Cases.mazda_row)
       = vehicle_table (Cases.site (Some Cases.ana)) ++ [row]
       /\ (forall r, In r (vehicle_table (Cases.site (Some Cases.ana))) ->
                     VehicleRow.id r < VehicleRow.id row)
       /\ (exists odometer,
             or_zero Cases.read_int 0
               (form_get (Request.form Cases.vehicle_form) "current_odometer")
             = Some odometer
             /\ Vehicle.current_odometer (VehicleRow.vehicle row)
                = PyInt odometer)
       /\ member (with_vehicle (Cases.site (Some Cases.ana)) Cases.mazda_row)
                 (User.id Cases.ana) row
       /\ get_vehicle_for_current_user (VehicleRow.id row)
            (with_vehicle (Cases.site (Some Cases.ana)) Cases.mazda_row)
          = Done row.
Proof.
  apply (added_vehicle_is_reachable Cases.read_int Cases.vehicle_form
           (Cases.site (Some Cases.ana))
           (with_vehicle (Cases.site (Some Cases.ana)) Cases.mazda_row)
           Cases.ana redirect_list_vehicles).
  - reflexivity.
  - apply site_links_wf.
  - reflexivity.
  - vm_compute. reflexivity.
Defined.

(** Bob merely opens the page, and a group and a link are stored. *)
Lemma add_vehicle_opens_a_garage_witness :
  exists s',
    add_vehicle Cases.read_int Cases.visit (Cases.site (Some Cases.bob))
    = (Done render_add_vehicle, s')
    /\ owner_group s' = owner_group (Cases.site (Some Cases.bob))
                        ++ [OwnerGroup.mk 3]
    /\ owner_group_user s'
       = owner_group_user (Cases.site (Some Cases.bob))
         ++ [OwnerGroupUser.mk 3 3 3].
Proof.
  destruct (add_vehicle Cases.read_int Cases.visit (Cases.site (Some Cases.bob)))
    as [r s'] eqn:Hrun.
  destruct (add_vehicle_opens_a_garage Cases.read_int Cases.visit
              (Cases.site (Some Cases.bob)) s' Cases.bob r eq_refl Hrun)
    as (_ & _ & _ & _ & _ & Hget).
  destruct (Hget ltac:(discriminate)) as [-> _].
  exists s'. split; [reflexivity | ].
  vm_compute in Hrun. injection Hrun as <-. split; reflexivity.
Defined.

(* ================================================================== *)
(** * Registering *)
(* ================================================================== *)

Section AccountsFacts.

Variable strip : string -> string.
Variable lower : string -> string.

(** How a POST of [register] by an anonymous visitor ends when it
    returns. *)
Lemma register_post_inv req s pg s' :
  current_user s = None ->
  Request.method req = "POST"%string ->
  register strip lower req s = (Done pg, s') ->
  exists raw_email,
    form_get (Request.form req) "email" = Some raw_email
    /\ ((exists u0, In u0 (user_table s)
                    /\ User.email u0 = lower (strip raw_email))
        /\ pg = render_register (Some "Email is already registered."%string)
        /\ s' = s
        \/ (forall u0, In u0 (user_table s) ->
                       User.email u0 <> lower (strip raw_email))
           /\ pg = redirect_list_vehicles
           /\ exists user g l,
                User.email user = lower (strip raw_email)
                /\ OwnerGroupUser.group_id l = OwnerGroup.id g
                /\ OwnerGroupUser.user_id l = User.id user
                /\ (forall u0, In u0 (user_table s) -> User.id u0 < User.id user)
                /\ s' = mkSite (user_table s ++ [user]) (vehicle_table s)
                               (owner_group s ++ [g]) (owner_group_user s ++ [l])
                               (Some user) (world s)).
Proof.
  intros Hanon Hpost. unfold register. rewrite Hanon, Hpost, String.eqb_refl.
  unfold st_bind, form_item, first_user, st_ret.
  destruct (form_get (Request.form req) "name"); [ | discriminate].
  destruct (form_get (Request.form req) "email") as [raw_email|];
    [ | discriminate].
  destruct (form_get (Request.form req) "password"); [ | discriminate].
  rewrite first_filter_find.
  destruct (find (fun u => String.eqb (User.email u) (lower (strip raw_email)))
                 (user_table s)) as [u0|] eqn:E.
  - intros [= <- <-]. exists raw_email. split; [reflexivity | ]. left.
    apply find_some in E. destruct E as [Hin He]. apply String.eqb_eq in He.
    split; [exists u0; tauto | split; reflexivity].
  - unfold add_user, add_group, add_link, login_user. cbn.
    intros [= <- <-]. exists raw_email. split; [reflexivity | ]. right.
    split.
    + intros u0 Hin He. apply (find_none _ _ E) in Hin.
      apply String.eqb_neq in Hin. contradiction.
    + split; [reflexivity | ]. do 3 eexists.
      split; [ | split; [ | split; [ | split; [ | reflexivity]]]];
        try reflexivity.
      intros u0 Hin. cbn [User.id]. apply next_key_fresh, in_map, Hin.
Qed.

(** X22.  [register] never gives an address to a second account: for a
    visitor who is not logged in, a POST that returns either finds the
    (stripped, lower-cased) address taken and changes nothing, or stores one
    user with that address, a group and a link tying the two, and logs the
    user in; addresses that were distinct stay distinct, and vehicles and
    service and fuel records are not touched. *)
Theorem register_keeps_addresses_distinct
    (req : Request.t) (s s' : Site) (pg : page) :
  current_user s = None ->
  Request.method req = "POST"%string ->
  register strip lower req s = (Done pg, s') ->
  (NoDup (map User.email (user_table s)) ->
   NoDup (map User.email (user_table s')))
  /\ (pg <> redirect_list_vehicles -> s' = s)
  /\ (pg = redirect_list_vehicles ->
      exists user g l,
        user_table s' = user_table s ++ [user]
        /\ current_user s' = Some user
        /\ owner_group s' = owner_group s ++ [g]
        /\ owner_group_user s' = owner_group_user s ++ [l]
        /\ OwnerGroupUser.group_id l = OwnerGroup.id g
        /\ OwnerGroupUser.user_id l = User.id user
        /\ exists raw, form_get (Request.form req) "email" = Some raw
                       /\ User.email user = lower (strip raw))
  /\ vehicle_table s' = vehicle_table s
  /\ world s' = world s.
Proof.
  intros Hanon Hpost Hrun.
  destruct (register_post_inv req s pg s' Hanon Hpost Hrun)
    as (raw & Hraw & [(_ & -> & ->)
                     | (Hfree & -> & user & g & l & He & Hg & Hl & _ & ->)]).
  - split; [tauto | ]. split; [reflexivity | ].
    split; [discriminate | split; reflexivity].
  - cbn [user_table vehicle_table world current_user owner_group
         owner_group_user].
    split; [ | split; [intros H; contradiction | split; [ | split; reflexivity]]].
    + intros Hnd. rewrite map_app. cbn [map].
      apply NoDup_app; [exact Hnd | repeat constructor; intros [] | ].
      intros e Hin [<- | []]. apply in_map_iff in Hin.
      destruct Hin as (u0 & Hu0 & Hin). apply (Hfree u0 Hin). congruence.
    + intros _. exists user, g, l. repeat split; try assumption.
      exists raw. split; assumption.
Qed.

(** X23.  Nothing reserves the administrator's address: a visitor who
    registers an address that strips and lower-cases to it, on a site where
    no account holds it, is logged in as the administrator, whose query
    yields every vehicle and who can open each of them. *)
Theorem registering_admin_address_opens_every_vehicle
    (req : Request.t) (s s' : Site) (pg : page) (raw : string) :
  current_user s = None ->
  Request.method req = "POST"%string ->
  form_get (Request.form req) "email" = Some raw ->
  lower (strip raw) = ADMIN_EMAIL ->
  (forall u0, In u0 (user_table s) -> User.email u0 <> ADMIN_EMAIL) ->
  register strip lower req s = (Done pg, s') ->
  pg = redirect_list_vehicles
  /\ vehicle_query_for_current_user s' = Done (vehicle_table s)
  /\ forall row, In row (vehicle_table s) ->
       exists row', get_vehicle_for_current_user (VehicleRow.id row) s'
                    = Done row'.
Proof.
  intros Hanon Hpost Hraw Hadmin Hfree Hrun.
  destruct (register_post_inv req s pg s' Hanon Hpost Hrun)
    as (raw0 & Hraw0 & [((u0 & Hin & He) & _)
                       | (_ & -> & user & g & l & He & _ & _ & _ & ->)]).
  - exfalso. apply (Hfree u0 Hin). congruence.
  - assert (raw0 = raw) by congruence. subst raw0.
    split; [reflexivity | ].
    set (s' := mkSite (user_table s ++ [user]) (vehicle_table s)
                      (owner_group s ++ [g]) (owner_group_user s ++ [l])
                      (Some user) (world s)).
    assert (Hq : vehicle_query_for_current_user s' = Done (vehicle_table s)).
    { apply (vehicle_query_admin s' user); [reflexivity | ].
      unfold is_admin. congruence. }
    split; [exact Hq | ].
    intros row Hrow.
    destruct (get_vehicle_over s' (VehicleRow.id row) _ Hq) as (_ & Hsome & _).
    apply Hsome. exists row. split; [exact Hrow | reflexivity].
Qed.

End AccountsFacts.

(** A visitor registers " Admin@Garuda360.com " and is let in. *)
Lemma register_form_posted :
  register Cases.read_strip Cases.read_lower Cases.register_form
           Cases.open_site
  = (Done redirect_list_vehicles, Cases.registered_site).
Proof. vm_compute. reflexivity. Qed.

Lemma register_keeps_addresses_distinct_witness :
  (NoDup (map User.email (user_table Cases.open_site)) ->
   NoDup (map User.email (user_table Cases.registered_site)))
  /\ (redirect_list_vehicles <> redirect_list_vehicles ->
      Cases.registered_site = Cases.open_site)
  /\ (redirect_list_vehicles = redirect_list_vehicles ->
      exists user g l,
        user_table Cases.registered_site = user_table Cases.open_site ++ [user]
        /\ current_user Cases.registered_site = Some user
        /\ owner_group Cases.registered_site
           = owner_group Cases.open_site ++ [g]
        /\ owner_group_user Cases.registered_site
           = owner_group_user Cases.open_site ++ [l]
        /\ OwnerGroupUser.group_id l = OwnerGroup.id g
        /\ OwnerGroupUser.user_id l = User.id user
        /\ exists raw,
             form_get (Request.form Cases.register_form) "email" = Some raw
             /\ User.email user = Cases.read_lower (Cases.read_strip raw))
  /\ vehicle_table Cases.registered_site = vehicle_table Cases.open_site
  /\ world Cases.registered_site = world Cases.open_site.
Proof.
  apply (register_keeps_addresses_distinct
           Cases.read_strip Cases.read_lower Cases.register_form
           Cases.open_site Cases.registered_site redirect_list_vehicles
           eq_refl eq_refl register_form_posted).
Defined.

Lemma registering_admin_address_opens_every_vehicle_witness :
  redirect_list_vehicles = redirect_list_vehicles
  /\ vehicle_query_for_current_user Cases.registered_site
     = Done (vehicle_table Cases.open_site)
  /\ forall row, In row (vehicle_table Cases.open_site) ->
       exists row',
         get_vehicle_for_current_user (VehicleRow.id row) Cases.registered_site
         = Done row'.
Proof.
  apply (registering_admin_address_opens_every_vehicle
           Cases.read_strip Cases.read_lower Cases.register_form
           Cases.open_site Cases.registered_site redirect_list_vehicles
           " Admin@Garuda360.com "%string eq_refl eq_refl eq_refl eq_refl).
  - intros u0 [<- | [<- | []]]; discriminate.
  - exact register_form_posted.
Defined.

(* ================================================================== *)
(** * The administrator's account *)
(* ================================================================== *)

(** X24.  [create_admin_user] can be called by anyone and acts once: it
    returns, leaving an account under the administrator's address; when
    such an account exists it changes nothing, so a second call changes
    nothing; and after it an anonymous registration under an address that
    strips and lower-cases to the administrator's is answered with the
    "already registered" page and changes nothing. *)
Theorem create_admin_user_acts_once (s : Site) :
  exists pg s1,
    create_admin_user s = (Done pg, s1)
    /\ (exists u, In u (user_table s1) /\ is_admin u)
    /\ ((exists u, In u (user_table s) /\ is_admin u) -> s1 = s)
    /\ snd (create_admin_user s1) = s1
    /\ current_user s1 = current_user s
    /\ forall strip lower req raw pg' s2,
         current_user s1 = None ->
         Request.method req = "POST"%string ->
         form_get (Request.form req) "email" = Some raw ->
         lower (strip raw) = ADMIN_EMAIL ->
         register strip lower req s1 = (Done pg', s2) ->
         pg' = render_register (Some "Email is already registered."%string)
         /\ s2 = s1.
Proof.
  assert (Hrun : forall s0,
             (exists u, In u (user_table s0) /\ is_admin u) ->
             exists pg, create_admin_user s0 = (Done pg, s0)).
  { intros s0 (u & Hin & Ha). unfold create_admin_user, st_bind, first_user.
    rewrite first_filter_find.
    destruct (find (fun u => String.eqb (User.email u) ADMIN_EMAIL)
                   (user_table s0)) as [u0|] eqn:E.
    - eexists. reflexivity.
    - apply (find_none _ _ E) in Hin. apply String.eqb_neq in Hin.
      contradiction. }
  assert (Hstep : exists pg s1,
             create_admin_user s = (Done pg, s1)
             /\ (exists u, In u (user_table s1) /\ is_admin u)
             /\ ((exists u, In u (user_table s) /\ is_admin u) -> s1 = s)
             /\ current_user s1 = current_user s).
  { unfold create_admin_user, st_bind, first_user. rewrite first_filter_find.
    destruct (find (fun u => String.eqb (User.email u) ADMIN_EMAIL)
                   (user_table s)) as [u0|] eqn:E.
    - apply find_some in E. destruct E as [Hin He]. apply String.eqb_eq in He.
      do 2 eexists. split; [reflexivity | ].
      split; [exists u0; split; assumption | split; reflexivity].
    - do 2 eexists. split; [reflexivity | ].
      cbn [user_table current_user]. split; [ | split; [ | reflexivity]].
      + eexists. split; [apply in_or_app; right; left; reflexivity | ].
        reflexivity.
      + intros (u & Hin & Ha). apply (find_none _ _ E) in Hin.
        apply String.eqb_neq in Hin. contradiction. }
  destruct Hstep as (pg & s1 & Hs1 & Hadmin & Hsame & Hcu).
  exists pg, s1. split; [exact Hs1 | ]. split; [exact Hadmin | ].
  split; [exact Hsame | ]. split; [ | split; [exact Hcu | ]].
  - destruct (Hrun s1 Hadmin) as [pg2 H2]. rewrite H2. reflexivity.
  - intros strip lower req raw pg' s2 Hanon Hpost Hraw Hlow Hreg.
    destruct (register_post_inv strip lower req s1 pg' s2 Hanon Hpost Hreg)
      as (raw0 & Hraw0 & [(_ & -> & ->) | (Hfree & _)]);
      [split; reflexivity | ].
    exfalso. assert (raw0 = raw) by congruence. subst raw0.
    destruct Hadmin as (u & Hin & Ha). apply (Hfree u Hin).
    unfold is_admin in Ha. congruence.
Qed.

(* ================================================================== *)
(** * Recording a fill *)
(* ================================================================== *)

Lemma fuel_rows_with_fuel w row v :
  fuel_rows (with_fuel w row) v
  = fuel_rows w v
    ++ (if FuelEntry.vehicle_id row =? Vehicle.id v then [row] else []).
Proof. unfold fuel_rows, with_fuel. cbn [fuel_entry]. apply filter_app. Qed.

Section FuelFacts.

Variable strptime_ymd : string -> option date.
Variable py_int : string -> option Z.
Variable py_float : string -> option Q.
Variable round_2 : Q -> Q.

(** The cost [add_fuel] stores: the posted total when that field holds a
    text, the rounded product of volume and price otherwise. *)
Definition stored_cost (req : Request.t) (liters price : Q) : option Q :=
  match form_get (Request.form req) "total_cost" with
  | Some t => if String.eqb t "" then Some (round_2 (liters * price)%Q)
              else py_float t
  | None => Some (round_2 (liters * price)%Q)
  end.

(** What a POST of [add_fuel] that returns has read and stored. *)
Lemma add_fuel_post_inv req v w pg w' :
  Request.method req = "POST"%string ->
  add_fuel strptime_ymd py_int py_float round_2 req v w = (Done pg, w') ->
  exists odometer liters price cost,
    or_zero py_int 0 (form_get (Request.form req) "odometer") = Some odometer
    /\ or_zero py_float 0%Q (form_get (Request.form req) "liters") = Some liters
    /\ or_zero py_float 0%Q (form_get (Request.form req) "price_per_liter")
       = Some price
    /\ stored_cost req liters price = Some cost
    /\ pg = redirect_list_fuel (Vehicle.id v)
    /\ w' = with_fuel w
              (FuelEntry.mk (next_key (map FuelEntry.id (fuel_entry w)))
                            (Vehicle.id v) odometer liters (Some cost)).
Proof.
  intros Hpost. unfold add_fuel, stored_cost. rewrite Hpost, String.eqb_refl.
  unfold st_bind, form_item, parsed, st_ret, db_add_fuel_entry.
  destruct (form_get (Request.form req) "date") as [raw_date|];
    [ | discriminate].
  destruct (strptime_ymd raw_date); [ | discriminate].
  destruct (form_get (Request.form req) "odometer") as [raw_odo|];
    [ | discriminate].
  destruct (or_zero py_int 0 (Some raw_odo)) as [odometer|]; [ | discriminate].
  destruct (form_get (Request.form req) "liters") as [raw_liters|];
    [ | discriminate].
  destruct (or_zero py_float 0%Q (Some raw_liters)) as [liters|];
    [ | discriminate].
  destruct (form_get (Request.form req) "price_per_liter") as [raw_price|];
    [ | discriminate].
  destruct (or_zero py_float 0%Q (Some raw_price)) as [price|];
    [ | discriminate].
  destruct (form_get (Request.form req) "total_cost") as [t|].
  - destruct (String.eqb t "").
    + intros [= <- <-]. exists odometer, liters, price. eexists.
      repeat split.
    + destruct (py_float t) as [cost|]; [ | discriminate].
      intros [= <- <-]. exists odometer, liters, price, cost. repeat split.
  - intros [= <- <-]. exists odometer, liters, price. eexists. repeat split.
Qed.

(** X25.  A fill recorded through [add_fuel] enters the vehicle's summary:
    the total volume grows by the posted liters and the total fuel cost by
    the posted total, or by the rounded product of liters and price when
    the total field is absent or empty; the first fill of a vehicle, if its
    volume is positive, rates the vehicle at 0 km per liter; service
    figures, forecasts and the summaries of other vehicles stay as they
    were. *)
Theorem recorded_fill_enters_summary
    (req : Request.t) (v : Vehicle.t) (w w' : World) (pg : page) :
  Request.method req = "POST"%string ->
  add_fuel strptime_ymd py_int py_float round_2 req v w = (Done pg, w') ->
  exists s s' liters price cost,
    usage_summary v w = (Ok s, w)
    /\ usage_summary v w' = (Ok s', w')
    /\ or_zero py_float 0%Q (form_get (Request.form req) "liters") = Some liters
    /\ or_zero py_float 0%Q (form_get (Request.form req) "price_per_liter")
       = Some price
    /\ stored_cost req liters price = Some cost
    /\ (Summary.total_liters s' == Summary.total_liters s + liters)%Q
    /\ (Summary.total_fuel_cost s' == Summary.total_fuel_cost s + cost)%Q
    /\ Summary.service_count s' = Summary.service_count s
    /\ Summary.total_service_expense s' = Summary.total_service_expense s
    /\ (fuel_rows w v = [] -> (0 < liters)%Q ->
        exists q, Summary.km_per_liter s' = Some q /\ (q == 0)%Q)
    /\ (forall v', Vehicle.id v' <> Vehicle.id v ->
                   result (usage_summary v') w' = result (usage_summary v') w)
    /\ (forall v' st km mo,
          result (predict_next_service v' st km mo) w'
          = result (predict_next_service v' st km mo) w).
Proof.
  intros Hpost Hrun.
  destruct (add_fuel_post_inv req v w pg w' Hpost Hrun)
    as (odometer & liters & price & cost & _ & Hl & Hp & Hc & _ & ->).
  do 2 eexists. exists liters, price, cost.
  split; [apply usage_summary_run | ]. split; [apply usage_summary_run | ].
  split; [exact Hl | ]. split; [exact Hp | ]. split; [exact Hc | ].
  cbn [Summary.service_count Summary.total_service_expense
       Summary.total_fuel_cost Summary.total_liters Summary.km_per_liter].
  rewrite fuel_rows_with_fuel. cbn [FuelEntry.vehicle_id].
  rewrite Z.eqb_refl.
  split; [ | split; [ | split; [reflexivity | split; [reflexivity | split;
    [ | split]]]]].
  - unfold float. rewrite !Q_or_zero, !coalesce_sum, !map_app.
    cbn [map FuelEntry.liters null_as_zero]. apply fold_right_Qplus_snoc.
  - unfold float. rewrite !Q_or_zero, !coalesce_sum, !map_app.
    cbn [map FuelEntry.total_cost null_as_zero]. apply fold_right_Qplus_snoc.
  - intros Hempty Hpos. rewrite Hempty. cbn [app].
    rewrite km_per_liter_value. cbn [map fold_left FuelEntry.liters
                                         FuelEntry.odometer].
    cbv zeta.
    destruct (Qle_bool liters 0) eqn:Hle.
    + apply Qle_bool_iff in Hle. exfalso. exact (Qlt_not_le _ _ Hpos Hle).
    + eexists. split; [reflexivity | ].
      rewrite Z.sub_diag. unfold Qdiv. ring.
  - intros v' Hv. unfold result. rewrite !usage_summary_run. cbn [fst].
    rewrite fuel_rows_with_fuel. cbn [FuelEntry.vehicle_id].
    destruct (Z.eqb_spec (Vehicle.id v) (Vehicle.id v')) as [E|_];
      [exfalso; apply Hv; symmetry; exact E | ].
    rewrite app_nil_r. reflexivity.
  - intros v' st km mo.
    apply predict_depends_on_matching_rows; reflexivity.
Qed.

End FuelFacts.

(** The first fill of the Civic, 80 l at 80 a liter with no total posted,
    is stored at the rounded product. *)
Lemma fuel_form_posted :
  add_fuel Cases.read_date Cases.read_int Cases.read_float (fun x => x)
           Cases.fuel_form Cases.civic Sample.garage
  = (Done (redirect_list_fuel 8), with_fuel Sample.garage Cases.civic_fill).
Proof. vm_compute. reflexivity. Qed.

Lemma recorded_fill_enters_summary_witness :
  exists s s' liters price cost,
    usage_summary Cases.civic Sample.garage = (Ok s, Sample.garage)
    /\ usage_summary Cases.civic (with_fuel Sample.garage Cases.civic_fill)
       = (Ok s', with_fuel Sample.garage Cases.civic_fill)
    /\ or_zero Cases.read_float 0%Q
               (form_get (Request.form Cases.fuel_form) "liters") = Some liters
    /\ or_zero Cases.read_float 0%Q
               (form_get (Request.form Cases.fuel_form) "price_per_liter")
       = Some price
    /\ stored_cost Cases.read_float (fun x => x) Cases.fuel_form liters price
       = Some cost
    /\ (Summary.total_liters s' == Summary.total_liters s + liters)%Q
    /\ (Summary.total_fuel_cost s' == Summary.total_fuel_cost s + cost)%Q
    /\ Summary.service_count s' = Summary.service_count s
    /\ Summary.total_service_expense s' = Summary.total_service_expense s
    /\ (fuel_rows Sample.garage Cases.civic = [] -> (0 < liters)%Q ->
        exists q, Summary.km_per_liter s' = Some q /\ (q == 0)%Q)
    /\ (forall v', Vehicle.id v' <> Vehicle.id Cases.civic ->
                   result (usage_summary v')
                          (with_fuel Sample.garage Cases.civic_fill)
                   = result (usage_summary v') Sample.garage)
    /\ (forall v' st km mo,
          result (predict_next_service v' st km mo)
                 (with_fuel Sample.garage Cases.civic_fill)
          = result (predict_next_service v' st km mo) Sample.garage).
Proof.
  apply (recorded_fill_enters_summary
           Cases.read_date Cases.read_int Cases.read_float (fun x => x)
           Cases.fuel_form Cases.civic Sample.garage
           (with_fuel Sample.garage Cases.civic_fill) (redirect_list_fuel 8)).
  - reflexivity.
  - exact fuel_form_posted.
Defined.
